(** * Water-quality backend: feature engineering, training run, selection,
      prediction

    A shallow embedding of [backend/app.py] (with the run store of
    [backend/utils.py]) and the properties of its specification.

    Numbers.  The program computes with IEEE doubles.  A double is modelled
    by [fval]: a finite value carried as an exact rational, the two
    infinities, or NaN.  Rounding and overflow are not modelled; the special
    values are, because the program's behaviour on missing data and on
    division by zero goes through them. *)

From Stdlib Require Import String Ascii.
From Stdlib Require Import List Bool Arith ZArith QArith Qabs Lia Lqa.
From Stdlib Require Import Permutation Sorted OrderedTypeEx.
Import ListNotations.

Local Open Scope string_scope.
Local Open Scope list_scope.
Local Open Scope Q_scope.

(* ================================================================== *)
(** ** Floating-point values *)

Inductive fval : Type :=
| Fin (q : Q)
| PInf
| NInf
| NaN.

Definition is_nan (x : fval) : bool :=
  match x with NaN => true | _ => false end.

Definition is_finite (x : fval) : bool :=
  match x with Fin _ => true | _ => false end.

(** [x <= y] on doubles: false as soon as one side is NaN. *)
Definition fle (x y : fval) : bool :=
  match x, y with
  | NaN, _ | _, NaN => false
  | NInf, _ => true
  | _, PInf => true
  | Fin a, Fin b => Qle_bool a b
  | _, _ => false
  end.

(** [x < y] on doubles. *)
Definition flt (x y : fval) : bool :=
  match x, y with
  | NaN, _ | _, NaN => false
  | PInf, _ => false
  | _, NInf => false
  | Fin a, Fin b => negb (Qle_bool b a)
  | _, _ => true
  end.

Definition fneg (x : fval) : fval :=
  match x with
  | Fin a => Fin (- a)
  | PInf => NInf
  | NInf => PInf
  | NaN => NaN
  end.

Definition fabs (x : fval) : fval :=
  match x with
  | Fin a => Fin (Qabs a)
  | PInf | NInf => PInf
  | NaN => NaN
  end.

Definition fadd (x y : fval) : fval :=
  match x, y with
  | NaN, _ | _, NaN => NaN
  | PInf, NInf | NInf, PInf => NaN
  | PInf, _ | _, PInf => PInf
  | NInf, _ | _, NInf => NInf
  | Fin a, Fin b => Fin (a + b)
  end.

Definition fsub (x y : fval) : fval := fadd x (fneg y).

(** Sign of a rational as a comparison with zero. *)
Definition qsign (a : Q) : comparison := a ?= 0.

Definition inf_of_sign (c : comparison) : fval :=
  match c with Gt => PInf | Lt => NInf | Eq => NaN end.

Definition fmul (x y : fval) : fval :=
  match x, y with
  | NaN, _ | _, NaN => NaN
  | Fin a, Fin b => Fin (a * b)
  | Fin a, PInf | PInf, Fin a => inf_of_sign (qsign a)
  | Fin a, NInf | NInf, Fin a => inf_of_sign (CompOpp (qsign a))
  | PInf, PInf | NInf, NInf => PInf
  | PInf, NInf | NInf, PInf => NInf
  end.

(** Division as numpy performs it: no exception, [x/0] is an infinity of the
    sign of [x] and [0/0] is NaN (a zero obtained as a sum is [+0.0]). *)
Definition fdiv (x y : fval) : fval :=
  match x, y with
  | NaN, _ | _, NaN => NaN
  | Fin a, Fin b =>
      if Qeq_bool b 0 then inf_of_sign (qsign a) else Fin (a / b)
  | Fin _, (PInf | NInf) => Fin 0
  | PInf, Fin b => if Qle_bool 0 b then PInf else NInf
  | NInf, Fin b => if Qle_bool 0 b then NInf else PInf
  | (PInf | NInf), (PInf | NInf) => NaN
  end.

(* ================================================================== *)
(** ** [classify_wqi] *)

Definition classify_wqi (wqi : fval) : string :=
  if fle wqi (Fin 25) then "Excellent"
  else if fle wqi (Fin 50) then "Good"
  else if fle wqi (Fin 75) then "Poor"
  else if fle wqi (Fin 100) then "Very Poor"
  else "Unsuitable for Drinking".

Definition wqi_labels : list string :=
  ["Excellent"; "Good"; "Poor"; "Very Poor"; "Unsuitable for Drinking"].

(* ================================================================== *)
(** ** Python lists: membership, stable sort *)

Definition str_in (s : string) (l : list string) : bool :=
  existsb (String.eqb s) l.

(** [list.sort] is stable and only ever asks [x < y].  [insert_by lt x l]
    puts [x] in front of the first element that is not below it, so an
    element stays ahead of the equal ones that followed it. *)
Fixpoint insert_by {A : Type} (lt : A -> A -> bool) (x : A) (l : list A)
  : list A :=
  match l with
  | [] => [x]
  | y :: l' => if lt y x then y :: insert_by lt x l' else x :: y :: l'
  end.

Definition list_sort {A : Type} (lt : A -> A -> bool) (l : list A) : list A :=
  fold_right (insert_by lt) [] l.

(** [l.sort(reverse=True)]: the same with the comparison turned round. *)
Definition list_sort_reverse {A : Type} (lt : A -> A -> bool) (l : list A)
  : list A :=
  list_sort (fun x y => lt y x) l.

(* ================================================================== *)
(** ** Strings *)

(** [sub in s] *)
Fixpoint str_contains (sub s : string) : bool :=
  if String.prefix sub s then true
  else match s with
       | EmptyString => false
       | String _ s' => str_contains sub s'
       end.

Definition startswith (s pre : string) : bool := String.prefix pre s.

Fixpoint str_rev_onto (s acc : string) : string :=
  match s with
  | EmptyString => acc
  | String c s' => str_rev_onto s' (String c acc)
  end.

Definition str_rev (s : string) : string := str_rev_onto s EmptyString.

Definition endswith (s suf : string) : bool :=
  String.prefix (str_rev suf) (str_rev s).

Definition lower_ascii (c : ascii) : ascii :=
  let n := nat_of_ascii c in
  if (65 <=? n)%nat && (n <=? 90)%nat then ascii_of_nat (n + 32) else c.

Fixpoint str_lower (s : string) : string :=
  match s with
  | EmptyString => EmptyString
  | String c s' => String (lower_ascii c) (str_lower s')
  end.

(** The part of [s] before its first ["."] (all of [s] when there is none). *)
Fixpoint before_dot (s : string) : string :=
  match s with
  | EmptyString => EmptyString
  | String c s' =>
      if Ascii.eqb c "."%char then EmptyString else String c (before_dot s')
  end.

(** [s.rsplit('.', 1)[1]] for an [s] that holds a dot: what follows the last
    one. *)
Definition after_last_dot (s : string) : string :=
  str_rev (before_dot (str_rev s)).

Definition ALLOWED_EXTENSIONS : list string := ["csv"].

Definition allowed_file (filename : string) : bool :=
  str_contains "." filename
  && str_in (str_lower (after_last_dot filename)) ALLOWED_EXTENSIONS.

(* ================================================================== *)
(** ** Data frames *)

(** The column types [pandas.read_csv] produces. *)
Inductive dtype : Type :=
| float64
| int64
| bool_
| object_
| string_.

(** [dtype == 'object' or dtype == 'string'] *)
Definition is_text (d : dtype) : bool :=
  match d with object_ | string_ => true | _ => false end.

(** [np.number]: integer and floating types; [bool] is not one. *)
Definition is_number (d : dtype) : bool :=
  match d with float64 | int64 => true | _ => false end.

(** A column.  The cells of a text column are never read (the column is
    dropped before any numeric step), so only numeric content is carried. *)
Record Series : Type := mkSeries {
  cname : string;
  sdtype : dtype;
  cells : list fval
}.

(** A frame is the list of its columns, in order.  Labels may repeat:
    [rename] can map two labels to one. *)
Definition DataFrame : Type := list Series.

Definition columns (df : DataFrame) : list string := map cname df.

Definition has_col (c : string) (df : DataFrame) : bool :=
  str_in c (columns df).

Definition nrows (df : DataFrame) : nat :=
  match df with
  | [] => 0%nat
  | s :: _ => length (cells s)
  end.

(** [df.drop(columns=[c])]: every column labelled [c] goes. *)
Definition drop_col (c : string) (df : DataFrame) : DataFrame :=
  filter (fun s => negb (String.eqb (cname s) c)) df.

(** What [df[c]] is: a Series when the label is unique, a DataFrame when it
    repeats, a [KeyError] when it is absent. *)
Inductive getitem_result : Type :=
| GetSeries (s : Series)
| GetFrame (d : DataFrame)
| GetKeyError.

Definition getitem (c : string) (df : DataFrame) : getitem_result :=
  match filter (fun s => String.eqb (cname s) c) df with
  | [] => GetKeyError
  | [s] => GetSeries s
  | d => GetFrame d
  end.

(** Cells of the column labelled [c] (empty when absent). *)
Definition col_cells (c : string) (df : DataFrame) : list fval :=
  match find (fun s => String.eqb (cname s) c) df with
  | Some s => cells s
  | None => []
  end.

Definition col_dtype (c : string) (df : DataFrame) : dtype :=
  match find (fun s => String.eqb (cname s) c) df with
  | Some s => sdtype s
  | None => float64
  end.

(** [df[c] = values]: overwrite in place when the label exists, else append
    as the last column. *)
Definition setitem (c : string) (d : dtype) (v : list fval) (df : DataFrame)
  : DataFrame :=
  if has_col c df
  then map (fun s => if String.eqb (cname s) c then mkSeries c d v else s) df
  else df ++ [mkSeries c d v].

(* ------------------------------------------------------------------ *)
(** *** Configuration *)

Definition FEATURES : list string :=
  ["Temp"; "pH"; "Conductivity"; "Nitrate"; "Fecal_Coliform";
   "Total_Coliform"; "TDS"; "Fluoride"].

Definition TARGET : string := "WQI".

Definition RENAME_MAP : list (string * string) :=
  [ ("Temperature ⁰C", "Temp");
    ("Temperature", "Temp");
    ("Conductivity (μmhos/cm)", "Conductivity");
    ("Nitrate N (mg/L)", "Nitrate");
    ("Nitrate", "Nitrate");
    ("Faecal Coliform (MPN/100ml)", "Fecal_Coliform");
    ("Fecal Coliform (MPN/100ml)", "Fecal_Coliform");
    ("Total Coliform (MPN/100ml)", "Total_Coliform");
    ("Total Dissolved Solids (mg/L)", "TDS");
    ("Fluoride (mg/L)", "Fluoride") ].

Definition cols_to_drop : list string :=
  ["State Name"; "State"; "Location"; "Station"; "Date";
   "Monitoring Location"; "Station Code"; "District"; "Block";
   "WQI_Classification"; "WQI_Class"; "WQI_Class_Encoded"].

(* ================================================================== *)
(** ** Exceptions *)

Inductive Exception : Type :=
| MissingColumns (missing available : list string)
    (** [ValueError(f"Missing required columns: {missing}. Available:
        {available}")], raised by [preprocess_dataframe] *)
| AttributeError (msg : string)
| KeyError (key : string)
| IndexError (msg : string)
| ValueError (msg : string)
| LibraryError (msg : string)
    (** whatever pandas, scikit-learn, xgboost, joblib or the operating
        system raised inside a call *).

(** A Python call either returns or raises. *)
Inductive result (A : Type) : Type :=
| Return (a : A)
| Raise (e : Exception).

Arguments Return {A} a.
Arguments Raise {A} e.

Definition bind {A B : Type} (r : result A) (k : A -> result B) : result B :=
  match r with
  | Return a => k a
  | Raise e => Raise e
  end.

Notation "x <- c ;; k" := (bind c (fun x => k))
  (at level 61, c at next level, right associativity).

(* ================================================================== *)
(** ** [preprocess_dataframe] *)

(** [{k: v for k, v in RENAME_MAP.items() if k in df.columns}] *)
Definition present_map (df : DataFrame) : list (string * string) :=
  filter (fun kv => has_col (fst kv) df) RENAME_MAP.

Definition dict_get (m : list (string * string)) (k : string) : option string :=
  match find (fun kv => String.eqb (fst kv) k) m with
  | Some kv => Some (snd kv)
  | None => None
  end.

(** [df.rename(columns=m)] *)
Definition rename_columns (m : list (string * string)) (df : DataFrame)
  : DataFrame :=
  map (fun s => match dict_get m (cname s) with
                | Some v => mkSeries v (sdtype s) (cells s)
                | None => s
                end) df.

(** [for col in cols_to_drop: if col in df.columns: df = df.drop(...)] *)
Definition drop_listed (df : DataFrame) : DataFrame :=
  fold_left (fun d col => if has_col col d then drop_col col d else d)
            cols_to_drop df.

(** [for col in df.columns: if df[col].dtype == 'object' or ...: drop].
    The labels iterated are those of the frame the loop started with;
    [df[col]] is a DataFrame when the label repeats, and a DataFrame has no
    [dtype]. *)
Fixpoint drop_non_numeric (cols : list string) (df : DataFrame)
  : result DataFrame :=
  match cols with
  | [] => Return df
  | col :: rest =>
      match getitem col df with
      | GetSeries s =>
          if is_text (sdtype s)
          then drop_non_numeric rest (drop_col col df)
          else drop_non_numeric rest df
      | GetFrame _ =>
          Raise (AttributeError "'DataFrame' object has no attribute 'dtype'")
      | GetKeyError => Raise (KeyError col)
      end
  end.

(** Renaming and the two rounds of dropping. *)
Definition clean_columns (df : DataFrame) : result DataFrame :=
  let df1 := rename_columns (present_map df) df in
  let df2 := drop_listed df1 in
  drop_non_numeric (columns df2) df2.

(** [[c for c in required if c not in df.columns]] *)
Definition missing_from (required : list string) (df : DataFrame)
  : list string :=
  filter (fun c => negb (has_col c df)) required.

(** The check for required features. *)
Definition check_required (df : DataFrame) (is_training : bool) : result unit :=
  let missing_cols := missing_from FEATURES df in
  if is_training then
    let missing_cols_with_target := missing_from (FEATURES ++ [TARGET]) df in
    match missing_cols_with_target with
    | [] => Return tt
    | _ => Raise (MissingColumns missing_cols_with_target (columns df))
    end
  else
    match missing_cols with
    | [] => Return tt
    | _ => Raise (MissingColumns missing_cols (columns df))
    end.

(** [Series.median()]: NaN cells are skipped; the middle of the sorted rest,
    the mean of the two middle ones when their number is even, NaN when
    nothing is left. *)
Definition dropna (v : list fval) : list fval :=
  filter (fun x => negb (is_nan x)) v.

Definition median_sorted (l : list fval) : fval :=
  let n := length l in
  match n with
  | O => NaN
  | _ =>
      if Nat.even n
      then fdiv (fadd (nth (n / 2 - 1) l NaN) (nth (n / 2) l NaN)) (Fin 2)
      else nth (n / 2) l NaN
  end.

Definition series_median (v : list fval) : fval :=
  median_sorted (list_sort flt (dropna v)).

(** [Series.fillna(m)] *)
Definition fillna (m : fval) (v : list fval) : list fval :=
  map (fun x => if is_nan x then m else x) v.

(** One round of the imputation loop:
    [if col in df.columns: if df[col].isna().any():
       df[col].fillna(df[col].median(), inplace=True)]
    with the write reaching the frame, as it does in pandas without
    copy-on-write.  The step is reached with unique labels only (see
    [clean_columns_NoDup]). *)
Definition impute_col (col : string) (df : DataFrame) : DataFrame :=
  if has_col col df then
    if existsb is_nan (col_cells col df) then
      map (fun s =>
             if String.eqb (cname s) col
             then mkSeries (cname s) (sdtype s)
                           (fillna (series_median (cells s)) (cells s))
             else s) df
    else df
  else df.

Definition impute_missing (df : DataFrame) (is_training : bool) : DataFrame :=
  let df1 := fold_left (fun d col => impute_col col d) FEATURES df in
  if is_training && has_col TARGET df1 then impute_col TARGET df1 else df1.

(** Element-wise arithmetic of two columns (same index, so cell by cell). *)
Fixpoint zip_with (f : fval -> fval -> fval) (a b : list fval) : list fval :=
  match a, b with
  | x :: a', y :: b' => f x y :: zip_with f a' b'
  | _, _ => []
  end.

(** Result types of [*], [** 2]; [/] and [log1p] always give float64. *)
Definition mul_dtype (a b : dtype) : dtype :=
  match a, b with
  | bool_, bool_ => bool_
  | int64, int64 | int64, bool_ | bool_, int64 => int64
  | _, _ => float64
  end.

Definition pow_dtype (a : dtype) : dtype :=
  match a with
  | int64 | bool_ => int64
  | _ => float64
  end.

Definition all_in (cs : list string) (df : DataFrame) : bool :=
  forallb (fun c => has_col c df) cs.

Definition ratio (num den : fval) : fval := fdiv num (fadd den (Fin 1)).

Definition square (x : fval) : fval := fmul x x.

Section FeatureEngineering.

(** [numpy.log1p] on one cell: log(1 + x). *)
Variable np_log1p : fval -> fval.

Definition add_log (col : string) (df : DataFrame) : DataFrame :=
  if has_col col df
  then setitem (col ++ "_log")%string float64
               (map np_log1p (col_cells col df)) df
  else df.

(** [df['pH_Temp_interaction'] = df['pH'] * df['Temp']] *)
Definition add_interaction (df : DataFrame) : DataFrame :=
  if all_in ["pH"; "Temp"] df
  then setitem "pH_Temp_interaction"
               (mul_dtype (col_dtype "pH" df) (col_dtype "Temp" df))
               (zip_with fmul (col_cells "pH" df) (col_cells "Temp" df)) df
  else df.

(** [df['TDS_Conductivity_ratio'] = df['TDS'] / (df['Conductivity'] + 1)] *)
Definition add_tds_ratio (df : DataFrame) : DataFrame :=
  if all_in ["TDS"; "Conductivity"] df
  then setitem "TDS_Conductivity_ratio" float64
               (zip_with ratio (col_cells "TDS" df)
                               (col_cells "Conductivity" df)) df
  else df.

(** [df['Coliform_ratio'] =
     df['Fecal_Coliform'] / (df['Total_Coliform'] + 1)] *)
Definition add_coliform_ratio (df : DataFrame) : DataFrame :=
  if all_in ["Fecal_Coliform"; "Total_Coliform"] df
  then setitem "Coliform_ratio" float64
               (zip_with ratio (col_cells "Fecal_Coliform" df)
                               (col_cells "Total_Coliform" df)) df
  else df.

(** [for col in ['Fecal_Coliform', 'Total_Coliform', 'TDS']: ...] *)
Definition add_logs (df : DataFrame) : DataFrame :=
  fold_left (fun d col => add_log col d)
            ["Fecal_Coliform"; "Total_Coliform"; "TDS"] df.

(** [df['pH_squared'] = df['pH'] ** 2] *)
Definition add_pH_squared (df : DataFrame) : DataFrame :=
  if has_col "pH" df
  then setitem "pH_squared" (pow_dtype (col_dtype "pH" df))
               (map square (col_cells "pH" df)) df
  else df.

(** [df['Temp_squared'] = df['Temp'] ** 2] *)
Definition add_Temp_squared (df : DataFrame) : DataFrame :=
  if has_col "Temp" df
  then setitem "Temp_squared" (pow_dtype (col_dtype "Temp" df))
               (map square (col_cells "Temp" df)) df
  else df.

(** Steps 2 to 4 of the feature engineering: interaction, ratio, log and
    polynomial features in the order of the code, each under its own
    presence test. *)
Definition add_derived_features (df : DataFrame) : DataFrame :=
  add_Temp_squared
    (add_pH_squared
       (add_logs
          (add_coliform_ratio (add_tds_ratio (add_interaction df))))).

Definition preprocess_dataframe (df : DataFrame) (is_training : bool)
  : result DataFrame :=
  df1 <- clean_columns df ;;
  _ <- check_required df1 is_training ;;
  Return (add_derived_features (impute_missing df1 is_training)).

End FeatureEngineering.

(* ================================================================== *)
(** ** Records of a run, files, process state *)

(** A fitted pipeline (scaler and estimator), as [joblib] stores it. *)
Record Pipeline : Type := mkPipeline {
  predict_fn : DataFrame -> result (list fval);
  feature_importances_ : option (list fval)
}.

Record ResultRecord : Type := mkResult {
  model_name : string;
  cv_rmse : fval;
  test_r2 : fval;
  test_mae : fval;
  test_rmse : Q;
  test_mape : fval;
  best_params : list (string * string);
  model_file : string;
  feature_importance : option (list string * list fval)
}.

Record Summary : Type := mkSummary {
  timestamp : string;
  dataset_file : string;
  dataset_shape : nat * nat;
  features_used : list string;
  train_size : nat;
  test_size : nat;
  summary_models_trained : list ResultRecord;
  summary_best_model : string
}.

Record Stats : Type := mkStats {
  mean_wqi : fval;
  median_wqi : fval;
  min_wqi : fval;
  max_wqi : fval;
  std_wqi : fval
}.

Record PredictionMeta : Type := mkPredictionMeta {
  meta_timestamp : string;
  meta_model_used : string;
  meta_total_predictions : nat;
  meta_statistics : Stats;
  meta_class_distribution : list (string * nat);
  meta_output_file : string
}.

Inductive Content : Type :=
| Pickle (p : Pipeline)
| SummaryJson (s : Summary)
| HistoryJson (h : list Summary)
| PredictionMetaJson (m : PredictionMeta)
| PredictionsCsv (original : DataFrame) (predicted : list fval)
                 (classes : list string)
| UploadedCsv
| OtherContent.

(** A directory entry: its name, whether [os.path.isfile] holds, whether
    [os.remove] succeeds on it, and what it holds. *)
Record Entry : Type := mkEntry {
  fname : string;
  isfile : bool;
  removable : bool;
  content : Content
}.

Definition Folder : Type := list Entry.

(** [os.listdir].  The order in which the operating system lists a
    directory is arbitrary; the order of the list stands for one such
    order, and the statements about a listing are made up to permutation
    or by membership. *)
Definition listdir (d : Folder) : list string := map fname d.

Definition lookup_entry (name : string) (d : Folder) : option Entry :=
  find (fun e => String.eqb (fname e) name) d.

(** Writing [name]: a new regular file, or new content under that name.
    Writes are taken to succeed. *)
Definition write_file (name : string) (c : Content) (d : Folder) : Folder :=
  match lookup_entry name d with
  | None => d ++ [mkEntry name true true c]
  | Some _ =>
      map (fun e => if String.eqb (fname e) name
                    then mkEntry name true (removable e) c
                    else e) d
  end.

(** The clearing loop of [train_models] on one folder: regular files are
    removed; a failing [os.remove] is printed and skipped. *)
Definition clear_folder (d : Folder) : Folder :=
  filter (fun e => negb (isfile e && removable e)) d.

Record TrainingState : Type := mkTrainingState {
  is_training : bool;
  progress : Z;
  current_model : string;
  models_trained : list string
}.

(** The module-level [training_state] as the process starts. *)
Definition initial_training_state : TrainingState :=
  mkTrainingState false 0%Z "" [].

(** Everything a request can read or change. *)
Record World : Type := mkWorld {
  training_state : TrainingState;
  UPLOAD_FOLDER : Folder;
  MODEL_FOLDER : Folder;
  RESULTS_FOLDER : Folder
}.

Definition set_training_state (f : TrainingState -> TrainingState) (w : World)
  : World :=
  mkWorld (f (training_state w)) (UPLOAD_FOLDER w) (MODEL_FOLDER w)
          (RESULTS_FOLDER w).

Definition set_is_training (b : bool) (w : World) : World :=
  set_training_state
    (fun t => mkTrainingState b (progress t) (current_model t)
                              (models_trained t)) w.

Definition set_progress (p : Z) (w : World) : World :=
  set_training_state
    (fun t => mkTrainingState (is_training t) p (current_model t)
                              (models_trained t)) w.

Definition set_current_model (n : string) (w : World) : World :=
  set_training_state
    (fun t => mkTrainingState (is_training t) (progress t) n
                              (models_trained t)) w.

(** [training_state['models_trained'].append(name)] *)
Definition append_models_trained (n : string) (w : World) : World :=
  set_training_state
    (fun t => mkTrainingState (is_training t) (progress t) (current_model t)
                              (models_trained t ++ [n])) w.

(* ------------------------------------------------------------------ *)
(** *** Computations on the world that may raise *)

Definition M (A : Type) : Type := World -> result A * World.

Definition ret {A : Type} (a : A) : M A := fun w => (Return a, w).

Definition raise {A : Type} (e : Exception) : M A := fun w => (Raise e, w).

Definition lift {A : Type} (r : result A) : M A := fun w => (r, w).

Definition modify (f : World -> World) : M unit := fun w => (Return tt, f w).

Definition mbind {A B : Type} (m : M A) (k : A -> M B) : M B :=
  fun w => match m w with
           | (Return a, w') => k a w'
           | (Raise e, w') => (Raise e, w')
           end.

Notation "x <~ c ;; k" := (mbind c (fun x => k))
  (at level 61, c at next level, right associativity).
Notation "c ;;; k" := (mbind c (fun _ => k))
  (at level 61, right associativity).

Definition write_upload (name : string) : M unit :=
  modify (fun w => mkWorld (training_state w)
                           (write_file name UploadedCsv (UPLOAD_FOLDER w))
                           (MODEL_FOLDER w) (RESULTS_FOLDER w)).

Definition write_model (name : string) (c : Content) : M unit :=
  modify (fun w => mkWorld (training_state w) (UPLOAD_FOLDER w)
                           (write_file name c (MODEL_FOLDER w))
                           (RESULTS_FOLDER w)).

Definition write_result (name : string) (c : Content) : M unit :=
  modify (fun w => mkWorld (training_state w) (UPLOAD_FOLDER w)
                           (MODEL_FOLDER w)
                           (write_file name c (RESULTS_FOLDER w))).

(** [for folder in [MODEL_FOLDER, RESULTS_FOLDER]: ... os.remove ...] *)
Definition clear_models_and_results (w : World) : World :=
  mkWorld (training_state w) (UPLOAD_FOLDER w)
          (clear_folder (MODEL_FOLDER w)) (clear_folder (RESULTS_FOLDER w)).

(* ------------------------------------------------------------------ *)
(** *** Requests and responses *)

(** An uploaded file: its name and what saving it and reading it back with
    [pd.read_csv] gives. *)
Record Upload : Type := mkUpload {
  filename : string;
  read_csv : result DataFrame
}.

(** A multipart request as the two endpoints read it, with the clock value
    [datetime.now().strftime('%Y%m%d_%H%M%S')] of the moment it is served. *)
Record Request : Type := mkRequest {
  files_file : option Upload;
  form_model_name : option string;
  now : string
}.

Inductive Response (A : Type) : Type :=
| Ok200 (body : A)
| ErrorJson (status : Z) (error : string)
    (** [jsonify({'error': error, ...}), status] *)
| Error500 (e : Exception)
    (** [jsonify({'error': str(e), 'traceback': traceback.format_exc()}), 500] *).

Arguments Ok200 {A} body.
Arguments ErrorJson {A} status error.
Arguments Error500 {A} e.

Record TrainBody : Type := mkTrainBody {
  body_summary : Summary;
  body_models : list ResultRecord;
  body_best_model : string
}.

Record PredictBody : Type := mkPredictBody {
  body_model_used : string;
  body_total_predictions : nat;
  body_statistics : Stats;
  body_class_distribution : list (string * nat);
  body_sample_predictions : DataFrame * list string;
  body_output_file : string
}.

(* ================================================================== *)
(** ** The run store ([utils.py]) *)

Definition LATEST_TRAINING_FILE : string := "latest_training.json".
Definition TRAINING_HISTORY_FILE : string := "training_history.json".
Definition LATEST_PREDICTION_FILE : string := "latest_prediction.json".

(** [history[-50:]] *)
Definition last_50 {A : Type} (h : list A) : list A :=
  skipn (length h - 50) h.

Definition append_to_training_history (training_data : Summary) : M unit :=
  history <~ (fun w =>
                match lookup_entry TRAINING_HISTORY_FILE (RESULTS_FOLDER w) with
                | None => (Return [], w)
                | Some e =>
                    match content e with
                    | HistoryJson h => (Return h, w)
                    | _ => (Raise (LibraryError "training_history.json"), w)
                    end
                end) ;;
  write_result TRAINING_HISTORY_FILE
               (HistoryJson (last_50 (history ++ [training_data]))).

Definition save_latest_training (training_data : Summary) : M unit :=
  write_result LATEST_TRAINING_FILE (SummaryJson training_data) ;;;
  append_to_training_history training_data.

Definition save_prediction_metadata (prediction_data : PredictionMeta)
  : M unit :=
  write_result LATEST_PREDICTION_FILE (PredictionMetaJson prediction_data).

(* ================================================================== *)
(** ** Held-out MAPE *)

(** [epsilon = 1e-10] *)
Definition epsilon : Q := 1 # 10000000000.

Definition np_sum (v : list fval) : fval := fold_left fadd v (Fin 0).

(** [np.mean]: the sum over the count; NaN on an empty array. *)
Definition np_mean (v : list fval) : fval :=
  fdiv (np_sum v) (Fin (inject_Z (Z.of_nat (length v)))).

(** Python's [min(a, b)]: [b] when [b < a], else [a]. *)
Definition py_min (a b : fval) : fval := if flt b a then b else a.

(** [np.mean(np.abs((y_test - y_pred) / (y_test + epsilon))) * 100] *)
Definition mape_percent (y_test y_pred : list fval) : fval :=
  fmul (np_mean (map fabs
                     (zip_with (fun y p => fdiv (fsub y p) (fadd y (Fin epsilon)))
                               y_test y_pred)))
       (Fin 100).

(** [mape = min(mape, 100.0)] *)
Definition clipped_mape (y_test y_pred : list fval) : fval :=
  py_min (mape_percent y_test y_pred) (Fin 100).

(* ================================================================== *)
(** ** The model registry *)

(** A pipeline before fitting: whether a [StandardScaler] comes first. *)
Record PipelineSpec : Type := mkSpec { scaled : bool }.

(** [build_models()], in insertion order. *)
Definition build_models : list (string * PipelineSpec) :=
  [ ("Ridge", mkSpec true);
    ("SVR", mkSpec true);
    ("RandomForest", mkSpec false);
    ("GradientBoosting", mkSpec false);
    ("XGBoost", mkSpec false) ].

(** [get_param_spaces()]: the names of the searched parameters. *)
Definition get_param_spaces : list (string * list string) :=
  [ ("Ridge", ["model__alpha"]);
    ("SVR", ["model__C"; "model__epsilon"; "model__gamma"]);
    ("RandomForest",
     ["model__n_estimators"; "model__max_depth"; "model__min_samples_split";
      "model__min_samples_leaf"; "model__max_features"]);
    ("GradientBoosting",
     ["model__n_estimators"; "model__learning_rate"; "model__max_depth";
      "model__subsample"; "model__min_samples_split";
      "model__min_samples_leaf"]);
    ("XGBoost",
     ["model__n_estimators"; "model__learning_rate"; "model__max_depth";
      "model__subsample"; "model__colsample_bytree"; "model__reg_lambda";
      "model__reg_alpha"]) ].

(** [param_spaces.get(name, {})] *)
Definition param_space (name : string) : list string :=
  match find (fun kv => String.eqb (fst kv) name) get_param_spaces with
  | Some kv => snd kv
  | None => []
  end.

Definition registry_names : list string := map fst build_models.

(* ================================================================== *)
(** ** Selection *)

(** [results.sort(key=lambda x: x['test_rmse'])] *)
Definition sort_by_test_rmse (results : list ResultRecord)
  : list ResultRecord :=
  list_sort (fun a b => negb (Qle_bool (test_rmse b) (test_rmse a))) results.

(** [l[0]] *)
Definition first_item {A : Type} (l : list A) : result A :=
  match l with
  | x :: _ => Return x
  | [] => Raise (IndexError "list index out of range")
  end.

(* ================================================================== *)
(** ** Training *)

Record Split : Type := mkSplit {
  X_train : DataFrame;
  X_test : DataFrame;
  y_train : list fval;
  y_test : list fval
}.

(** What a hyperparameter search hands back. *)
Record Search : Type := mkSearch {
  best_estimator_ : Pipeline;
  best_score_ : fval;
  best_params_ : list (string * string)
}.

Record Metrics : Type := mkMetrics {
  r2_score : fval;
  mean_absolute_error : fval;
  root_mean_squared_error : Q
}.

(** [numeric_df = df.select_dtypes(include=[np.number])] *)
Definition select_number (df : DataFrame) : DataFrame :=
  filter (fun s => is_number (sdtype s)) df.

Definition excluded_feature_cols : list string :=
  ["WQI_Class"; "WQI_Class_Encoded"; "WQI_Classification"].

Definition feature_cols_of (numeric_df : DataFrame) : list string :=
  filter (fun col => negb (String.eqb col TARGET)
                     && negb (str_in col excluded_feature_cols))
         (columns numeric_df).

(** [numeric_df[cols]] for labels taken from the frame itself. *)
Definition select_cols (cols : list string) (df : DataFrame) : DataFrame :=
  filter (fun s => str_in (cname s) cols) df.

(** [~(X.isna().any(axis=1) | y.isna())] *)
Definition valid_indices (X : DataFrame) (y : list fval) (n : nat)
  : list bool :=
  map (fun i => negb (existsb (fun s => is_nan (nth i (cells s) NaN)) X
                      || is_nan (nth i y NaN)))
      (seq 0 n).

Fixpoint select_rows (mask : list bool) (v : list fval) : list fval :=
  match mask, v with
  | m :: mask', x :: v' =>
      if m then x :: select_rows mask' v' else select_rows mask' v'
  | _, _ => []
  end.

Definition frame_rows (mask : list bool) (df : DataFrame) : DataFrame :=
  map (fun s => mkSeries (cname s) (sdtype s) (select_rows mask (cells s))) df.

Definition count_true (mask : list bool) : nat :=
  length (filter (fun b => b) mask).

(** [int((idx / total_models) * 100)] *)
Definition progress_of (idx total_models : nat) : Z :=
  (Z.of_nat idx * 100 / Z.of_nat total_models)%Z.

Definition model_filename (name timestamp : string) : string :=
  (name ++ "_model_" ++ timestamp ++ ".pkl")%string.

Definition dquote : string := String (ascii_of_nat 34) EmptyString.

(** [f'Target column "{TARGET}" not found in dataset'] *)
Definition target_not_found_message : string :=
  ("Target column " ++ dquote ++ TARGET ++ dquote ++ " not found in dataset")%string.

(* ================================================================== *)
(** ** Statistics over predictions *)

Definition np_median (v : list fval) : fval :=
  if existsb is_nan v then NaN else median_sorted (list_sort flt v).

Definition nan_min (a b : fval) : fval :=
  if is_nan a || is_nan b then NaN else if flt b a then b else a.

Definition nan_max (a b : fval) : fval :=
  if is_nan a || is_nan b then NaN else if flt a b then b else a.

(** [ndarray.min()] and [.max()] raise on an empty array. *)
Definition np_min (v : list fval) : result fval :=
  match v with
  | [] => Raise (ValueError "zero-size array to reduction operation minimum")
  | x :: v' => Return (fold_left nan_min v' x)
  end.

Definition np_max (v : list fval) : result fval :=
  match v with
  | [] => Raise (ValueError "zero-size array to reduction operation maximum")
  | x :: v' => Return (fold_left nan_max v' x)
  end.

Definition count_label (l : string) (classes : list string) : nat :=
  length (filter (String.eqb l) classes).

(** [Series.unique()]: the distinct labels in order of first appearance. *)
Fixpoint pd_unique (classes : list string) : list string :=
  match classes with
  | [] => []
  | l :: rest =>
      l :: filter (fun l' => negb (String.eqb l' l)) (pd_unique rest)
  end.

(** [value_counts().to_dict()]: the labels that occur, each with its count,
    most frequent first, labels of equal count in order of first
    appearance.  This is the order of the dict and of the JSON file written
    from it; [jsonify] sorts the keys of the answer, so no order is meant
    where the list stands for the answer. *)
Definition value_counts (classes : list string) : list (string * nat) :=
  list_sort_reverse
    (fun a b => (snd a <? snd b)%nat)
    (map (fun l => (l, count_label l classes)) (pd_unique classes)).

Definition feature_markers : list string :=
  ["interaction"; "ratio"; "log"; "squared"].

(** The feature columns [predict] hands to the model. *)
Definition predict_feature_cols (df : DataFrame) : list string :=
  filter (fun col => str_in col FEATURES
                     || existsb (fun feat => str_contains feat col)
                                feature_markers)
         (columns df).

(** [[f for f in os.listdir(MODEL_FOLDER)
      if f.startswith(f"{model_name}_model_") and f.endswith('.pkl')]] *)
Definition matching_model_files (model_name : string) (d : Folder)
  : list string :=
  filter (fun f => startswith f (model_name ++ "_model_")%string
                   && endswith f ".pkl")
         (listdir d).

(** [request.form.get('model_name', 'XGBoost')] *)
Definition requested_model (request : Request) : string :=
  match form_model_name request with
  | Some n => n
  | None => "XGBoost"
  end.

(** [joblib.load(os.path.join(MODEL_FOLDER, name))] *)
Definition joblib_load (name : string) (d : Folder) : result Pipeline :=
  match lookup_entry name d with
  | Some e =>
      if isfile e
      then match content e with
           | Pickle p => Return p
           | _ => Raise (LibraryError "UnpicklingError")
           end
      else Raise (LibraryError "IsADirectoryError")
  | None => Raise (LibraryError "FileNotFoundError")
  end.

(* ================================================================== *)
(** ** The two endpoints *)

Section Backend.

(** Library calls the endpoints make; each is a function of its
    arguments (every seed is fixed at 42). *)
Variable np_log1p : fval -> fval.
Variable np_std : list fval -> fval.
Variable secure_filename : string -> string.
Variable train_test_split : DataFrame -> list fval -> result Split.
(** [RandomizedSearchCV(pipe, params, n_iter, ...).fit(X_train, y_train)] *)
Variable randomized_search :
  string -> PipelineSpec -> list string -> nat -> DataFrame -> list fval ->
  result Search.
(** [pipe.fit(X_train, y_train)] *)
Variable pipe_fit :
  string -> PipelineSpec -> DataFrame -> list fval -> result Pipeline.
(** [cross_val_score(pipe, X_train, y_train, ...)] *)
Variable cross_val_score :
  string -> PipelineSpec -> DataFrame -> list fval -> result (list fval).
(** [best_pipe.fit(X_train, y_train)] *)
Variable refit : Pipeline -> DataFrame -> list fval -> result Pipeline.
(** [r2_score], [mean_absolute_error] and
    [math.sqrt(mean_squared_error(...))] of [(y_test, y_pred)]; they raise
    on arrays of different lengths and on non-finite entries, so the
    root-mean-square error returned is a finite number *)
Variable sk_metrics : list fval -> list fval -> result Metrics.

(** The tuning branch of one loop round. *)
Definition tune (name : string) (pipe : PipelineSpec) (sp : Split)
  : result (Pipeline * fval * list (string * string)) :=
  let params := param_space name in
  let n_iter := if (0 <? length params)%nat then 30%nat else 1%nat in
  if (0 <? length params)%nat then
    search <- randomized_search name pipe params n_iter
                                (X_train sp) (y_train sp) ;;
    Return (best_estimator_ search, fneg (best_score_ search),
            best_params_ search)
  else
    fitted <- pipe_fit name pipe (X_train sp) (y_train sp) ;;
    scores <- cross_val_score name pipe (X_train sp) (y_train sp) ;;
    Return (fitted, np_mean (map fneg scores), []).

(** One round of [for idx, (name, pipe) in enumerate(models.items())];
    [best_estimators], written but never read, is left out. *)
Definition train_one (timestamp : string) (feature_cols : list string)
           (sp : Split) (total_models idx : nat) (name : string)
           (pipe : PipelineSpec) : M ResultRecord :=
  modify (set_current_model name) ;;;
  modify (set_progress (progress_of idx total_models)) ;;;
  tuned <~ lift (tune name pipe sp) ;;
  let '(best_pipe0, best_score, best_params) := tuned in
  best_pipe <~ lift (refit best_pipe0 (X_train sp) (y_train sp)) ;;
  y_pred <~ lift (predict_fn best_pipe (X_test sp)) ;;
  metrics <~ lift (sk_metrics (y_test sp) y_pred) ;;
  let mape := clipped_mape (y_test sp) y_pred in
  let model_filename := model_filename name timestamp in
  write_model model_filename (Pickle best_pipe) ;;;
  let feature_importance :=
    match feature_importances_ best_pipe with
    | Some importances => Some (feature_cols, importances)
    | None => None
    end in
  modify (append_models_trained name) ;;;
  ret (mkResult name best_score (r2_score metrics)
                (mean_absolute_error metrics)
                (root_mean_squared_error metrics) mape best_params
                model_filename feature_importance).

Fixpoint train_loop (timestamp : string) (feature_cols : list string)
         (sp : Split) (total_models idx : nat)
         (models : list (string * PipelineSpec))
         (results : list ResultRecord) : M (list ResultRecord) :=
  match models with
  | [] => ret results
  | (name, pipe) :: rest =>
      r <~ train_one timestamp feature_cols sp total_models idx name pipe ;;
      train_loop timestamp feature_cols sp total_models (S idx) rest
                 (results ++ [r])
  end.

(** What the first half of [train_models] has computed when the training
    loop starts. *)
Record Prepared : Type := mkPrepared {
  run_timestamp : string;
  run_filename : string;
  run_df : DataFrame;
  run_feature_cols : list string;
  run_split : Split
}.

(** [train_models] up to the train/test split: either an early response,
    or the data the loop works on. *)
Definition prepare_training (request : Request)
  : M (Response TrainBody + Prepared) :=
  match files_file request with
  | None => ret (inl (ErrorJson 400 "No file provided"))
  | Some file =>
    if String.eqb (filename file) "" then
      ret (inl (ErrorJson 400 "No file selected"))
    else if negb (allowed_file (filename file)) then
      ret (inl (ErrorJson 400 "Invalid file type. Only CSV files allowed"))
    else
      modify clear_models_and_results ;;;
      let timestamp := now request in
      let filename :=
        ("train_" ++ timestamp ++ "_" ++ secure_filename (filename file))%string in
      write_upload filename ;;;
      df <~ lift (read_csv file) ;;
      let has_wqi := has_col TARGET df || has_col "WQI" df in
      if negb has_wqi then
        ret (inl (ErrorJson 400
               "No WQI column found in dataset. Cannot train models without target variable."))
      else
        df <~ lift (preprocess_dataframe np_log1p df true) ;;
        let numeric_df := select_number df in
        let feature_cols := feature_cols_of numeric_df in
        if negb (has_col TARGET numeric_df) then
          ret (inl (ErrorJson 400 target_not_found_message))
        else
          let X := select_cols feature_cols numeric_df in
          let y := col_cells TARGET numeric_df in
          let valid := valid_indices X y (nrows numeric_df) in
          let X := frame_rows valid X in
          let y := select_rows valid y in
          if (count_true valid =? 0)%nat then
            ret (inl (ErrorJson 400 "No valid rows after preprocessing"))
          else
            sp <~ lift (train_test_split X y) ;;
            ret (inr (mkPrepared timestamp filename df feature_cols sp))
  end.

(** The rest of [train_models]: the loop over the registry, the ranking,
    the summary and its persistence. *)
Definition fit_and_report (p : Prepared) : M (Response TrainBody) :=
  let models := build_models in
  modify (set_is_training true) ;;;
  let total_models := length models in
  results <~ train_loop (run_timestamp p) (run_feature_cols p) (run_split p)
                        total_models 0 models [] ;;
  let results := sort_by_test_rmse results in
  best_model <~ lift (first_item results) ;;
  let summary :=
    mkSummary (run_timestamp p) (run_filename p)
              (nrows (run_df p), length (run_df p))
              (run_feature_cols p)
              (nrows (X_train (run_split p))) (nrows (X_test (run_split p)))
              results (model_name best_model) in
  write_result ("training_summary_" ++ run_timestamp p ++ ".json")%string
               (SummaryJson summary) ;;;
  save_latest_training summary ;;;
  modify (set_is_training false) ;;;
  modify (set_progress 100) ;;;
  ret (Ok200 (mkTrainBody summary results (model_name best_model))).

(** The body of the [try] block of [train_models]. *)
Definition train_models_try (request : Request)
  : M (Response TrainBody) :=
  r <~ prepare_training request ;;
  match r with
  | inl response => ret response
  | inr p => fit_and_report p
  end.

(** [train_models]: the [try] block and its [except Exception] handler. *)
Definition train_models (request : Request) (w : World)
  : Response TrainBody * World :=
  match train_models_try request w with
  | (Return response, w') => (response, w')
  | (Raise e, w') => (Error500 e, set_is_training false w')
  end.

Definition prediction_stats (predictions : list fval) : result Stats :=
  lo <- np_min predictions ;;
  hi <- np_max predictions ;;
  Return (mkStats (np_mean predictions) (np_median predictions) lo hi
                  (np_std predictions)).

(** The body of the [try] block of [predict]. *)
Definition predict_try (request : Request) : M (Response PredictBody) :=
  match files_file request with
  | None => ret (ErrorJson 400 "No file provided")
  | Some file =>
    let model_name := requested_model request in
    if String.eqb (filename file) "" then
      ret (ErrorJson 400 "No file selected")
    else if negb (allowed_file (filename file)) then
      ret (ErrorJson 400 "Invalid file type. Only CSV files allowed")
    else
      let timestamp := now request in
      let filename :=
        ("predict_" ++ timestamp ++ "_" ++ secure_filename (filename file))%string in
      write_upload filename ;;;
      df <~ lift (read_csv file) ;;
      let df_original := df in
      df <~ lift (preprocess_dataframe np_log1p df false) ;;
      let feature_cols := predict_feature_cols df in
      model_files <~ (fun w => (Return (matching_model_files model_name
                                                             (MODEL_FOLDER w)), w)) ;;
      match model_files with
      | [] =>
          ret (ErrorJson 404 ("No trained model found for " ++ model_name)%string)
      | _ :: _ =>
          let model_files := list_sort_reverse String.ltb model_files in
          newest <~ lift (first_item model_files) ;;
          model <~ (fun w => (joblib_load newest (MODEL_FOLDER w), w)) ;;
          let X_pred := select_cols feature_cols df in
          predictions <~ lift (predict_fn model X_pred) ;;
          (* df_original['Predicted_WQI'] = predictions *)
          if negb (length predictions =? nrows df_original)%nat then
            raise (ValueError "Length of values does not match length of index")
          else
            let with_pred :=
              setitem "Predicted_WQI" float64 predictions df_original in
            let classes := map classify_wqi predictions in
            stats <~ lift (prediction_stats predictions) ;;
            let class_counts := value_counts classes in
            let output_filename :=
              ("predictions_" ++ model_name ++ "_" ++ timestamp ++ ".csv")%string in
            write_result output_filename
                         (PredictionsCsv df_original predictions classes) ;;;
            let sample_size := Nat.min 100 (nrows with_pred) in
            let sample :=
              (map (fun s => mkSeries (cname s) (sdtype s)
                                      (firstn sample_size (cells s)))
                   (filter (fun s => negb (String.eqb (cname s) TARGET))
                           with_pred),
               firstn sample_size classes) in
            save_prediction_metadata
              (mkPredictionMeta timestamp model_name (length predictions)
                                stats class_counts output_filename) ;;;
            ret (Ok200 (mkPredictBody model_name (length predictions) stats
                                      class_counts sample output_filename))
      end
  end.

(** [predict]: the [try] block and its handler. *)
Definition predict (request : Request) (w : World)
  : Response PredictBody * World :=
  match predict_try request w with
  | (Return response, w') => (response, w')
  | (Raise e, w') => (Error500 e, w')
  end.

(** Serving a sequence of training requests, one after the other. *)
Fixpoint serve_training (requests : list Request) (w : World)
  : list (Response TrainBody) * World :=
  match requests with
  | [] => ([], w)
  | r :: rest =>
      let '(resp, w1) := train_models r w in
      let '(resps, w2) := serve_training rest w1 in
      (resp :: resps, w2)
  end.

End Backend.

(* ================================================================== *)
(** ** The derived columns, as the specification lists them *)

(** The derived column names, in the order the code creates them. *)
Definition derived_columns : list string :=
  ["pH_Temp_interaction"; "TDS_Conductivity_ratio"; "Coliform_ratio";
   "Fecal_Coliform_log"; "Total_Coliform_log"; "TDS_log";
   "pH_squared"; "Temp_squared"].

(** The canonical columns a derived column is computed from. *)
Definition prerequisites (d : string) : list string :=
  if String.eqb d "pH_Temp_interaction" then ["pH"; "Temp"]
  else if String.eqb d "TDS_Conductivity_ratio" then ["TDS"; "Conductivity"]
  else if String.eqb d "Coliform_ratio" then ["Fecal_Coliform"; "Total_Coliform"]
  else if String.eqb d "Fecal_Coliform_log" then ["Fecal_Coliform"]
  else if String.eqb d "Total_Coliform_log" then ["Total_Coliform"]
  else if String.eqb d "TDS_log" then ["TDS"]
  else if String.eqb d "pH_squared" then ["pH"]
  else if String.eqb d "Temp_squared" then ["Temp"]
  else [].

(** The required columns are there and numeric. *)
Definition complete_numeric (df : DataFrame) : Prop :=
  forall c, In c (FEATURES ++ [TARGET]) ->
            exists s, In s df /\ cname s = c /\ is_number (sdtype s) = true.

(** No cell of the column is NaN. *)
Definition no_nan (v : list fval) : Prop := existsb is_nan v = false.

(** What the imputation is to do to the cells of one column: its NaN cells
    become the median of the column, and a column without NaN stays as it
    is. *)
Definition imputed (v : list fval) : list fval :=
  if existsb is_nan v then fillna (series_median v) v else v.

(** What a derived column holds, as a function of the canonical columns:
    the product, the two ratios over denominator plus one, the three
    [log(1 + x)] columns and the two squares. *)
Definition derived_formula (np_log1p : fval -> fval) (d : string)
           (df : DataFrame) : list fval :=
  if String.eqb d "pH_Temp_interaction"
  then zip_with fmul (col_cells "pH" df) (col_cells "Temp" df)
  else if String.eqb d "TDS_Conductivity_ratio"
  then zip_with (fun num den => fdiv num (fadd den (Fin 1)))
                (col_cells "TDS" df) (col_cells "Conductivity" df)
  else if String.eqb d "Coliform_ratio"
  then zip_with (fun num den => fdiv num (fadd den (Fin 1)))
                (col_cells "Fecal_Coliform" df) (col_cells "Total_Coliform" df)
  else if String.eqb d "Fecal_Coliform_log"
  then map np_log1p (col_cells "Fecal_Coliform" df)
  else if String.eqb d "Total_Coliform_log"
  then map np_log1p (col_cells "Total_Coliform" df)
  else if String.eqb d "TDS_log"
  then map np_log1p (col_cells "TDS" df)
  else if String.eqb d "pH_squared"
  then map (fun x => fmul x x) (col_cells "pH" df)
  else if String.eqb d "Temp_squared"
  then map (fun x => fmul x x) (col_cells "Temp" df)
  else [].

(** A value that is a nonnegative number or plus infinity. *)
Definition nonneg_or_inf (x : fval) : Prop :=
  match x with
  | Fin q => 0 <= q
  | PInf => True
  | _ => False
  end.

(** A request passes the upload checks of the two endpoints. *)
Definition acceptable_upload (request : Request) (file : Upload) : Prop :=
  files_file request = Some file /\
  filename file <> "" /\
  allowed_file (filename file) = true.

Definition is_ok {A : Type} (r : Response A) : bool :=
  match r with Ok200 _ => true | _ => false end.

(* ================================================================== *)
(** ** The steps of a round of the training loop *)

Section RoundSteps.

Variable randomized_search :
  string -> PipelineSpec -> list string -> nat -> DataFrame -> list fval ->
  result Search.
Variable refit : Pipeline -> DataFrame -> list fval -> result Pipeline.
Variable sk_metrics : list fval -> list fval -> result Metrics.

(** A fit or predict step of the round of a registry model raises [e]:
    the search ([search.fit]), the fit of the best pipeline on the
    training set, its prediction on the test set, or the metrics
    computed from that prediction, the steps before it having
    returned. *)
Inductive step_raises (name : string) (pipe : PipelineSpec) (sp : Split)
          (e : Exception) : Prop :=
| search_raises :
    randomized_search name pipe (param_space name) 30%nat
                      (X_train sp) (y_train sp) = Raise e ->
    step_raises name pipe sp e
| fit_raises (search : Search) :
    randomized_search name pipe (param_space name) 30%nat
                      (X_train sp) (y_train sp) = Return search ->
    refit (best_estimator_ search) (X_train sp) (y_train sp) = Raise e ->
    step_raises name pipe sp e
| predict_raises (search : Search) (best_pipe : Pipeline) :
    randomized_search name pipe (param_space name) 30%nat
                      (X_train sp) (y_train sp) = Return search ->
    refit (best_estimator_ search) (X_train sp) (y_train sp)
    = Return best_pipe ->
    predict_fn best_pipe (X_test sp) = Raise e ->
    step_raises name pipe sp e
| metrics_raise (search : Search) (best_pipe : Pipeline)
                (y_pred : list fval) :
    randomized_search name pipe (param_space name) 30%nat
                      (X_train sp) (y_train sp) = Return search ->
    refit (best_estimator_ search) (X_train sp) (y_train sp)
    = Return best_pipe ->
    predict_fn best_pipe (X_test sp) = Return y_pred ->
    sk_metrics (y_test sp) y_pred = Raise e ->
    step_raises name pipe sp e.

(** Every step of the round of a registry model returns. *)
Definition round_completes (name : string) (pipe : PipelineSpec)
           (sp : Split) : Prop :=
  exists search best_pipe y_pred metrics,
    randomized_search name pipe (param_space name) 30%nat
                      (X_train sp) (y_train sp) = Return search /\
    refit (best_estimator_ search) (X_train sp) (y_train sp)
    = Return best_pipe /\
    predict_fn best_pipe (X_test sp) = Return y_pred /\
    sk_metrics (y_test sp) y_pred = Return metrics.

End RoundSteps.

(* ================================================================== *)
(** ** The two behaviours of [fillna(..., inplace=True)] on a column *)

(** The imputation writes through the column [df[col]].  Before pandas 3
    the column shares its data with the frame and the write reaches the
    frame ([WriteThrough], what [impute_col] models); under copy-on-write,
    the rule of pandas 3, the column is a copy and the frame stays as it
    was ([CopyOnWrite]). *)
Inductive fillna_write : Type :=
| WriteThrough
| CopyOnWrite.

Definition impute_col_under (mode : fillna_write) (col : string)
           (df : DataFrame) : DataFrame :=
  match mode with
  | WriteThrough => impute_col col df
  | CopyOnWrite => df
  end.

Definition impute_missing_under (mode : fillna_write) (df : DataFrame)
           (is_training : bool) : DataFrame :=
  let df1 := fold_left (fun d col => impute_col_under mode col d) FEATURES df in
  if is_training && has_col TARGET df1
  then impute_col_under mode TARGET df1
  else df1.

(** [preprocess_dataframe] with the behaviour of the write as a
    parameter. *)
Definition preprocess_dataframe_under (mode : fillna_write)
           (np_log1p : fval -> fval) (df : DataFrame) (is_training : bool)
  : result DataFrame :=
  df1 <- clean_columns df ;;
  _ <- check_required df1 is_training ;;
  Return (add_derived_features np_log1p
                               (impute_missing_under mode df1 is_training)).

(* ================================================================== *)
(** ** Reading the run store ([utils.py]) and the dashboard endpoints *)

(** [json.load] of the file [name] of the results folder, when
    [os.path.exists] holds; [decode] picks the expected kind of content. *)
Definition load_json {A : Type} (name : string) (decode : Content -> option A)
           (w : World) : result (option A) :=
  match lookup_entry name (RESULTS_FOLDER w) with
  | None => Return None
  | Some e =>
      if isfile e
      then match decode (content e) with
           | Some a => Return (Some a)
           | None => Raise (LibraryError "JSONDecodeError")
           end
      else Raise (LibraryError "IsADirectoryError")
  end.

Definition get_latest_training (w : World) : result (option Summary) :=
  load_json LATEST_TRAINING_FILE
            (fun c => match c with SummaryJson s => Some s | _ => None end) w.

Definition get_training_history (w : World) : result (list Summary) :=
  h <- load_json TRAINING_HISTORY_FILE
                 (fun c => match c with HistoryJson h => Some h | _ => None end)
                 w ;;
  Return (match h with Some h => h | None => [] end).

Definition get_latest_prediction (w : World) : result (option PredictionMeta) :=
  load_json LATEST_PREDICTION_FILE
            (fun c => match c with
                      | PredictionMetaJson m => Some m
                      | _ => None
                      end) w.

(** An exception that leaves a view function is answered by Flask with a
    500 page. *)
Definition respond {A : Type} (r : result (Response A)) : Response A :=
  match r with
  | Return response => response
  | Raise e => Error500 e
  end.

(** [/api/dashboard/latest-training] *)
Definition get_dashboard_training (w : World) : Response Summary :=
  respond (latest <- get_latest_training w ;;
           Return (match latest with
                   | None =>
                       ErrorJson 404
                         "No training data available. Please train models first."
                   | Some s => Ok200 s
                   end)).

(** [/api/dashboard/latest-prediction] *)
Definition get_dashboard_prediction (w : World) : Response PredictionMeta :=
  respond (latest <- get_latest_prediction w ;;
           Return (match latest with
                   | None =>
                       ErrorJson 404
                         "No prediction data available. Please make predictions first."
                   | Some m => Ok200 m
                   end)).

(** [/api/dashboard/training-history]: the history and [total_sessions]. *)
Definition get_dashboard_history (w : World)
  : Response (list Summary * nat) :=
  respond (history <- get_training_history w ;;
           Return (Ok200 (history, length history))).

Record DashboardSummary : Type := mkDashboardSummary {
  has_training_data : bool;
  has_prediction_data : bool;
  total_models : nat;
  total_training_sessions : nat;
  latest_training : option Summary;
  latest_prediction : option PredictionMeta
}.

Definition is_some {A : Type} (o : option A) : bool :=
  match o with Some _ => true | None => false end.

(** [/api/dashboard/summary] *)
Definition get_dashboard_summary (w : World) : Response DashboardSummary :=
  respond (latest_training <- get_latest_training w ;;
           latest_prediction <- get_latest_prediction w ;;
           history <- get_training_history w ;;
           let model_files :=
             filter (fun f => endswith f ".pkl") (listdir (MODEL_FOLDER w)) in
           Return (Ok200 (mkDashboardSummary
                            (is_some latest_training)
                            (is_some latest_prediction)
                            (length model_files) (length history)
                            latest_training latest_prediction))).

(** [/api/training-status] *)
Definition training_status (w : World) : Response TrainingState :=
  Ok200 (training_state w).

(* ================================================================== *)
(** ** [analyze_dataset]: the validation block *)

Record Validation : Type := mkValidation {
  has_all_features : bool;
  has_target : bool;
  missing_features : list string;
  ready_for_training : bool;
  ready_for_prediction : bool
}.

(** The [info['validation']] entry of [analyze_dataset]; the descriptive
    statistics of the frame, computed by pandas, are not part of it. *)
Definition analyze_validation (df : DataFrame) : Validation :=
  let df_renamed := rename_columns (present_map df) df in
  let has_features := forallb (fun feat => has_col feat df_renamed) FEATURES in
  let has_target := has_col TARGET df_renamed in
  mkValidation has_features has_target
               (missing_from FEATURES df_renamed)
               (has_features && has_target) has_features.

(* ================================================================== *)
(** ** Orders and sums used in the statements *)

(** The five classes from best to worst. *)
Definition class_rank (label : string) : nat :=
  if String.eqb label "Excellent" then 0
  else if String.eqb label "Good" then 1
  else if String.eqb label "Poor" then 2
  else if String.eqb label "Very Poor" then 3
  else 4.


(** The names a folder gets when [name] is written into it. *)
Definition add_name (names : list string) (name : string) : list string :=
  if str_in name names then names else names ++ [name].

(** A frame with one column per label and no text column. *)
Definition tidy (df : DataFrame) : Prop :=
  NoDup (columns df) /\ forall s, In s df -> is_text (sdtype s) = false.

(* ================================================================== *)
(** ** [download_predictions] and [list_models] *)

(** [/api/download-predictions/<filename>]: a 404 when [os.path.exists]
    fails, else the file is sent; [send_file] raises on a directory, which
    the handler answers with [jsonify({'error': str(e)}), 500]. *)
Definition download_predictions (filename : string) (w : World)
  : Response Content :=
  match lookup_entry filename (RESULTS_FOLDER w) with
  | None => ErrorJson 404 "File not found"
  | Some e =>
      if isfile e then Ok200 (content e)
      else ErrorJson 500 ("[Errno 21] Is a directory: 'results/"
                            ++ filename ++ "'")%string
  end.

(** [s.replace(old, '')] for a non-empty [old]: the occurrences of [old],
    taken from the left and without overlap, are removed.  [skip] counts
    the characters of the current occurrence that are still to be
    dropped. *)
Fixpoint str_remove_from (old : string) (skip : nat) (s : string) : string :=
  match s with
  | EmptyString => EmptyString
  | String c s' =>
      match skip with
      | S k => str_remove_from old k s'
      | O =>
          if String.prefix old s
          then str_remove_from old (String.length old - 1) s'
          else String c (str_remove_from old 0 s')
      end
  end.

Definition str_remove (old s : string) : string :=
  match old with
  | EmptyString => s
  | _ => str_remove_from old 0 s
  end.

(** [s.split(sep)] for a separator of one character. *)
Fixpoint str_split (sep : ascii) (s : string) : list string :=
  match s with
  | EmptyString => [EmptyString]
  | String c s' =>
      if Ascii.eqb c sep then EmptyString :: str_split sep s'
      else match str_split sep s' with
           | part :: parts => String c part :: parts
           | [] => [String c EmptyString]
           end
  end.

(** [sep.join(parts)] *)
Fixpoint str_join (sep : string) (parts : list string) : string :=
  match parts with
  | [] => EmptyString
  | [part] => part
  | part :: rest => (part ++ sep ++ str_join sep rest)%string
  end.

Record ModelEntry : Type := mkModelEntry {
  entry_name : string;
  entry_filename : string;
  entry_timestamp : string;
  entry_path : string
}.

(** One round of the loop of [list_models]. *)
Definition model_entry (filename : string) : ModelEntry :=
  let parts := str_split "_" (str_remove ".pkl" filename) in
  let model_name := hd EmptyString parts in
  let timestamp :=
    if (4 <=? length parts)%nat
    then str_join "_" (firstn 2 (skipn 2 parts))
    else "unknown" in
  mkModelEntry model_name filename timestamp ("models/" ++ filename)%string.

(** [/api/models] *)
Definition list_models (w : World) : Response (list ModelEntry * nat) :=
  let model_files :=
    filter (fun f => endswith f ".pkl") (listdir (MODEL_FOLDER w)) in
  let models := map model_entry model_files in
  let models :=
    list_sort_reverse
      (fun a b => String.ltb (entry_timestamp a) (entry_timestamp b))
      models in
  Ok200 (models, length models).

(** A string with no underscore and no dot. *)
Definition plain (s : string) : bool :=
  negb (str_contains "_" s) && negb (str_contains "." s).

(* ================================================================== *)
(** ** Sample data for the examples *)

Definition sample_cells : list fval := [Fin 7; Fin 8; Fin 9].

Definition float_column (name : string) : Series :=
  mkSeries name float64 sample_cells.

(** Three rows, the eight features and the target, all numeric. *)
Definition sample_training_frame : DataFrame :=
  map float_column (FEATURES ++ [TARGET]).

(** The same without the target: a prediction upload. *)
Definition sample_prediction_frame : DataFrame := map float_column FEATURES.

(** The training frame with every [Fluoride] cell missing. *)
Definition frame_with_empty_fluoride : DataFrame :=
  map (fun s => if String.eqb (cname s) "Fluoride"
                then mkSeries "Fluoride" float64 [NaN; NaN; NaN]
                else s) sample_training_frame.

(** The training frame with one [Fluoride] cell missing. *)
Definition frame_with_gap : DataFrame :=
  map (fun s => if String.eqb (cname s) "Fluoride"
                then mkSeries "Fluoride" float64 [Fin 4; NaN; Fin 1; Fin 2]
                else mkSeries (cname s) float64 [Fin 7; Fin 8; Fin 9; Fin 10])
      sample_training_frame.

(** Stand-ins for the library calls in the examples; the values they
    compute play no role there. *)
Definition sample_log1p (x : fval) : fval := x.
Definition sample_std (v : list fval) : fval := Fin 0.
Definition sample_secure_filename (s : string) : string := s.
Definition sample_split (X : DataFrame) (y : list fval) : result Split :=
  Return (mkSplit X X y y).

(** A fitted pipeline that predicts the same value on every row. *)
Definition constant_pipeline (v : fval) : Pipeline :=
  mkPipeline (fun X => Return (map (fun _ => v) (seq 0 (nrows X)))) None.

(** Held-out RMSE per model in the tie example of the specification. *)
Definition sample_rmse (name : string) : Q :=
  if String.eqb name "Ridge" then 31 # 10
  else if String.eqb name "SVR" then 29 # 10
  else if String.eqb name "RandomForest" then 4
  else if String.eqb name "GradientBoosting" then 29 # 10
  else 35 # 10.

(** A search that raises for the models listed in [failing] and otherwise
    returns a pipeline predicting the model's sample RMSE. *)
Definition sample_search (failing : list string) (name : string)
           (pipe : PipelineSpec) (params : list string) (n_iter : nat)
           (X : DataFrame) (y : list fval) : result Search :=
  if str_in name failing
  then Raise (LibraryError "fit failed")
  else Return (mkSearch (constant_pipeline (Fin (sample_rmse name)))
                        (Fin (-1)) []).

Definition sample_pipe_fit (name : string) (pipe : PipelineSpec)
           (X : DataFrame) (y : list fval) : result Pipeline :=
  Return (constant_pipeline (Fin 0)).

Definition sample_cross_val_score (name : string) (pipe : PipelineSpec)
           (X : DataFrame) (y : list fval) : result (list fval) :=
  Return [Fin (-1)].

Definition sample_refit (p : Pipeline) (X : DataFrame) (y : list fval)
  : result Pipeline := Return p.

(** Metrics that report the first prediction as the RMSE. *)
Definition sample_metrics (y_test y_pred : list fval) : result Metrics :=
  match y_pred with
  | Fin q :: _ => Return (mkMetrics (Fin 0) (Fin 0) q)
  | _ => Raise (ValueError "Input contains NaN.")
  end.

(** [train_models] and [predict] on the stand-ins. *)
Abbreviation sample_train failing :=
  (train_models sample_log1p sample_secure_filename sample_split
                (sample_search failing) sample_pipe_fit sample_cross_val_score
                sample_refit sample_metrics).

Abbreviation sample_predict :=
  (predict sample_log1p sample_std sample_secure_filename).

Definition old_artifact (name : string) : Entry :=
  mkEntry name true true (Pickle (constant_pipeline (Fin 42))).

(** A world left by an earlier run. *)
Definition sample_world : World :=
  mkWorld initial_training_state []
          [ old_artifact "Ridge_model_20240101_000000.pkl";
            old_artifact "XGBoost_model_20240101_000000.pkl";
            old_artifact "XGBoost_model_20240102_000000.pkl" ]
          [ mkEntry "training_summary_20240101_000000.json" true true
                    OtherContent ].

Definition training_request (name : string) (df : DataFrame) (clock : string)
  : Request :=
  mkRequest (Some (mkUpload name (Return df))) None clock.

Definition prediction_request (model : string) (df : DataFrame)
           (clock : string) : Request :=
  mkRequest (Some (mkUpload "new.csv" (Return df))) (Some model) clock.

(** Five result records with the RMSEs 3.1, 2.9, 4.0, 2.9, 3.5, in registry
    order. *)
Definition tie_results : list ResultRecord :=
  map (fun name => mkResult name (Fin 0) (Fin 0) (Fin 0) (sample_rmse name)
                            (Fin 0) [] (model_filename name "t") None)
      registry_names.

(** A well-formed training request, and one whose dataset has no target. *)
Definition sample_request : Request :=
  training_request "data.csv" sample_training_frame "20240201_120000".


Abbreviation sample_serve :=
  (serve_training sample_log1p sample_secure_filename sample_split
                  (sample_search []) sample_pipe_fit sample_cross_val_score
                  sample_refit sample_metrics).

Definition svr_prediction_request : Request :=
  prediction_request "SVR" sample_prediction_frame "20240301_090000".

Definition xgboost_prediction_request : Request :=
  prediction_request "XGBoost" sample_prediction_frame "20240301_090000".

(** The training frame with [pH] read as text. *)
Definition frame_with_text_pH : DataFrame :=
  map (fun s => if String.eqb (cname s) "pH"
                then mkSeries "pH" object_ []
                else s) sample_training_frame.

(** A prediction upload that carries a [WQI] column with a missing cell. *)
Definition frame_with_unknown_target : DataFrame :=
  map (fun s => if String.eqb (cname s) TARGET
                then mkSeries TARGET float64 [NaN; Fin 8; Fin 9]
                else s) sample_training_frame.

(* ================================================================== *)
(** * Properties *)

(** ** Comparisons on finite values *)

Lemma Qle_bool_false (a b : Q) : Qle_bool a b = false <-> b < a.
Proof.
  split; intro H.
  - apply Qnot_le_lt. intro Hle. apply Qle_bool_iff in Hle. congruence.
  - destruct (Qle_bool a b) eqn:E; [|reflexivity].
    apply Qle_bool_iff in E. lra.
Qed.

Ltac qbool :=
  repeat match goal with
         | H : Qle_bool _ _ = true |- _ => apply Qle_bool_iff in H
         | H : Qle_bool _ _ = false |- _ => apply Qle_bool_false in H
         end.

(** ** C2: the classification step function *)

Lemma wqi_labels_NoDup : NoDup wqi_labels.
Proof.
  unfold wqi_labels.
  repeat (constructor; [simpl; intuition discriminate|]).
  constructor.
Qed.

(** C2.  On every finite value [classify_wqi] returns one of the five
    labels, and which one is fixed by the thresholds 25, 50, 75 and 100,
    each bound inclusive on the lower class; the six boundary values of the
    specification classify as listed. *)
Theorem classify_wqi_step_function :
  (forall q : Q,
      In (classify_wqi (Fin q)) wqi_labels /\
      (classify_wqi (Fin q) = "Excellent" <-> q <= 25) /\
      (classify_wqi (Fin q) = "Good" <-> 25 < q /\ q <= 50) /\
      (classify_wqi (Fin q) = "Poor" <-> 50 < q /\ q <= 75) /\
      (classify_wqi (Fin q) = "Very Poor" <-> 75 < q /\ q <= 100) /\
      (classify_wqi (Fin q) = "Unsuitable for Drinking" <-> 100 < q)) /\
  NoDup wqi_labels /\
  classify_wqi (Fin 25) = "Excellent" /\
  classify_wqi (Fin (250001 # 10000)) = "Good" /\
  classify_wqi (Fin 50) = "Good" /\
  classify_wqi (Fin 75) = "Poor" /\
  classify_wqi (Fin 100) = "Very Poor" /\
  classify_wqi (Fin (1000001 # 10000)) = "Unsuitable for Drinking".
Proof.
  split; [|split; [exact wqi_labels_NoDup | repeat split; reflexivity]].
  intro q. unfold classify_wqi, wqi_labels, fle.
  destruct (Qle_bool q 25) eqn:E25;
    [|destruct (Qle_bool q 50) eqn:E50;
      [|destruct (Qle_bool q 75) eqn:E75;
        [|destruct (Qle_bool q 100) eqn:E100]]];
    qbool;
    (split; [simpl; tauto|]);
    repeat split; intros; try discriminate; try lra.
Qed.

(* ================================================================== *)
(** ** The stable sort *)

Section StableSort.

Context {A : Type}.
Variable key : A -> Q.

(** [a < b] on keys, the only question the sort asks. *)
Let lt (a b : A) : bool := negb (Qle_bool (key b) (key a)).

Lemma insert_by_perm (x : A) (l : list A) :
  Permutation (x :: l) (insert_by lt x l).
Proof.
  induction l as [|y l IH]; simpl.
  - apply Permutation_refl.
  - destruct (lt y x).
    + eapply perm_trans; [apply perm_swap|]. now apply perm_skip.
    + apply Permutation_refl.
Qed.

Lemma list_sort_perm (l : list A) : Permutation l (list_sort lt l).
Proof.
  induction l as [|x l IH]; simpl.
  - constructor.
  - eapply perm_trans; [apply perm_skip, IH|]. apply insert_by_perm.
Qed.

Let key_le (a b : A) : Prop := key a <= key b.

Lemma insert_by_sorted (x : A) (l : list A) :
  StronglySorted key_le l -> StronglySorted key_le (insert_by lt x l).
Proof.
  induction 1 as [|y l Hs IH Hy]; simpl.
  - repeat constructor.
  - unfold lt at 1. destruct (Qle_bool (key x) (key y)) eqn:E; simpl.
    + apply Qle_bool_iff in E.
      constructor; [now constructor|].
      constructor; [exact E|].
      rewrite Forall_forall in *. intros z Hz. unfold key_le in *.
      specialize (Hy z Hz). lra.
    + apply Qle_bool_false in E.
      constructor; [exact IH|].
      rewrite Forall_forall in *. intros z Hz.
      apply Permutation_in with (l' := x :: l) in Hz;
        [|apply Permutation_sym, insert_by_perm].
      destruct Hz as [<-|Hz]; unfold key_le in *; [lra|auto].
Qed.

Lemma list_sort_sorted (l : list A) : StronglySorted key_le (list_sort lt l).
Proof.
  induction l as [|x l IH]; simpl; [constructor|].
  now apply insert_by_sorted.
Qed.

(** Stability: the records of one key keep their order. *)
Lemma insert_by_stable (k : Q) (x : A) (l : list A) :
  filter (fun a => Qeq_bool (key a) k) (insert_by lt x l)
  = filter (fun a => Qeq_bool (key a) k) (x :: l).
Proof.
  induction l as [|y l IH]; [reflexivity|].
  simpl insert_by. unfold lt at 1.
  destruct (Qle_bool (key x) (key y)) eqn:E; [reflexivity|].
  apply Qle_bool_false in E. simpl in *. rewrite IH.
  destruct (Qeq_bool (key x) k) eqn:Ex; [|reflexivity].
  destruct (Qeq_bool (key y) k) eqn:Ey; [|reflexivity].
  apply Qeq_bool_iff in Ex, Ey. lra.
Qed.

Lemma list_sort_stable (k : Q) (l : list A) :
  filter (fun a => Qeq_bool (key a) k) (list_sort lt l)
  = filter (fun a => Qeq_bool (key a) k) l.
Proof.
  induction l as [|x l IH]; [reflexivity|].
  simpl list_sort. rewrite insert_by_stable. simpl. now rewrite IH.
Qed.

(** The head of the sorted list is the first record of least key. *)
Lemma list_sort_head (l : list A) :
  l <> [] ->
  exists w pre post,
    hd_error (list_sort lt l) = Some w /\
    l = pre ++ w :: post /\
    (forall r, In r pre -> key w < key r) /\
    (forall r, In r post -> key w <= key r).
Proof.
  induction l as [|x l IH]; [congruence|]. intros _.
  destruct l as [|y l].
  - exists x, [], []. simpl.
    split; [reflexivity|]. split; [reflexivity|]. split; intros r [].
  - destruct IH as (w & pre & post & Hs & Hl & Hpre & Hpost); [discriminate|].
    change (list_sort lt (x :: y :: l))
      with (insert_by lt x (list_sort lt (y :: l))).
    destruct (list_sort lt (y :: l)) as [|w' s]; [discriminate|].
    simpl in Hs. injection Hs as ->.
    simpl insert_by. unfold lt at 1.
    destruct (Qle_bool (key x) (key w)) eqn:E; simpl.
    + apply Qle_bool_iff in E.
      exists x, [], (y :: l).
      split; [reflexivity|]. split; [reflexivity|].
      split; [intros r []|].
      intros r Hr. rewrite Hl in Hr. apply in_app_or in Hr.
      destruct Hr as [Hr|[<-|Hr]];
        [specialize (Hpre r Hr)|exact E|specialize (Hpost r Hr)]; lra.
    + apply Qle_bool_false in E.
      exists w, (x :: pre), post. rewrite Hl.
      split; [reflexivity|]. split; [reflexivity|].
      split; [|exact Hpost].
      intros r [<-|Hr]; auto.
Qed.

End StableSort.

(* ================================================================== *)
(** ** Frames: labels and cells *)

Lemma str_in_In (s : string) (l : list string) : str_in s l = true <-> In s l.
Proof.
  unfold str_in. rewrite existsb_exists. split.
  - intros (x & Hx & E). apply String.eqb_eq in E. now subst.
  - intro H. exists s. split; [exact H | apply String.eqb_refl].
Qed.

Lemma str_in_false (s : string) (l : list string) :
  str_in s l = false <-> ~ In s l.
Proof.
  rewrite <- str_in_In. destruct (str_in s l); split; congruence.
Qed.

Lemma has_col_In (c : string) (df : DataFrame) :
  has_col c df = true <-> In c (columns df).
Proof. apply str_in_In. Qed.

Lemma has_col_cons (c : string) (s : Series) (df : DataFrame) :
  has_col c (s :: df) = String.eqb c (cname s) || has_col c df.
Proof. reflexivity. Qed.

Lemma has_col_app (c : string) (a b : DataFrame) :
  has_col c (a ++ b) = has_col c a || has_col c b.
Proof.
  unfold has_col, columns, str_in. now rewrite map_app, existsb_app.
Qed.

Lemma missing_from_In (required : list string) (df : DataFrame) (c : string) :
  In c (missing_from required df) <-> In c required /\ ~ In c (columns df).
Proof.
  unfold missing_from. rewrite filter_In, negb_true_iff.
  unfold has_col. now rewrite str_in_false.
Qed.

Lemma missing_from_nil (required : list string) (df : DataFrame) :
  missing_from required df = [] <->
  forall c, In c required -> In c (columns df).
Proof.
  split.
  - intros H c Hc.
    destruct (has_col c df) eqn:E; [now apply has_col_In|].
    assert (Hin : In c (missing_from required df)).
    { apply missing_from_In. split; [exact Hc|].
      now apply str_in_false. }
    rewrite H in Hin. destruct Hin.
  - intro H. destruct (missing_from required df) as [|c l] eqn:E; [reflexivity|].
    assert (Hin : In c (missing_from required df)) by (rewrite E; now left).
    apply missing_from_In in Hin. destruct Hin as [Hc Hn].
    exfalso. auto.
Qed.

(** *** [setitem] *)

Lemma has_col_setitem (x c : string) (d : dtype) (v : list fval)
      (df : DataFrame) :
  has_col x (setitem c d v df) = String.eqb x c || has_col x df.
Proof.
  unfold setitem. destruct (has_col c df) eqn:Hc.
  - assert (E : has_col x
                  (map (fun s => if String.eqb (cname s) c
                                 then mkSeries c d v else s) df)
                = has_col x df).
    { clear Hc. induction df as [|s df IH]; [reflexivity|].
      simpl map. rewrite !has_col_cons, IH. f_equal.
      destruct (String.eqb (cname s) c) eqn:E; [|reflexivity].
      apply String.eqb_eq in E. now rewrite E. }
    rewrite E. destruct (String.eqb x c) eqn:Ex; [|reflexivity].
    apply String.eqb_eq in Ex. subst. now rewrite Hc.
  - rewrite has_col_app. simpl. unfold has_col at 2. simpl.
    now rewrite !orb_false_r, orb_comm.
Qed.

Lemma find_app_label (x : string) (a b : DataFrame) :
  find (fun s => String.eqb (cname s) x) (a ++ b)
  = match find (fun s => String.eqb (cname s) x) a with
    | Some s => Some s
    | None => find (fun s => String.eqb (cname s) x) b
    end.
Proof.
  induction a as [|s a IH]; [reflexivity|]. simpl.
  now destruct (String.eqb (cname s) x).
Qed.

Lemma find_none_has_col (x : string) (df : DataFrame) :
  has_col x df = false -> find (fun s => String.eqb (cname s) x) df = None.
Proof.
  induction df as [|s df IH]; [reflexivity|].
  rewrite has_col_cons. intro H. apply orb_false_iff in H. destruct H as [H1 H2].
  simpl. rewrite String.eqb_sym, H1. auto.
Qed.

Lemma find_setitem_map (x c : string) (d : dtype) (v : list fval)
      (df : DataFrame) :
  find (fun s => String.eqb (cname s) x)
       (map (fun s => if String.eqb (cname s) c then mkSeries c d v else s) df)
  = if String.eqb x c
    then match find (fun s => String.eqb (cname s) x) df with
         | Some _ => Some (mkSeries c d v)
         | None => None
         end
    else find (fun s => String.eqb (cname s) x) df.
Proof.
  induction df as [|s df IH]; simpl.
  - now destruct (String.eqb x c).
  - destruct (String.eqb (cname s) c) eqn:Ec; simpl.
    + apply String.eqb_eq in Ec. rewrite Ec, (String.eqb_sym c x).
      destruct (String.eqb x c) eqn:Ex; [reflexivity|].
      exact IH.
    + destruct (String.eqb (cname s) x) eqn:Ex.
      * apply String.eqb_eq in Ex. rewrite <- Ex, Ec. reflexivity.
      * exact IH.
Qed.

Lemma find_setitem (x c : string) (d : dtype) (v : list fval)
      (df : DataFrame) :
  find (fun s => String.eqb (cname s) x) (setitem c d v df)
  = if String.eqb x c then Some (mkSeries c d v)
    else find (fun s => String.eqb (cname s) x) df.
Proof.
  unfold setitem. destruct (has_col c df) eqn:Hc.
  - rewrite find_setitem_map. destruct (String.eqb x c) eqn:Ex; [|reflexivity].
    apply String.eqb_eq in Ex. subst x.
    destruct (find (fun s => String.eqb (cname s) c) df) eqn:F; [reflexivity|].
    exfalso. apply has_col_In in Hc. apply in_map_iff in Hc.
    destruct Hc as (s & Hs & Hin).
    apply (find_none _ _ F) in Hin. rewrite Hs, String.eqb_refl in Hin.
    discriminate.
  - rewrite find_app_label. destruct (String.eqb x c) eqn:Ex.
    + apply String.eqb_eq in Ex. subst x.
      rewrite (find_none_has_col _ _ Hc). simpl. now rewrite String.eqb_refl.
    + destruct (find (fun s => String.eqb (cname s) x) df); [reflexivity|].
      simpl. now rewrite String.eqb_sym, Ex.
Qed.

Lemma col_cells_setitem (x c : string) (d : dtype) (v : list fval)
      (df : DataFrame) :
  col_cells x (setitem c d v df)
  = if String.eqb x c then v else col_cells x df.
Proof.
  unfold col_cells. rewrite find_setitem. now destruct (String.eqb x c).
Qed.

Lemma col_dtype_setitem (x c : string) (d : dtype) (v : list fval)
      (df : DataFrame) :
  col_dtype x (setitem c d v df)
  = if String.eqb x c then d else col_dtype x df.
Proof.
  unfold col_dtype. rewrite find_setitem. now destruct (String.eqb x c).
Qed.

(* ================================================================== *)
(** ** Renaming and dropping *)

Lemma getitem_series (c : string) (df : DataFrame) (s : Series) :
  getitem c df = GetSeries s ->
  filter (fun s' => String.eqb (cname s') c) df = [s].
Proof.
  unfold getitem.
  destruct (filter (fun s' => String.eqb (cname s') c) df) as [|x [|y l]];
    intro H; try discriminate. now injection H as ->.
Qed.

Lemma filter_label_drop_col (c c' : string) (df : DataFrame) :
  c' <> c ->
  filter (fun s => String.eqb (cname s) c') (drop_col c df)
  = filter (fun s => String.eqb (cname s) c') df.
Proof.
  intro Hne. unfold drop_col. induction df as [|s df IH]; [reflexivity|].
  simpl. destruct (String.eqb (cname s) c) eqn:E; simpl.
  - apply String.eqb_eq in E.
    assert (Hc : String.eqb (cname s) c' = false)
      by (apply String.eqb_neq; congruence).
    now rewrite Hc.
  - now rewrite IH.
Qed.

(** When the second dropping loop returns, each label it went through
    names exactly one column of the frame it started with. *)
Lemma drop_non_numeric_unique (cols : list string) :
  forall df out,
    drop_non_numeric cols df = Return out ->
    forall c, In c cols ->
              length (filter (fun s => String.eqb (cname s) c) df) = 1%nat.
Proof.
  induction cols as [|col rest IH]; intros df out H c Hc; [destruct Hc|].
  simpl in H. destruct (getitem col df) as [s| |] eqn:G; try discriminate.
  pose proof (getitem_series _ _ _ G) as Hs.
  destruct (String.eqb c col) eqn:E.
  - apply String.eqb_eq in E. subst c. now rewrite Hs.
  - apply String.eqb_neq in E. destruct Hc as [->|Hc]; [congruence|].
    destruct (is_text (sdtype s)).
    + rewrite <- (filter_label_drop_col col c df E). now apply (IH _ out).
    + now apply (IH _ out).
Qed.

Lemma drop_non_numeric_sublist (cols : list string) :
  forall df out,
    drop_non_numeric cols df = Return out ->
    forall s, In s out -> In s df /\ is_text (sdtype s) = false
                          \/ In s df /\ ~ In (cname s) cols.
Proof.
  induction cols as [|col rest IH]; intros df out H s Hs.
  - injection H as <-. right. auto.
  - simpl in H. destruct (getitem col df) as [x| |] eqn:G; try discriminate.
    pose proof (getitem_series _ _ _ G) as Hx.
    destruct (is_text (sdtype x)) eqn:Tx.
    + destruct (IH _ _ H s Hs) as [[Hin Ht]|[Hin Hn]];
        apply filter_In in Hin; destruct Hin as [Hin Hne].
      * left. auto.
      * right. split; [exact Hin|]. intros [Heq|Hr]; [|contradiction].
        apply negb_true_iff, String.eqb_neq in Hne. congruence.
    + destruct (IH _ _ H s Hs) as [[Hin Ht]|[Hin Hn]]; [left; auto|].
      destruct (String.eqb (cname s) col) eqn:E.
      * left. split; [exact Hin|].
        assert (Hf : In s (filter (fun s' => String.eqb (cname s') col) df))
          by (apply filter_In; auto).
        rewrite Hx in Hf. destruct Hf as [<-|[]]. exact Tx.
      * right. split; [exact Hin|]. intros [Heq|Hr]; [|contradiction].
        apply String.eqb_neq in E. congruence.
Qed.

Lemma filter_all {A : Type} (l : list A) : filter (fun _ => true) l = l.
Proof. induction l as [|x l IH]; [reflexivity|]. simpl. now rewrite IH. Qed.

Lemma filter_twice {A : Type} (f g : A -> bool) (l : list A) :
  filter f (filter g l) = filter (fun x => g x && f x) l.
Proof.
  induction l as [|x l IH]; [reflexivity|]. simpl.
  destruct (g x); simpl; [|exact IH]. destruct (f x); now rewrite IH.
Qed.

Lemma drop_non_numeric_filter (cols : list string) :
  forall df out,
    drop_non_numeric cols df = Return out ->
    exists keep, out = filter keep df.
Proof.
  induction cols as [|col rest IH]; intros df out H.
  - injection H as <-. exists (fun _ => true). now rewrite filter_all.
  - simpl in H. destruct (getitem col df) as [x| |]; try discriminate.
    destruct (is_text (sdtype x)).
    + destruct (IH _ _ H) as (keep & ->). unfold drop_col.
      exists (fun s => negb (String.eqb (cname s) col) && keep s).
      apply filter_twice.
    + now apply IH.
Qed.

Lemma unique_labels_NoDup (df : DataFrame) :
  (forall c, In c (columns df) ->
             length (filter (fun s => String.eqb (cname s) c) df) = 1%nat) ->
  NoDup (columns df).
Proof.
  induction df as [|s df IH]; intro H; [constructor|].
  simpl. constructor.
  - intro Hin. pose proof (H (cname s) (or_introl eq_refl)) as Hs.
    simpl in Hs. rewrite String.eqb_refl in Hs. simpl in Hs.
    apply in_map_iff in Hin. destruct Hin as (s' & Heq & Hin').
    assert (Hf : In s' (filter (fun x => String.eqb (cname x) (cname s)) df)).
    { apply filter_In. split; [exact Hin'|]. now apply String.eqb_eq. }
    destruct (filter (fun x => String.eqb (cname x) (cname s)) df);
      [destruct Hf | discriminate].
  - apply IH. intros c Hc.
    pose proof (H c (or_intror Hc)) as Hl. simpl in Hl.
    destruct (String.eqb (cname s) c); simpl in Hl.
    + apply in_map_iff in Hc. destruct Hc as (s' & Heq & Hin').
      assert (Hf : In s' (filter (fun x => String.eqb (cname x) c) df)).
      { apply filter_In. split; [exact Hin'|]. now apply String.eqb_eq. }
      destruct (filter (fun x => String.eqb (cname x) c) df);
        [destruct Hf | discriminate].
    + exact Hl.
Qed.

Lemma NoDup_columns_filter (keep : Series -> bool) (df : DataFrame) :
  NoDup (columns df) -> NoDup (columns (filter keep df)).
Proof.
  unfold columns. induction df as [|s df IH]; intro H; [constructor|].
  inversion H as [|? ? Hn Hd]; subst. simpl.
  destruct (keep s); [|now apply IH].
  simpl. constructor; [|now apply IH].
  intro Hin. apply Hn. apply in_map_iff in Hin.
  destruct Hin as (s' & Heq & Hin'). apply filter_In in Hin'.
  apply in_map_iff. exists s'. tauto.
Qed.

(** A frame that comes out of the renaming and dropping has no repeated
    label and no text column. *)
Lemma clean_columns_NoDup (df cleaned : DataFrame) :
  clean_columns df = Return cleaned ->
  NoDup (columns cleaned) /\
  forall s, In s cleaned -> is_text (sdtype s) = false.
Proof.
  unfold clean_columns. intro H.
  remember (drop_listed (rename_columns (present_map df) df)) as df2 eqn:E.
  clear E. split.
  - destruct (drop_non_numeric_filter _ _ _ H) as (keep & ->).
    apply NoDup_columns_filter, unique_labels_NoDup.
    now apply (drop_non_numeric_unique _ _ _ H).
  - intros s Hs.
    destruct (drop_non_numeric_sublist _ _ _ H s Hs) as [[_ Ht]|[Hin Hn]];
      [exact Ht|].
    exfalso. apply Hn. unfold columns. apply in_map. exact Hin.
Qed.

(* ================================================================== *)
(** ** C3: the check for required columns *)

Lemma check_required_training (df : DataFrame) :
  check_required df true
  = match missing_from (FEATURES ++ [TARGET]) df with
    | [] => Return tt
    | m => Raise (MissingColumns m (columns df))
    end.
Proof.
  unfold check_required. now destruct (missing_from (FEATURES ++ [TARGET]) df).
Qed.

Lemma preprocess_dataframe_cleaned (np_log1p : fval -> fval)
      (df cleaned : DataFrame) (is_training : bool) :
  clean_columns df = Return cleaned ->
  preprocess_dataframe np_log1p df is_training
  = match check_required cleaned is_training with
    | Return _ =>
        Return (add_derived_features np_log1p
                                     (impute_missing cleaned is_training))
    | Raise e => Raise e
    end.
Proof.
  intro H. unfold preprocess_dataframe. rewrite H. reflexivity.
Qed.

Lemma preprocess_dataframe_returns (np_log1p : fval -> fval)
      (df out : DataFrame) (is_training : bool) :
  preprocess_dataframe np_log1p df is_training = Return out ->
  exists cleaned,
    clean_columns df = Return cleaned /\
    check_required cleaned is_training = Return tt /\
    out = add_derived_features np_log1p (impute_missing cleaned is_training).
Proof.
  unfold preprocess_dataframe.
  unfold bind.
  destruct (clean_columns df) as [cleaned|e]; [|discriminate].
  destruct (check_required cleaned is_training) as [[]|e] eqn:Hc;
    [|discriminate].
  intro H. injection H as H. exists cleaned. subst out.
  split; [reflexivity|]. split; [exact Hc|reflexivity].
Qed.

(** *** When the cleaning returns *)








(* ================================================================== *)
(** ** Imputation *)

Lemma find_impute_map (x col : string) (df : DataFrame) :
  find (fun s => String.eqb (cname s) x)
       (map (fun s =>
               if String.eqb (cname s) col
               then mkSeries (cname s) (sdtype s)
                             (fillna (series_median (cells s)) (cells s))
               else s) df)
  = match find (fun s => String.eqb (cname s) x) df with
    | Some s =>
        Some (if String.eqb x col
              then mkSeries (cname s) (sdtype s)
                            (fillna (series_median (cells s)) (cells s))
              else s)
    | None => None
    end.
Proof.
  induction df as [|s df IH]; [reflexivity|]. simpl.
  destruct (String.eqb (cname s) col) eqn:Ec; simpl;
    destruct (String.eqb (cname s) x) eqn:Ex; try exact IH.
  - apply String.eqb_eq in Ec, Ex. subst. now rewrite String.eqb_refl.
  - apply String.eqb_eq in Ex. subst. now rewrite Ec.
Qed.

Lemma col_cells_impute_col (x col : string) (df : DataFrame) :
  col_cells x (impute_col col df)
  = if String.eqb x col then imputed (col_cells x df) else col_cells x df.
Proof.
  unfold impute_col, imputed.
  destruct (String.eqb x col) eqn:Ex.
  - apply String.eqb_eq in Ex. subst x.
    destruct (has_col col df) eqn:Hc.
    + destruct (existsb is_nan (col_cells col df)) eqn:Hn; [|reflexivity].
      unfold col_cells in *. rewrite find_impute_map, String.eqb_refl.
      now destruct (find (fun s => String.eqb (cname s) col) df).
    + unfold col_cells. now rewrite (find_none_has_col _ _ Hc).
  - destruct (has_col col df); [|reflexivity].
    destruct (existsb is_nan (col_cells col df)); [|reflexivity].
    unfold col_cells. rewrite find_impute_map, Ex.
    now destruct (find (fun s => String.eqb (cname s) x) df).
Qed.

Lemma columns_impute_col (col : string) (df : DataFrame) :
  columns (impute_col col df) = columns df.
Proof.
  unfold impute_col. destruct (has_col col df); [|reflexivity].
  destruct (existsb is_nan (col_cells col df)); [|reflexivity].
  unfold columns. rewrite map_map. apply map_ext.
  intro s. now destruct (String.eqb (cname s) col).
Qed.

Lemma has_col_impute_col (x col : string) (df : DataFrame) :
  has_col x (impute_col col df) = has_col x df.
Proof. unfold has_col. now rewrite columns_impute_col. Qed.

Lemma col_cells_impute_fold (x : string) (cols : list string) :
  NoDup cols ->
  forall df,
    col_cells x (fold_left (fun d col => impute_col col d) cols df)
    = if str_in x cols then imputed (col_cells x df) else col_cells x df.
Proof.
  induction 1 as [|c cols Hc Hnd IH]; intro df; [reflexivity|].
  simpl fold_left. rewrite IH, col_cells_impute_col.
  unfold str_in. simpl existsb. fold (str_in x cols).
  destruct (String.eqb x c) eqn:Ex; simpl; [|reflexivity].
  apply String.eqb_eq in Ex. subst c.
  apply str_in_false in Hc. now rewrite Hc.
Qed.

Lemma columns_impute_fold (cols : list string) (df : DataFrame) :
  columns (fold_left (fun d col => impute_col col d) cols df) = columns df.
Proof.
  revert df. induction cols as [|c cols IH]; intro df; [reflexivity|].
  simpl. now rewrite IH, columns_impute_col.
Qed.

Lemma columns_impute_missing (df : DataFrame) (is_training : bool) :
  columns (impute_missing df is_training) = columns df.
Proof.
  unfold impute_missing.
  destruct (is_training && _);
    [rewrite columns_impute_col|]; apply columns_impute_fold.
Qed.

Lemma FEATURES_NoDup : NoDup FEATURES.
Proof.
  unfold FEATURES.
  repeat (constructor; [simpl; intuition discriminate|]). constructor.
Qed.

(** After the imputation step of a training call every required column
    holds its imputed cells. *)
Lemma col_cells_impute_missing (x : string) (df : DataFrame) :
  In x (FEATURES ++ [TARGET]) ->
  col_cells x (impute_missing df true) = imputed (col_cells x df).
Proof.
  intro Hx. unfold impute_missing. cbv zeta. rewrite andb_true_l.
  set (df1 := fold_left (fun d col => impute_col col d) FEATURES df).
  assert (H1 : col_cells x df1
               = if str_in x FEATURES then imputed (col_cells x df)
                 else col_cells x df)
    by apply (col_cells_impute_fold x FEATURES FEATURES_NoDup).
  apply in_app_or in Hx. destruct Hx as [Hx|[<-|[]]].
  - assert (Hs : str_in x FEATURES = true) by now apply str_in_In.
    rewrite Hs in H1.
    assert (Hne : String.eqb x TARGET = false).
    { apply String.eqb_neq. intros ->. revert Hx. vm_compute. intuition discriminate. }
    destruct (has_col TARGET df1);
      [rewrite col_cells_impute_col, Hne|]; exact H1.
  - change (str_in TARGET FEATURES) with false in H1.
    destruct (has_col TARGET df1) eqn:Ht.
    + rewrite col_cells_impute_col, String.eqb_refl. now rewrite H1.
    + unfold col_cells at 1. rewrite (find_none_has_col _ _ Ht).
      unfold df1 in Ht. unfold has_col in Ht.
      rewrite columns_impute_fold in Ht. fold (has_col TARGET df) in Ht.
      unfold col_cells. now rewrite (find_none_has_col _ _ Ht).
Qed.

(** *** The median is a number when the column has one *)

Lemma fillna_no_nan (m : fval) (v : list fval) :
  is_nan m = false -> no_nan (fillna m v).
Proof.
  intro Hm. unfold no_nan, fillna. induction v as [|x v IH]; [reflexivity|].
  simpl. rewrite IH, orb_false_r. destruct (is_nan x) eqn:E; [exact Hm|exact E].
Qed.

Lemma imputed_no_nan (v : list fval) :
  is_nan (series_median v) = false -> no_nan (imputed v).
Proof.
  intro H. unfold imputed. destruct (existsb is_nan v) eqn:E.
  - now apply fillna_no_nan.
  - exact E.
Qed.

Lemma imputed_untouched (v : list fval) : no_nan v -> imputed v = v.
Proof. unfold no_nan, imputed. now intros ->. Qed.

Lemma insert_by_flt_perm (x : fval) (l : list fval) :
  Permutation (x :: l) (insert_by flt x l).
Proof.
  induction l as [|y l IH]; simpl; [apply Permutation_refl|].
  destruct (flt y x).
  - eapply perm_trans; [apply perm_swap|]. now apply perm_skip.
  - apply Permutation_refl.
Qed.

Lemma list_sort_flt_perm (l : list fval) : Permutation l (list_sort flt l).
Proof.
  induction l as [|x l IH]; simpl; [constructor|].
  eapply perm_trans; [apply perm_skip, IH | apply insert_by_flt_perm].
Qed.

Lemma nth_finite (l : list fval) (i : nat) :
  Forall (fun x => is_finite x = true) l -> (i < length l)%nat ->
  is_finite (nth i l NaN) = true.
Proof.
  intros H Hi. rewrite Forall_forall in H. apply H. now apply nth_In.
Qed.

Lemma median_sorted_finite (l : list fval) :
  l <> [] -> Forall (fun x => is_finite x = true) l ->
  is_finite (median_sorted l) = true.
Proof.
  intros Hne Hf. unfold median_sorted.
  destruct (length l) as [|n] eqn:El; [destruct l; [congruence|discriminate]|].
  rewrite <- El.
  assert (Hpos : (0 < length l)%nat) by lia.
  assert (Hhalf : (length l / 2 < length l)%nat)
    by (apply Nat.div_lt; lia).
  destruct (Nat.even (length l)).
  - assert (H1 := nth_finite l (length l / 2 - 1) Hf ltac:(lia)).
    assert (H2 := nth_finite l (length l / 2) Hf Hhalf).
    destruct (nth (length l / 2 - 1) l NaN); try discriminate.
    destruct (nth (length l / 2) l NaN); try discriminate.
    reflexivity.
  - now apply nth_finite.
Qed.

(** A column whose cells are numbers or NaN, with at least one number, has
    a number for median. *)
Lemma series_median_finite (v : list fval) :
  Forall (fun x => is_nan x = true \/ is_finite x = true) v ->
  Exists (fun x => is_finite x = true) v ->
  is_finite (series_median v) = true.
Proof.
  intros Hall Hex. unfold series_median.
  apply median_sorted_finite.
  - intro E. apply Exists_exists in Hex. destruct Hex as (x & Hx & Hfin).
    assert (Hin : In x (dropna v)).
    { apply filter_In. split; [exact Hx|]. now destruct x. }
    apply Permutation_in with (l' := list_sort flt (dropna v)) in Hin;
      [|apply list_sort_flt_perm].
    rewrite E in Hin. destruct Hin.
  - rewrite Forall_forall in *. intros x Hx.
    apply Permutation_in with (l' := dropna v) in Hx;
      [|apply Permutation_sym, list_sort_flt_perm].
    apply filter_In in Hx. destruct Hx as [Hx Hn].
    destruct (Hall x Hx) as [H|H]; [|exact H].
    rewrite H in Hn. discriminate.
Qed.

(* ================================================================== *)
(** ** Derived features *)

Lemma has_col_guarded (b : bool) (x c : string) (d : dtype) (v : list fval)
      (df : DataFrame) :
  has_col x (if b then setitem c d v df else df)
  = (b && String.eqb x c) || has_col x df.
Proof. destruct b; [apply has_col_setitem | reflexivity]. Qed.

Lemma col_cells_guarded (b : bool) (x c : string) (d : dtype) (v : list fval)
      (df : DataFrame) :
  col_cells x (if b then setitem c d v df else df)
  = if b && String.eqb x c then v else col_cells x df.
Proof. destruct b; [apply col_cells_setitem | reflexivity]. Qed.

(** Decide the comparisons between string literals in the goal. *)
Ltac eval_eqb :=
  repeat match goal with
         | |- context [String.eqb ?a ?b] =>
             let r := eval vm_compute in (String.eqb a b) in
             match r with
             | true => change (String.eqb a b) with true
             | false => change (String.eqb a b) with false
             end
         end.

Ltac bool_tidy :=
  rewrite ?andb_false_r, ?andb_true_r, ?orb_false_l, ?orb_false_r;
  cbv iota.

Section DerivedFeatures.

Variable np_log1p : fval -> fval.

Lemma has_col_add_interaction x df :
  has_col x (add_interaction df)
  = (all_in ["pH"; "Temp"] df && String.eqb x "pH_Temp_interaction")
    || has_col x df.
Proof. apply has_col_guarded. Qed.

Lemma has_col_add_tds_ratio x df :
  has_col x (add_tds_ratio df)
  = (all_in ["TDS"; "Conductivity"] df
     && String.eqb x "TDS_Conductivity_ratio")
    || has_col x df.
Proof. apply has_col_guarded. Qed.

Lemma has_col_add_coliform_ratio x df :
  has_col x (add_coliform_ratio df)
  = (all_in ["Fecal_Coliform"; "Total_Coliform"] df
     && String.eqb x "Coliform_ratio")
    || has_col x df.
Proof. apply has_col_guarded. Qed.

Lemma has_col_add_log x col df :
  has_col x (add_log np_log1p col df)
  = (has_col col df && String.eqb x (col ++ "_log")) || has_col x df.
Proof. apply has_col_guarded. Qed.

Lemma has_col_add_pH_squared x df :
  has_col x (add_pH_squared df)
  = (has_col "pH" df && String.eqb x "pH_squared") || has_col x df.
Proof. apply has_col_guarded. Qed.

Lemma has_col_add_Temp_squared x df :
  has_col x (add_Temp_squared df)
  = (has_col "Temp" df && String.eqb x "Temp_squared") || has_col x df.
Proof. apply has_col_guarded. Qed.

Lemma col_cells_add_interaction x df :
  col_cells x (add_interaction df)
  = if all_in ["pH"; "Temp"] df && String.eqb x "pH_Temp_interaction"
    then zip_with fmul (col_cells "pH" df) (col_cells "Temp" df)
    else col_cells x df.
Proof. apply col_cells_guarded. Qed.

Lemma col_cells_add_tds_ratio x df :
  col_cells x (add_tds_ratio df)
  = if all_in ["TDS"; "Conductivity"] df
       && String.eqb x "TDS_Conductivity_ratio"
    then zip_with ratio (col_cells "TDS" df) (col_cells "Conductivity" df)
    else col_cells x df.
Proof. apply col_cells_guarded. Qed.

Lemma col_cells_add_coliform_ratio x df :
  col_cells x (add_coliform_ratio df)
  = if all_in ["Fecal_Coliform"; "Total_Coliform"] df
       && String.eqb x "Coliform_ratio"
    then zip_with ratio (col_cells "Fecal_Coliform" df)
                        (col_cells "Total_Coliform" df)
    else col_cells x df.
Proof. apply col_cells_guarded. Qed.

Lemma col_cells_add_log x col df :
  col_cells x (add_log np_log1p col df)
  = if has_col col df && String.eqb x (col ++ "_log")
    then map np_log1p (col_cells col df)
    else col_cells x df.
Proof. apply col_cells_guarded. Qed.

Lemma col_cells_add_pH_squared x df :
  col_cells x (add_pH_squared df)
  = if has_col "pH" df && String.eqb x "pH_squared"
    then map square (col_cells "pH" df)
    else col_cells x df.
Proof. apply col_cells_guarded. Qed.

Lemma col_cells_add_Temp_squared x df :
  col_cells x (add_Temp_squared df)
  = if has_col "Temp" df && String.eqb x "Temp_squared"
    then map square (col_cells "Temp" df)
    else col_cells x df.
Proof. apply col_cells_guarded. Qed.

Lemma add_logs_unfold df :
  add_logs np_log1p df
  = add_log np_log1p "TDS"
      (add_log np_log1p "Total_Coliform"
         (add_log np_log1p "Fecal_Coliform" df)).
Proof. reflexivity. Qed.

Lemma all_in_2 a b df : all_in [a; b] df = has_col a df && has_col b df.
Proof. unfold all_in. simpl. now rewrite andb_true_r. Qed.

Lemma all_in_1 a df : all_in [a] df = has_col a df.
Proof. unfold all_in. simpl. now rewrite andb_true_r. Qed.

(** One pass of rewriting through the steps, innermost column tests
    included. *)
Ltac through_steps :=
  repeat (first
            [ rewrite has_col_add_Temp_squared
            | rewrite has_col_add_pH_squared
            | rewrite add_logs_unfold
            | rewrite has_col_add_log
            | rewrite has_col_add_coliform_ratio
            | rewrite has_col_add_tds_ratio
            | rewrite has_col_add_interaction
            | rewrite col_cells_add_Temp_squared
            | rewrite col_cells_add_pH_squared
            | rewrite col_cells_add_log
            | rewrite col_cells_add_coliform_ratio
            | rewrite col_cells_add_tds_ratio
            | rewrite col_cells_add_interaction
            | rewrite all_in_2 ];
          change ("Fecal_Coliform" ++ "_log")%string with "Fecal_Coliform_log";
          change ("Total_Coliform" ++ "_log")%string with "Total_Coliform_log";
          change ("TDS" ++ "_log")%string with "TDS_log";
          eval_eqb; bool_tidy).

Lemma not_derived_eqb (x : string) :
  ~ In x derived_columns ->
  forall d, In d derived_columns -> String.eqb x d = false.
Proof.
  intros Hx d Hd. apply String.eqb_neq. intros ->. contradiction.
Qed.

Ltac not_derived H :=
  rewrite ?(not_derived_eqb _ H "pH_Temp_interaction" ltac:(vm_compute; tauto)),
          ?(not_derived_eqb _ H "TDS_Conductivity_ratio" ltac:(vm_compute; tauto)),
          ?(not_derived_eqb _ H "Coliform_ratio" ltac:(vm_compute; tauto)),
          ?(not_derived_eqb _ H "Fecal_Coliform_log" ltac:(vm_compute; tauto)),
          ?(not_derived_eqb _ H "Total_Coliform_log" ltac:(vm_compute; tauto)),
          ?(not_derived_eqb _ H "TDS_log" ltac:(vm_compute; tauto)),
          ?(not_derived_eqb _ H "pH_squared" ltac:(vm_compute; tauto)),
          ?(not_derived_eqb _ H "Temp_squared" ltac:(vm_compute; tauto)).

(** A column that is not one of the derived ones goes through the step
    unchanged. *)
Lemma add_derived_features_other (x : string) (df : DataFrame) :
  ~ In x derived_columns ->
  has_col x (add_derived_features np_log1p df) = has_col x df /\
  col_cells x (add_derived_features np_log1p df) = col_cells x df.
Proof.
  intro Hx. unfold add_derived_features. split.
  - repeat (through_steps; not_derived Hx; bool_tidy). reflexivity.
  - repeat (through_steps; not_derived Hx; bool_tidy). reflexivity.
Qed.

(** A derived column is in the result when its prerequisites are in the
    frame the step receives, or when that frame already had a column of
    that name. *)
Lemma add_derived_features_has_col (d : string) (df : DataFrame) :
  In d derived_columns ->
  has_col d (add_derived_features np_log1p df)
  = all_in (prerequisites d) df || has_col d df.
Proof.
  intro Hd. unfold add_derived_features.
  repeat (destruct Hd as [<-|Hd]; [|]); try contradiction;
    through_steps;
    match goal with
    | |- context [prerequisites ?d] =>
        let r := eval vm_compute in (prerequisites d) in
        change (prerequisites d) with r
    end;
    rewrite ?all_in_2, ?all_in_1; reflexivity.
Qed.

(** The cells of a derived column whose prerequisites are present. *)
Lemma add_derived_features_col_cells (d : string) (df : DataFrame) :
  In d derived_columns ->
  all_in (prerequisites d) df = true ->
  col_cells d (add_derived_features np_log1p df)
  = derived_formula np_log1p d df.
Proof.
  intros Hd. unfold add_derived_features.
  repeat (destruct Hd as [<-|Hd]; [|]); try contradiction;
    match goal with
    | |- context [prerequisites ?d] =>
        let r := eval vm_compute in (prerequisites d) in
        change (prerequisites d) with r
    end;
    rewrite ?all_in_2, ?all_in_1; intro Hp;
    through_steps; rewrite ?Hp; reflexivity.
Qed.

End DerivedFeatures.

(* ================================================================== *)
(** ** C5: imputation by the column median *)

Ltac in_cases H :=
  repeat (destruct H as [<-|H]; [|]); try contradiction.

Lemma complete_numeric_check (df : DataFrame) :
  forallb (fun c => match find (fun s => String.eqb (cname s) c) df with
                    | Some s => is_number (sdtype s)
                    | None => false
                    end) (FEATURES ++ [TARGET]) = true ->
  complete_numeric df.
Proof.
  intros H c Hc. rewrite forallb_forall in H. specialize (H c Hc).
  destruct (find (fun s => String.eqb (cname s) c) df) as [s|] eqn:F;
    [|discriminate].
  exists s. apply find_some in F. destruct F as [Hin Heq].
  apply String.eqb_eq in Heq. auto.
Qed.

Lemma frame_with_empty_fluoride_complete :
  complete_numeric frame_with_empty_fluoride.
Proof. apply complete_numeric_check. vm_compute. reflexivity. Qed.

(** C5, as stated, fails: the frame below has the eight features and the
    target, all numeric, and the frame returned for it in training mode
    still holds NaN in [Fluoride], a column with no value at all, whose
    median is NaN. *)
Lemma empty_column_keeps_its_nan :
  ~ (forall df : DataFrame,
        complete_numeric df ->
        exists out,
          preprocess_dataframe sample_log1p df true = Return out /\
          forall c, In c (FEATURES ++ [TARGET]) -> no_nan (col_cells c out)).
Proof.
  intro H.
  destruct (H _ frame_with_empty_fluoride_complete) as (out & Hout & Hnan).
  vm_compute in Hout. injection Hout as <-.
  specialize (Hnan "Fluoride" ltac:(simpl; auto 12)).
  vm_compute in Hnan. discriminate.
Qed.

Lemma fillna_nan (v : list fval) : fillna NaN v = v.
Proof.
  unfold fillna. induction v as [|x v IH]; [reflexivity|]. simpl.
  rewrite IH. now destruct x.
Qed.

(** Two columns whose median is NaN: one without a value, and one whose
    two values are the infinities. *)
Lemma medians_that_are_nan :
  series_median [NaN; NaN; NaN] = NaN /\ series_median [PInf; NInf; NaN] = NaN.
Proof. split; reflexivity. Qed.

(** With the write reaching the frame, the parametrized function is
    [preprocess_dataframe]; under copy-on-write the imputation changes
    nothing. *)
Lemma preprocess_dataframe_write_through (np_log1p : fval -> fval)
      (df : DataFrame) (is_training : bool) :
  preprocess_dataframe_under WriteThrough np_log1p df is_training
  = preprocess_dataframe np_log1p df is_training.
Proof. reflexivity. Qed.

Lemma impute_missing_copy_on_write (df : DataFrame) (is_training : bool) :
  impute_missing_under CopyOnWrite df is_training = df.
Proof.
  unfold impute_missing_under. simpl.
  now destruct (is_training && has_col TARGET df).
Qed.

(** C5, amended.  When no label repeats after the renaming and the drops
    and the frame they leave has the eight features and the target, the
    training call returns a frame.  Where the write of
    [fillna(..., inplace=True)] reaches the frame (pandas before version
    3), each of these columns holds its cells with every NaN replaced by
    the median of that column of the cleaned frame (so taken after the
    drops and before any derived column exists); a column without NaN is
    untouched; the column is free of NaN whenever that median is not NaN,
    which is the case as soon as the column has one number among cells
    that are numbers or NaN; and when the median is NaN (no value at all,
    or infinities of both signs in the middle) the column stays as it was,
    NaN included.  Under copy-on-write (pandas 3) the write does not reach
    the frame and each of these columns comes out as it was. *)
Theorem imputation_by_column_median (np_log1p : fval -> fval)
        (df cleaned : DataFrame) :
  clean_columns df = Return cleaned ->
  (forall c, In c (FEATURES ++ [TARGET]) -> In c (columns cleaned)) ->
  (exists out,
      preprocess_dataframe_under WriteThrough np_log1p df true = Return out /\
      preprocess_dataframe np_log1p df true = Return out /\
      forall c, In c (FEATURES ++ [TARGET]) ->
        let before := col_cells c cleaned in
        col_cells c out
        = (if existsb is_nan before
           then fillna (series_median before) before else before) /\
        (no_nan before -> col_cells c out = before) /\
        (is_nan (series_median before) = false -> no_nan (col_cells c out)) /\
        (Forall (fun x => is_nan x = true \/ is_finite x = true) before ->
         Exists (fun x => is_finite x = true) before ->
         no_nan (col_cells c out)) /\
        (is_nan (series_median before) = true -> col_cells c out = before)) /\
  (exists out,
      preprocess_dataframe_under CopyOnWrite np_log1p df true = Return out /\
      forall c, In c (FEATURES ++ [TARGET]) ->
                col_cells c out = col_cells c cleaned).
Proof.
  intros Hclean Hall.
  assert (Hnd : forall c, In c (FEATURES ++ [TARGET]) ->
                          ~ In c derived_columns).
  { clear. intros c Hc Hd. simpl in Hc.
    in_cases Hc; simpl in Hd; intuition discriminate. }
  split.
  - rewrite preprocess_dataframe_write_through.
    rewrite (preprocess_dataframe_cleaned _ _ _ _ Hclean),
            check_required_training.
    apply missing_from_nil in Hall. rewrite Hall.
    eexists. split; [reflexivity|]. split; [reflexivity|].
    intros c Hc before.
    destruct (add_derived_features_other np_log1p c
                (impute_missing cleaned true) (Hnd c Hc)) as [_ ->].
    rewrite (col_cells_impute_missing c cleaned Hc). fold before.
    split; [reflexivity|]. split; [apply imputed_untouched|].
    split; [apply imputed_no_nan|]. split.
    + intros Hf He. apply imputed_no_nan.
      assert (Hfin := series_median_finite _ Hf He).
      now destruct (series_median before).
    + intro Hm. unfold imputed.
      destruct (existsb is_nan before); [|reflexivity].
      destruct (series_median before); try discriminate Hm.
      apply fillna_nan.
  - unfold preprocess_dataframe_under. rewrite Hclean.
    cbn [bind]. rewrite check_required_training.
    apply missing_from_nil in Hall. rewrite Hall. cbn [bind].
    eexists. split; [reflexivity|].
    intros c Hc. rewrite impute_missing_copy_on_write.
    exact (proj2 (add_derived_features_other np_log1p c cleaned (Hnd c Hc))).
Qed.

Lemma imputation_by_column_median_witness :
  (exists out,
      preprocess_dataframe sample_log1p frame_with_gap true = Return out /\
      col_cells "Fluoride" out = [Fin 4; Fin 2; Fin 1; Fin 2] /\
      no_nan (col_cells "Fluoride" out)) /\
  (exists out,
      preprocess_dataframe_under CopyOnWrite sample_log1p frame_with_gap true
      = Return out /\
      col_cells "Fluoride" out = [Fin 4; NaN; Fin 1; Fin 2]).
Proof.
  assert (Hclean : clean_columns frame_with_gap = Return frame_with_gap)
    by (vm_compute; reflexivity).
  assert (Hall : forall c, In c (FEATURES ++ [TARGET]) ->
                           In c (columns frame_with_gap)).
  { intros c Hc. vm_compute in Hc |- *. exact Hc. }
  destruct (imputation_by_column_median sample_log1p _ _ Hclean Hall)
    as ((out & _ & Hout & Hcols) & (out' & Hout' & Hsame)).
  split.
  - exists out. split; [exact Hout|].
    destruct (Hcols "Fluoride" ltac:(simpl; auto 12)) as (Hc & _ & Hn & _).
    split; [rewrite Hc; vm_compute; reflexivity|].
    apply Hn. vm_compute. reflexivity.
  - exists out'. split; [exact Hout'|].
    rewrite (Hsame "Fluoride" ltac:(simpl; auto 12)). reflexivity.
Defined.

(* ================================================================== *)
(** ** C6: derived columns and their prerequisites *)

Lemma all_in_forall (ps : list string) (df : DataFrame) :
  all_in ps df = true <-> forall p, In p ps -> In p (columns df).
Proof.
  unfold all_in. rewrite forallb_forall.
  split; intros H p Hp; apply has_col_In; auto.
Qed.

Lemma columns_drop_col (x c : string) (df : DataFrame) :
  In x (columns (drop_col c df)) <-> In x (columns df) /\ x <> c.
Proof.
  unfold columns, drop_col. rewrite !in_map_iff. split.
  - intros (s & <- & Hs). apply filter_In in Hs. destruct Hs as [Hs Hne].
    apply negb_true_iff, String.eqb_neq in Hne. split; [|exact Hne].
    now exists s.
  - intros [(s & <- & Hs) Hne]. exists s. split; [reflexivity|].
    apply filter_In. split; [exact Hs|].
    now apply negb_true_iff, String.eqb_neq.
Qed.

Lemma prerequisites_are_features (d : string) :
  In d derived_columns -> forall p, In p (prerequisites d) -> In p FEATURES.
Proof.
  intros Hd p Hp. simpl in Hd. in_cases Hd; vm_compute in Hp |- *; tauto.
Qed.

Lemma prerequisites_not_derived (d : string) :
  In d derived_columns ->
  forall p, In p (prerequisites d) -> ~ In p derived_columns.
Proof.
  intros Hd p Hp. simpl in Hd.
  in_cases Hd; vm_compute in Hp; in_cases Hp; simpl; intuition discriminate.
Qed.

Lemma check_required_features (df : DataFrame) (is_training : bool) :
  check_required df is_training = Return tt ->
  forall c, In c FEATURES -> In c (columns df).
Proof.
  unfold check_required. destruct is_training.
  - destruct (missing_from (FEATURES ++ [TARGET]) df) eqn:E; [|discriminate].
    intros _ c Hc. apply (proj1 (missing_from_nil _ _) E).
    apply in_or_app. now left.
  - destruct (missing_from FEATURES df) eqn:E; [|discriminate].
    intros _. now apply missing_from_nil.
Qed.

Lemma check_required_missing_feature (df : DataFrame) (is_training : bool)
      (c : string) :
  In c FEATURES -> ~ In c (columns df) ->
  exists missing,
    check_required df is_training = Raise (MissingColumns missing (columns df))
    /\ In c missing.
Proof.
  intros Hc Hn. unfold check_required. destruct is_training.
  - assert (Hin : In c (missing_from (FEATURES ++ [TARGET]) df)).
    { apply missing_from_In. split; [apply in_or_app; now left|exact Hn]. }
    destruct (missing_from (FEATURES ++ [TARGET]) df) as [|m l];
      [destruct Hin|]. now exists (m :: l).
  - assert (Hin : In c (missing_from FEATURES df))
      by (apply missing_from_In; now split).
    destruct (missing_from FEATURES df) as [|m l]; [destruct Hin|].
    now exists (m :: l).
Qed.

(** C6, as stated, fails on the function: taking [pH] away from a complete
    input does not leave a smaller frame without the columns computed from
    [pH]; the call raises the missing-columns error, in either mode, so
    [Temp_squared], which is not computed from [pH], is not produced
    either.  And the derived columns are eight. *)
Lemma removing_a_prerequisite_fails_the_call :
  (exists out,
      preprocess_dataframe sample_log1p sample_training_frame true = Return out
      /\ In "Temp_squared" (columns out)) /\
  ~ In "pH" (prerequisites "Temp_squared") /\
  (exists available,
      preprocess_dataframe sample_log1p
                           (drop_col "pH" sample_training_frame) true
      = Raise (MissingColumns ["pH"] available)) /\
  (exists available,
      preprocess_dataframe sample_log1p
                           (drop_col "pH" sample_prediction_frame) false
      = Raise (MissingColumns ["pH"] available)) /\
  length derived_columns <> 7%nat.
Proof.
  split; [|split; [|split; [|split]]].
  - eexists. split; [vm_compute; reflexivity|]. simpl. auto 20.
  - vm_compute. intuition discriminate.
  - eexists. vm_compute. reflexivity.
  - eexists. vm_compute. reflexivity.
  - simpl. discriminate.
Qed.

(** C6, amended.  There are eight derived columns.  The derived-feature
    step, on the frame it receives, produces each of them exactly when its
    prerequisite columns are in that frame (a column of that name already
    there stays); its cells are then the product, the ratio over
    denominator plus one, [log1p] or the square of the prerequisite cells;
    no other column is added, removed or changed; so a frame with one
    column less loses exactly the derived columns computed from it.
    [preprocess_dataframe] itself never reaches the step with a feature
    missing: it raises the missing-columns error, and every frame it
    returns has all eight derived columns. *)
Theorem derived_columns_follow_prerequisites (np_log1p : fval -> fval) :
  length derived_columns = 8%nat /\
  (forall df d,
      In d derived_columns ->
      (In d (columns (add_derived_features np_log1p df)) <->
       (forall p, In p (prerequisites d) -> In p (columns df))
       \/ In d (columns df)) /\
      ((forall p, In p (prerequisites d) -> In p (columns df)) ->
       col_cells d (add_derived_features np_log1p df)
       = derived_formula np_log1p d df)) /\
  (forall df x,
      ~ In x derived_columns ->
      (In x (columns (add_derived_features np_log1p df)) <->
       In x (columns df)) /\
      col_cells x (add_derived_features np_log1p df) = col_cells x df) /\
  (forall df c d,
      In d derived_columns -> ~ In d (columns df) ->
      (In d (columns (add_derived_features np_log1p (drop_col c df))) <->
       In d (columns (add_derived_features np_log1p df))
       /\ ~ In c (prerequisites d))) /\
  (forall df is_training out,
      preprocess_dataframe np_log1p df is_training = Return out ->
      forall d, In d derived_columns -> In d (columns out)) /\
  (forall df cleaned is_training c,
      clean_columns df = Return cleaned ->
      In c FEATURES -> ~ In c (columns cleaned) ->
      exists missing,
        preprocess_dataframe np_log1p df is_training
        = Raise (MissingColumns missing (columns cleaned))
        /\ In c missing).
Proof.
  assert (Hstep : forall df d,
             In d derived_columns ->
             (In d (columns (add_derived_features np_log1p df)) <->
              (forall p, In p (prerequisites d) -> In p (columns df))
              \/ In d (columns df))).
  { intros df d Hd. rewrite <- !has_col_In, <- all_in_forall.
    rewrite (add_derived_features_has_col np_log1p d df Hd).
    apply orb_true_iff. }
  split; [reflexivity|]. split; [|split; [|split; [|split]]].
  - intros df d Hd. split; [now apply Hstep|].
    intro Hp. apply add_derived_features_col_cells; [exact Hd|].
    now apply all_in_forall.
  - intros df x Hx.
    destruct (add_derived_features_other np_log1p x df Hx) as [Hh Hc].
    split; [|exact Hc]. rewrite <- !has_col_In. now rewrite Hh.
  - intros df c d Hd Hnew. rewrite !(Hstep _ d Hd). split.
    + intros [Hp|Hin].
      * split.
        -- left. intros p Hpin. now apply (columns_drop_col p c df), Hp.
        -- intro Hc. apply Hp, columns_drop_col in Hc. now destruct Hc.
      * apply columns_drop_col in Hin. now destruct Hin.
    + intros [[Hp|Hin] Hc]; [|contradiction].
      left. intros p Hpin. apply columns_drop_col. split; [now apply Hp|].
      intros ->. contradiction.
  - intros df is_training out Hout d Hd.
    apply preprocess_dataframe_returns in Hout.
    destruct Hout as (cleaned & _ & Hchk & ->).
    apply (Hstep _ d Hd). left. intros p Hp.
    rewrite columns_impute_missing.
    apply (check_required_features _ _ Hchk).
    now apply (prerequisites_are_features d).
  - intros df cleaned is_training c Hclean Hc Hn.
    rewrite (preprocess_dataframe_cleaned _ _ _ _ Hclean).
    destruct (check_required_missing_feature cleaned is_training c Hc Hn)
      as (missing & -> & Hin).
    now exists missing.
Qed.

Lemma derived_columns_follow_prerequisites_witness :
  In "pH_squared"
     (columns (add_derived_features sample_log1p sample_prediction_frame)) /\
  ~ In "pH_squared"
      (columns (add_derived_features sample_log1p
                                     (drop_col "pH" sample_prediction_frame))) /\
  In "Temp_squared"
     (columns (add_derived_features sample_log1p
                                    (drop_col "pH" sample_prediction_frame))).
Proof.
  destruct (derived_columns_follow_prerequisites sample_log1p)
    as (_ & Hstep & _ & Hdrop & _).
  assert (HpH : In "pH_squared" derived_columns) by (simpl; auto 10).
  assert (HT : In "Temp_squared" derived_columns) by (simpl; auto 10).
  assert (Hnew : forall d, In d derived_columns ->
                           ~ In d (columns sample_prediction_frame)).
  { intros d Hd Hin. simpl in Hd, Hin.
    in_cases Hd; intuition discriminate. }
  assert (Hall : forall d p, In p (prerequisites d) -> In d derived_columns ->
                             In p (columns sample_prediction_frame)).
  { intros d p Hp Hd. simpl in Hd.
    in_cases Hd; vm_compute in Hp; simpl; intuition. }
  assert (Hfull : forall d, In d derived_columns ->
                  In d (columns (add_derived_features sample_log1p
                                                      sample_prediction_frame))).
  { intros d Hd. apply (proj1 (Hstep sample_prediction_frame d Hd)).
    left. intros p Hp. now apply (Hall d). }
  split; [now apply Hfull|]. split.
  - intro H.
    destruct (proj1 (Hdrop sample_prediction_frame "pH" "pH_squared" HpH
                           (Hnew _ HpH)) H) as [_ Hn].
    apply Hn. vm_compute. auto.
  - apply (proj2 (Hdrop sample_prediction_frame "pH" "Temp_squared" HT
                        (Hnew _ HT))).
    split; [now apply Hfull|].
    vm_compute. intuition discriminate.
Defined.

(* ================================================================== *)
(** ** C7: the clipped MAPE *)

Lemma fadd_nonneg_or_inf (a b : fval) :
  nonneg_or_inf a -> nonneg_or_inf b -> nonneg_or_inf (fadd a b).
Proof.
  destruct a, b; simpl; try tauto. intros. lra.
Qed.

Lemma np_sum_nonneg_or_inf (v : list fval) :
  Forall nonneg_or_inf v -> nonneg_or_inf (np_sum v).
Proof.
  unfold np_sum. assert (H0 : nonneg_or_inf (Fin 0)) by (simpl; lra).
  revert H0. generalize (Fin 0) as acc.
  induction v as [|x v IH]; intros acc Hacc Hv; [exact Hacc|].
  inversion Hv; subst. simpl. apply IH; [|assumption].
  now apply fadd_nonneg_or_inf.
Qed.

Lemma Qeq_bool_false (a b : Q) : ~ a == b -> Qeq_bool a b = false.
Proof.
  intro H. destruct (Qeq_bool a b) eqn:E; [|reflexivity].
  apply Qeq_bool_iff in E. contradiction.
Qed.

Lemma np_mean_nonneg_or_inf (v : list fval) :
  v <> [] -> Forall nonneg_or_inf v -> nonneg_or_inf (np_mean v).
Proof.
  intros Hne Hv. unfold np_mean.
  assert (Hn : 0 < inject_Z (Z.of_nat (length v))).
  { destruct v; [congruence|]. simpl length.
    change 0 with (inject_Z 0). rewrite <- Zlt_Qlt. lia. }
  pose proof (np_sum_nonneg_or_inf v Hv) as Hs.
  destruct (np_sum v) as [s| | |]; simpl in Hs; try contradiction; simpl.
  - rewrite Qeq_bool_false by lra. simpl.
    apply Qle_shift_div_l; [exact Hn|]. lra.
  - destruct (Qle_bool 0 (inject_Z (Z.of_nat (length v)))) eqn:E; [exact I|].
    apply Qle_bool_false in E. lra.
Qed.

(** One row of the quotient, in absolute value. *)
Lemma abs_ratio_nonneg_or_inf (y p : Q) :
  ~ (y + epsilon == 0 /\ y == p) ->
  nonneg_or_inf (fabs (fdiv (fsub (Fin y) (Fin p)) (fadd (Fin y) (Fin epsilon)))).
Proof.
  intro H. unfold fsub, fneg, fadd, fdiv.
  destruct (Qeq_bool (y + epsilon) 0) eqn:E.
  - apply Qeq_bool_iff in E. unfold qsign.
    destruct (Qcompare_spec (y + - p) 0) as [H0|H0|H0];
      unfold inf_of_sign, fabs, nonneg_or_inf; try exact I.
    apply H. split; [exact E|lra].
  - unfold fabs, nonneg_or_inf. apply Qabs_nonneg.
Qed.

Lemma ratios_nonneg_or_inf (ys ps : list Q) :
  Forall (fun yp => ~ (fst yp + epsilon == 0 /\ fst yp == snd yp))
         (combine ys ps) ->
  Forall nonneg_or_inf
         (map fabs
              (zip_with (fun y p => fdiv (fsub y p) (fadd y (Fin epsilon)))
                        (map Fin ys) (map Fin ps))).
Proof.
  revert ps. induction ys as [|y ys IH]; intros [|p ps] H; simpl;
    try constructor.
  - inversion H; subst. now apply abs_ratio_nonneg_or_inf.
  - inversion H; subst. now apply IH.
Qed.

(** Away from the rows in which the actual value is minus epsilon and the
    prediction is exact, the clipped MAPE of a non-empty test set is a
    number between 0 and 100. *)
Lemma clipped_mape_in_range (ys ps : list Q) :
  ys <> [] -> length ys = length ps ->
  Forall (fun yp => ~ (fst yp + epsilon == 0 /\ fst yp == snd yp))
         (combine ys ps) ->
  exists q, clipped_mape (map Fin ys) (map Fin ps) = Fin q /\ 0 <= q <= 100.
Proof.
  intros Hne Hlen Hrows.
  pose proof (ratios_nonneg_or_inf ys ps Hrows) as Hr.
  unfold clipped_mape, mape_percent.
  set (ratios := map fabs _) in *.
  assert (Hnonempty : ratios <> []).
  { unfold ratios. destruct ys as [|y ys]; [congruence|].
    destruct ps as [|p ps]; [discriminate|]. simpl. discriminate. }
  pose proof (np_mean_nonneg_or_inf ratios Hnonempty Hr) as Hm.
  destruct (np_mean ratios) as [m| | |]; simpl in Hm; try contradiction.
  - simpl. unfold py_min. simpl.
    destruct (Qle_bool (m * 100) 100) eqn:E; simpl.
    + apply Qle_bool_iff in E. exists (m * 100). split; [reflexivity|]. lra.
    + exists 100. split; [reflexivity|]. lra.
  - exists 100. split; [reflexivity|]. lra.
Qed.

(** C7.  The clip does not hold on every test set.  With the actual value
    equal to minus epsilon and an exact prediction the quotient is 0/0: the
    mean is NaN, [min(NaN, 100.0)] is NaN, and NaN is what is reported, not
    a number of [0, 100].  (When the prediction is not exact the quotient is
    infinite and the clip gives 100.) *)
Theorem clipped_mape_nan_when_actual_is_minus_epsilon :
  clipped_mape [Fin (- epsilon)] [Fin (- epsilon)] = NaN /\
  (forall q, clipped_mape [Fin (- epsilon)] [Fin (- epsilon)] <> Fin q) /\
  clipped_mape [Fin (- epsilon)] [Fin 0] = Fin 100.
Proof.
  split; [reflexivity|]. split; [intros q H; discriminate H | reflexivity].
Qed.

(* ================================================================== *)
(** ** Folders *)

Lemma lookup_entry_map_write (n m : string) (c : Content) (d : Folder) :
  lookup_entry n
    (map (fun e => if String.eqb (fname e) m
                   then mkEntry m true (removable e) c else e) d)
  = match lookup_entry n d with
    | Some e => Some (if String.eqb n m
                      then mkEntry m true (removable e) c else e)
    | None => None
    end.
Proof.
  unfold lookup_entry. induction d as [|e d IH]; [reflexivity|]. simpl.
  destruct (String.eqb (fname e) m) eqn:Em; simpl.
  - apply String.eqb_eq in Em.
    assert (Hm : String.eqb m n = String.eqb (fname e) n) by now rewrite Em.
    rewrite Hm.
    destruct (String.eqb (fname e) n) eqn:En; [|exact IH].
    apply String.eqb_eq in En.
    assert (Hnm : String.eqb n m = true) by (apply String.eqb_eq; congruence).
    now rewrite Hnm.
  - destruct (String.eqb (fname e) n) eqn:En; [|exact IH].
    apply String.eqb_eq in En.
    assert (Hnm : String.eqb n m = false) by (rewrite <- En; exact Em).
    now rewrite Hnm.
Qed.

Lemma lookup_entry_app (n : string) (a b : Folder) :
  lookup_entry n (a ++ b)
  = match lookup_entry n a with
    | Some e => Some e
    | None => lookup_entry n b
    end.
Proof.
  unfold lookup_entry. induction a as [|e a IH]; [reflexivity|]. simpl.
  now destruct (String.eqb (fname e) n).
Qed.

(** The file just written is found, with the content written. *)
Lemma lookup_write_file_same (n : string) (c : Content) (d : Folder) :
  exists e, lookup_entry n (write_file n c d) = Some e /\
            fname e = n /\ isfile e = true /\ content e = c.
Proof.
  unfold write_file. destruct (lookup_entry n d) as [e|] eqn:E.
  - rewrite lookup_entry_map_write, E, String.eqb_refl.
    eexists. split; [reflexivity|]. simpl. auto.
  - rewrite lookup_entry_app, E. unfold lookup_entry. simpl.
    rewrite String.eqb_refl. eexists. split; [reflexivity|]. simpl. auto.
Qed.

(** Writing one file leaves the others as they are. *)
Lemma lookup_write_file_other (n m : string) (c : Content) (d : Folder) :
  n <> m -> lookup_entry n (write_file m c d) = lookup_entry n d.
Proof.
  intro Hne. apply String.eqb_neq in Hne. unfold write_file.
  destruct (lookup_entry m d) as [e|] eqn:E.
  - rewrite lookup_entry_map_write, Hne. now destruct (lookup_entry n d).
  - rewrite lookup_entry_app. destruct (lookup_entry n d); [reflexivity|].
    unfold lookup_entry. simpl. now rewrite String.eqb_sym, Hne.
Qed.


(** What the clearing loop leaves: the directories and the files whose
    removal failed. *)
Lemma clear_folder_In (e : Entry) (d : Folder) :
  In e (clear_folder d) <-> In e d /\ (isfile e = false \/ removable e = false).
Proof.
  unfold clear_folder. rewrite filter_In, negb_true_iff, andb_false_iff.
  tauto.
Qed.

Lemma clear_folder_all_files (d : Folder) :
  (forall e, In e d -> isfile e = true /\ removable e = true) ->
  clear_folder d = [].
Proof.
  intro H. destruct (clear_folder d) as [|e l] eqn:E; [reflexivity|].
  assert (Hin : In e (clear_folder d)) by (rewrite E; now left).
  apply clear_folder_In in Hin. destruct Hin as [Hin [Hf|Hr]];
    destruct (H e Hin); congruence.
Qed.

(* ================================================================== *)
(** ** The training run *)

Ltac munfold :=
  repeat (progress
            (unfold mbind, modify, lift, ret, raise, write_upload, write_model,
               write_result, save_latest_training, append_to_training_history,
               save_prediction_metadata in *;
             cbv beta iota zeta in * )).

(** Every model of the registry has a search space, so it is tuned by the
    randomized search with 30 iterations. *)
Lemma tune_registry
      (randomized_search :
         string -> PipelineSpec -> list string -> nat -> DataFrame ->
         list fval -> result Search)
      (pipe_fit :
         string -> PipelineSpec -> DataFrame -> list fval -> result Pipeline)
      (cross_val_score :
         string -> PipelineSpec -> DataFrame -> list fval ->
         result (list fval))
      (name : string) (pipe : PipelineSpec) (sp : Split) :
  In name registry_names ->
  tune randomized_search pipe_fit cross_val_score name pipe sp
  = match randomized_search name pipe (param_space name) 30%nat
                            (X_train sp) (y_train sp) with
    | Return search =>
        Return (best_estimator_ search, fneg (best_score_ search),
                best_params_ search)
    | Raise e => Raise e
    end.
Proof.
  intro H. simpl in H. in_cases H; reflexivity.
Qed.

Section TrainingRun.

Variable np_log1p : fval -> fval.
Variable secure_filename : string -> string.
Variable train_test_split : DataFrame -> list fval -> result Split.
Variable randomized_search :
  string -> PipelineSpec -> list string -> nat -> DataFrame -> list fval ->
  result Search.
Variable pipe_fit :
  string -> PipelineSpec -> DataFrame -> list fval -> result Pipeline.
Variable cross_val_score :
  string -> PipelineSpec -> DataFrame -> list fval -> result (list fval).
Variable refit : Pipeline -> DataFrame -> list fval -> result Pipeline.
Variable sk_metrics : list fval -> list fval -> result Metrics.

Local Abbreviation round :=
  (train_one randomized_search pipe_fit cross_val_score refit sk_metrics).
Local Abbreviation loop :=
  (train_loop randomized_search pipe_fit cross_val_score refit sk_metrics).
Local Abbreviation report :=
  (fit_and_report randomized_search pipe_fit cross_val_score refit
                  sk_metrics).
Local Abbreviation prepare :=
  (prepare_training np_log1p secure_filename train_test_split).
Local Abbreviation train :=
  (train_models np_log1p secure_filename train_test_split randomized_search
                pipe_fit cross_val_score refit sk_metrics).

(** One round that returns: the record is the model's, its name joins
    [models_trained], an artifact is written, nothing else moves. *)
Lemma train_one_returns ts fc sp total idx name pipe w r w' :
  round ts fc sp total idx name pipe w = (Return r, w') ->
  model_name r = name /\
  model_file r = model_filename name ts /\
  training_state w'
  = mkTrainingState (is_training (training_state w))
                    (progress_of idx total) name
                    (models_trained (training_state w) ++ [name]) /\
  UPLOAD_FOLDER w' = UPLOAD_FOLDER w /\
  RESULTS_FOLDER w' = RESULTS_FOLDER w /\
  exists best_pipe,
    MODEL_FOLDER w'
    = write_file (model_filename name ts) (Pickle best_pipe) (MODEL_FOLDER w).
Proof.
  unfold train_one. munfold.
  destruct (tune _ _ _ _ _ _) as [[[bp0 score] params]|e]; [|discriminate].
  destruct (refit _ _ _) as [bp|e]; [|discriminate].
  destruct (predict_fn bp _) as [yp|e]; [|discriminate].
  destruct (sk_metrics _ _) as [m|e]; [|discriminate].
  intro H. injection H as <- <-. simpl.
  repeat split; try reflexivity. now exists bp.
Qed.

(** One round that raises: the model is the current one, nothing is
    written and [models_trained] is as it was. *)
Lemma train_one_raises ts fc sp total idx name pipe w e w' :
  round ts fc sp total idx name pipe w = (Raise e, w') ->
  training_state w'
  = mkTrainingState (is_training (training_state w))
                    (progress_of idx total) name
                    (models_trained (training_state w)) /\
  UPLOAD_FOLDER w' = UPLOAD_FOLDER w /\
  MODEL_FOLDER w' = MODEL_FOLDER w /\
  RESULTS_FOLDER w' = RESULTS_FOLDER w.
Proof.
  unfold train_one. munfold.
  destruct (tune _ _ _ _ _ _) as [[[bp0 score] params]|e0].
  - destruct (refit _ _ _) as [bp|e1].
    + destruct (predict_fn bp _) as [yp|e2].
      * destruct (sk_metrics _ _) as [m|e3]; [discriminate|].
        intro H. injection H as <- <-. simpl. auto.
      * intro H. injection H as <- <-. simpl. auto.
    + intro H. injection H as <- <-. simpl. auto.
  - intro H. injection H as <- <-. simpl. auto.
Qed.

Lemma train_loop_returns ts fc sp total models :
  forall idx acc w rs w',
    loop ts fc sp total idx models acc w = (Return rs, w') ->
    (exists new,
        rs = acc ++ new /\
        map model_name new = map fst models /\
        map model_file new
        = map (fun m => model_filename (fst m) ts) models) /\
    models_trained (training_state w')
    = models_trained (training_state w) ++ map fst models /\
    is_training (training_state w') = is_training (training_state w) /\
    UPLOAD_FOLDER w' = UPLOAD_FOLDER w /\
    RESULTS_FOLDER w' = RESULTS_FOLDER w.
Proof.
  induction models as [|[name pipe] models IH]; intros idx acc w rs w' H.
  - simpl in H. unfold ret in H. injection H as <- <-.
    split; [exists []; now rewrite app_nil_r|].
    now rewrite app_nil_r.
  - simpl in H. unfold mbind at 1 in H.
    destruct (round ts fc sp total idx name pipe w)
      as [[r|e] w1] eqn:E1; [|discriminate].
    apply train_one_returns in E1.
    destruct E1 as (Hn & Hf & Hts & Hu & Hr & _).
    apply IH in H.
    destruct H as ((new & -> & Hnames & Hfiles) & Hmt & Hit & Hu' & Hr').
    split.
    + exists (r :: new). rewrite <- app_assoc. simpl.
      now rewrite Hn, Hf, Hnames, Hfiles.
    + rewrite Hmt, Hit, Hu', Hr', Hts, Hu, Hr. simpl.
      now rewrite <- app_assoc.
Qed.

Lemma train_loop_raises ts fc sp total models :
  forall idx acc w e w',
    loop ts fc sp total idx models acc w = (Raise e, w') ->
    (exists k name,
        nth_error (map fst models) k = Some name /\
        current_model (training_state w') = name /\
        models_trained (training_state w')
        = models_trained (training_state w) ++ firstn k (map fst models)) /\
    is_training (training_state w') = is_training (training_state w) /\
    UPLOAD_FOLDER w' = UPLOAD_FOLDER w /\
    RESULTS_FOLDER w' = RESULTS_FOLDER w.
Proof.
  induction models as [|[name pipe] models IH]; intros idx acc w e w' H.
  - discriminate.
  - simpl in H. unfold mbind at 1 in H.
    destruct (round ts fc sp total idx name pipe w)
      as [[r|e1] w1] eqn:E1.
    + apply train_one_returns in E1.
      destruct E1 as (Hn & Hf & Hts & Hu & Hr & _).
      apply IH in H.
      destruct H as ((k & n & Hk & Hc & Hmt) & Hit & Hu' & Hr').
      split.
      * exists (S k), n. simpl. split; [exact Hk|]. split; [exact Hc|].
        rewrite Hmt, Hts. simpl. now rewrite <- app_assoc.
      * rewrite Hit, Hu', Hr', Hts, Hu, Hr. simpl. auto.
    + injection H as <- <-. apply train_one_raises in E1.
      destruct E1 as (Hts & Hu & _ & Hr).
      split.
      * exists 0%nat, name. simpl. rewrite Hts. simpl.
        now rewrite app_nil_r.
      * rewrite Hts, Hu, Hr. simpl. auto.
Qed.

Lemma first_item_sorted_results (results : list ResultRecord) :
  results <> [] ->
  exists winner pre post,
    first_item (sort_by_test_rmse results) = Return winner /\
    results = pre ++ winner :: post /\
    (forall r, In r pre -> test_rmse winner < test_rmse r) /\
    (forall r, In r post -> test_rmse winner <= test_rmse r).
Proof.
  intro Hne.
  destruct (list_sort_head test_rmse results Hne)
    as (w & pre & post & Hh & Hl & Hpre & Hpost).
  exists w, pre, post. unfold sort_by_test_rmse.
  destruct (list_sort _ results) as [|x l]; [discriminate|].
  simpl in Hh. injection Hh as ->. auto.
Qed.

(** What [fit_and_report] leaves when the loop raises. *)
Lemma fit_and_report_loop_raises p w e w2 :
  loop (run_timestamp p) (run_feature_cols p) (run_split p)
       (length build_models) 0 build_models [] (set_is_training true w)
  = (Raise e, w2) ->
  report p w = (Raise e, w2).
Proof.
  intro H. unfold fit_and_report. munfold. now rewrite H.
Qed.

(** What [fit_and_report] returns, and the state it leaves then. *)
Lemma fit_and_report_returns p w resp w' :
  report p w = (Return resp, w') ->
  exists results w1 winner pre post,
    loop (run_timestamp p) (run_feature_cols p) (run_split p)
         (length build_models) 0 build_models [] (set_is_training true w)
    = (Return results, w1) /\
    map model_name results = registry_names /\
    results = pre ++ winner :: post /\
    (forall r, In r pre -> test_rmse winner < test_rmse r) /\
    (forall r, In r post -> test_rmse winner <= test_rmse r) /\
    (exists summary,
        resp = Ok200 (mkTrainBody summary (sort_by_test_rmse results)
                                  (model_name winner)) /\
        summary_models_trained summary = sort_by_test_rmse results /\
        summary_best_model summary = model_name winner /\
        exists entry,
          lookup_entry LATEST_TRAINING_FILE (RESULTS_FOLDER w')
          = Some entry /\
          content entry = SummaryJson summary) /\
    training_state w'
    = mkTrainingState false 100 (current_model (training_state w1))
                      (models_trained (training_state w) ++ registry_names).
Proof.
  unfold fit_and_report. munfold.
  destruct (loop _ _ _ _ _ _ _ _) as [[results|e] w1] eqn:Hloop;
    [|discriminate].
  pose proof (train_loop_returns _ _ _ _ _ _ _ _ _ _ Hloop)
    as ((new & Hnew & Hnames & _) & Hmt & _).
  simpl in Hnew. subst new.
  assert (Hne : results <> []).
  { intros ->. discriminate Hnames. }
  destruct (first_item_sorted_results results Hne)
    as (winner & pre & post & Hfirst & Hl & Hpre & Hpost).
  rewrite Hfirst.
  match goal with
  | |- context [lookup_entry TRAINING_HISTORY_FILE ?d] =>
      destruct (lookup_entry TRAINING_HISTORY_FILE d) as [entry|] eqn:Hh
  end.
  - destruct (content entry); try discriminate.
    intro H. injection H as <- <-.
    exists results, w1, winner, pre, post.
    repeat (split; [assumption || reflexivity|]).
    split.
    + eexists. split; [reflexivity|]. split; [reflexivity|].
      split; [reflexivity|]. simpl.
      rewrite lookup_write_file_other by discriminate.
      match goal with
      | |- context [lookup_entry LATEST_TRAINING_FILE
                                 (write_file LATEST_TRAINING_FILE ?c ?d)] =>
          destruct (lookup_write_file_same LATEST_TRAINING_FILE c d)
            as (e0 & He0 & _ & _ & Hc0)
      end.
      exists e0. split; assumption.
    + simpl. now rewrite Hmt.
  - intro H. injection H as <- <-.
    exists results, w1, winner, pre, post.
    repeat (split; [assumption || reflexivity|]).
    split.
    + eexists. split; [reflexivity|]. split; [reflexivity|].
      split; [reflexivity|]. simpl.
      rewrite lookup_write_file_other by discriminate.
      match goal with
      | |- context [lookup_entry LATEST_TRAINING_FILE
                                 (write_file LATEST_TRAINING_FILE ?c ?d)] =>
          destruct (lookup_write_file_same LATEST_TRAINING_FILE c d)
            as (e0 & He0 & _ & _ & Hc0)
      end.
      exists e0. split; assumption.
    + simpl. now rewrite Hmt.
Qed.

(** Walk through the branches of [prepare_training]. *)
Ltac prepare_cases file :=
  unfold prepare_training;
  destruct (files_file _) as [file|];
  [ destruct (String.eqb (filename file) "");
    [| destruct (negb (allowed_file (filename file)));
       [| munfold;
          destruct (read_csv file) as [?df|?e];
          [ destruct (negb (has_col TARGET _ || has_col "WQI" _));
            [| destruct (preprocess_dataframe _ _ true) as [?out|?e];
               [ destruct (negb (has_col TARGET (select_number _)));
                 [| destruct (Nat.eqb (count_true _) 0);
                    [| destruct (train_test_split _ _) as [?sp|?e] ] ]
               | ] ]
          | ] ] ]
  | ];
  munfold.

(** The first half of [train_models] never touches [training_state]. *)
Lemma prepare_training_state request w r w' :
  prepare request w = (r, w') -> training_state w' = training_state w.
Proof.
  prepare_cases file; intro H; injection H as <- <-; reflexivity.
Qed.

(** A request that fails the upload checks changes nothing. *)
Lemma prepare_training_rejected request w r w' :
  (forall file, ~ acceptable_upload request file) ->
  prepare request w = (r, w') ->
  w' = w /\ exists msg, r = Return (inl (ErrorJson 400 msg)).
Proof.
  intro Hrej. unfold prepare_training.
  destruct (files_file request) as [file|] eqn:Hf.
  - destruct (String.eqb (filename file) "") eqn:Hn.
    + unfold ret. intro H. injection H as <- <-. eauto.
    + destruct (allowed_file (filename file)) eqn:Ha; simpl.
      * exfalso. apply (Hrej file). unfold acceptable_upload.
        apply String.eqb_neq in Hn. auto.
      * unfold ret. intro H. injection H as <- <-. eauto.
  - unfold ret. intro H. injection H as <- <-. eauto.
Qed.

(** With an acceptable upload the two folders are cleared and the upload
    is saved, whatever comes next. *)
Lemma prepare_training_clears request file w r w' :
  acceptable_upload request file ->
  prepare request w = (r, w') ->
  MODEL_FOLDER w' = clear_folder (MODEL_FOLDER w) /\
  RESULTS_FOLDER w' = clear_folder (RESULTS_FOLDER w) /\
  UPLOAD_FOLDER w'
  = write_file ("train_" ++ now request ++ "_"
                         ++ secure_filename (filename file))%string
               UploadedCsv (UPLOAD_FOLDER w).
Proof.
  intros (Hf & Hn & Ha). apply String.eqb_neq in Hn.
  unfold prepare_training. rewrite Hf, Hn, Ha. change (negb true) with false. cbv beta iota.
  munfold.
  destruct (read_csv file) as [df|e];
    [ destruct (negb (has_col TARGET _ || has_col "WQI" _));
      [| destruct (preprocess_dataframe _ _ true) as [out|e];
         [ destruct (negb (has_col TARGET (select_number _)));
           [| destruct (Nat.eqb (count_true _) 0);
              [| destruct (train_test_split _ _) as [sp|e] ] ]
         | ] ]
    | ];
    intro H; injection H as <- <-; simpl; auto.
Qed.



Lemma prepare_training_early_response request w resp w' :
  prepare request w = (Return (inl resp), w') ->
  exists msg, resp = ErrorJson 400 msg.
Proof.
  prepare_cases file; intro H; try discriminate;
    injection H as <- <-; eauto.
Qed.

Lemma prepare_training_timestamp request w p w' :
  prepare request w = (Return (inr p), w') ->
  run_timestamp p = now request.
Proof.
  prepare_cases file; intro H; try discriminate;
    injection H as <- <-; reflexivity.
Qed.

(** [train_models] in terms of its two halves. *)
Lemma train_models_cases request w :
  match prepare request w with
  | (Raise e, w1) => train request w = (Error500 e, set_is_training false w1)
  | (Return (inl resp), w1) => train request w = (resp, w1)
  | (Return (inr p), w1) =>
      match report p w1 with
      | (Return resp, w2) => train request w = (resp, w2)
      | (Raise e, w2) => train request w = (Error500 e, set_is_training false w2)
      end
  end.
Proof.
  unfold train_models, train_models_try, mbind.
  destruct (prepare request w) as [[[resp|p]|e] w1]; try reflexivity.
  now destruct (report p w1) as [[resp|e] w2].
Qed.

(** Whatever [fit_and_report] does, [models_trained] grows by a prefix of
    the registry. *)
Lemma fit_and_report_models_trained p w r w' :
  report p w = (r, w') ->
  exists k,
    models_trained (training_state w')
    = models_trained (training_state w) ++ firstn k registry_names.
Proof.
  destruct r as [resp|e]; intro H.
  - apply fit_and_report_returns in H.
    destruct H as (results & w1 & winner & pre & post & _ & _ & _ & _ & _
                   & _ & Hts).
    exists 5%nat. rewrite Hts. reflexivity.
  - unfold fit_and_report in H. munfold.
    destruct (loop _ _ _ _ _ _ _ _) as [[results|e1] w1] eqn:Hloop.
    + pose proof (train_loop_returns _ _ _ _ _ _ _ _ _ _ Hloop)
        as (_ & Hmt & _).
      destruct (first_item _) as [best|e2].
      * match type of H with
        | context [lookup_entry TRAINING_HISTORY_FILE ?d] =>
            destruct (lookup_entry TRAINING_HISTORY_FILE d) as [entry|]
        end; [destruct (content entry)|]; try discriminate;
          injection H as <- <-; exists 5%nat; simpl; exact Hmt.
      * injection H as <- <-. exists 5%nat. exact Hmt.
    + injection H as <- <-.
      apply train_loop_raises in Hloop.
      destruct Hloop as ((k & name & _ & _ & Hmt) & _).
      exists k. exact Hmt.
Qed.

Lemma prepare_training_prepared request w p w' :
  prepare request w = (Return (inr p), w') ->
  exists file, acceptable_upload request file.
Proof.
  unfold prepare_training.
  destruct (files_file request) as [file|] eqn:Hf; [|discriminate].
  destruct (String.eqb (filename file) "") eqn:Hn; [discriminate|].
  destruct (allowed_file (filename file)) eqn:Ha; [|discriminate].
  intros _. exists file. apply String.eqb_neq in Hn.
  unfold acceptable_upload. auto.
Qed.

Local Abbreviation serve :=
  (serve_training np_log1p secure_filename train_test_split
                  randomized_search pipe_fit cross_val_score refit
                  sk_metrics).

(** A response is a success only out of [fit_and_report]; the state is
    then reset and the five names are appended. *)
Lemma train_models_ok request w body w' :
  train request w = (Ok200 body, w') ->
  exists p w1,
    prepare request w = (Return (inr p), w1) /\
    report p w1 = (Return (Ok200 body), w') /\
    is_training (training_state w') = false /\
    progress (training_state w') = 100%Z /\
    models_trained (training_state w')
    = models_trained (training_state w) ++ registry_names.
Proof.
  intro H. pose proof (train_models_cases request w) as Hc.
  destruct (prepare request w) as [[[resp|p]|e] w1] eqn:Hp.
  - rewrite Hc in H. injection H as -> ->.
    apply prepare_training_early_response in Hp.
    destruct Hp as (msg & Hmsg). discriminate.
  - destruct (report p w1) as [[resp|e] w2] eqn:Hr.
    + rewrite Hc in H. injection H as -> ->.
      exists p, w1. split; [reflexivity|]. split; [exact Hr|].
      pose proof (prepare_training_state _ _ _ _ Hp) as Hst.
      apply fit_and_report_returns in Hr.
      destruct Hr as (results & w3 & winner & pre & post & _ & _ & _ & _
                      & _ & _ & Hts).
      rewrite Hts, Hst. simpl. auto.
    + rewrite Hc in H. discriminate.
  - rewrite Hc in H. discriminate.
Qed.

(** In every case [models_trained] keeps what it had and grows by a
    prefix of the registry. *)
Lemma train_models_models_trained request w :
  exists k,
    models_trained (training_state (snd (train request w)))
    = models_trained (training_state w) ++ firstn k registry_names.
Proof.
  pose proof (train_models_cases request w) as Hc.
  destruct (prepare request w) as [[[resp|p]|e] w1] eqn:Hp.
  - rewrite Hc. simpl. rewrite (prepare_training_state _ _ _ _ Hp).
    exists 0%nat. simpl. now rewrite app_nil_r.
  - pose proof (prepare_training_state _ _ _ _ Hp) as Hst.
    destruct (report p w1) as [[resp|e] w2] eqn:Hr;
      rewrite Hc; simpl;
      destruct (fit_and_report_models_trained _ _ _ _ Hr) as (k & Hk);
      exists k; rewrite Hk, Hst; reflexivity.
  - rewrite Hc. simpl. rewrite (prepare_training_state _ _ _ _ Hp).
    exists 0%nat. simpl. now rewrite app_nil_r.
Qed.

Lemma serve_training_all_ok requests :
  forall w,
    forallb is_ok (fst (serve requests w)) = true ->
    models_trained (training_state (snd (serve requests w)))
    = models_trained (training_state w)
      ++ concat (repeat registry_names (length requests)).
Proof.
  induction requests as [|r rest IH]; intros w H.
  - simpl. now rewrite app_nil_r.
  - simpl in *.
    destruct (train r w) as [resp w1] eqn:Ht.
    destruct (serve rest w1) as [resps w2] eqn:Hs.
    simpl in *. apply andb_true_iff in H. destruct H as [Hok Hrest].
    destruct resp as [body| |]; try discriminate.
    apply train_models_ok in Ht.
    destruct Ht as (_ & _ & _ & _ & _ & _ & Hmt).
    specialize (IH w1). rewrite Hs in IH. simpl in IH.
    rewrite (IH Hrest), Hmt, <- app_assoc. reflexivity.
Qed.

Lemma length_concat_repeat {A : Type} (l : list A) (k : nat) :
  length (concat (repeat l k)) = (k * length l)%nat.
Proof.
  induction k as [|k IH]; [reflexivity|].
  simpl. rewrite length_app, IH. reflexivity.
Qed.

(* ---------------------------------------------------------------- *)
(** *** C1: selection *)

(** C1.  Sorting the result records by held-out RMSE is a stable
    ascending sort, and the winner, its first record, is the first
    record of least RMSE in the order the records were produced; in the
    tie example (3.1, 2.9, 4.0, 2.9, 3.5 in registry order) it is the
    second record, SVR, not the fourth; and in every successful training
    response the ranked records are the sort of five records produced in
    registry order and the best model is the first of least RMSE among
    them. *)
Theorem winner_is_first_of_least_rmse :
  (forall results : list ResultRecord,
      results <> [] ->
      exists winner pre post,
        first_item (sort_by_test_rmse results) = Return winner /\
        results = pre ++ winner :: post /\
        (forall r, In r pre -> test_rmse winner < test_rmse r) /\
        (forall r, In r post -> test_rmse winner <= test_rmse r) /\
        Permutation results (sort_by_test_rmse results) /\
        StronglySorted (fun a b => test_rmse a <= test_rmse b)
                       (sort_by_test_rmse results) /\
        (forall k,
            filter (fun r => Qeq_bool (test_rmse r) k)
                   (sort_by_test_rmse results)
            = filter (fun r => Qeq_bool (test_rmse r) k) results)) /\
  (map test_rmse tie_results = [31 # 10; 29 # 10; 4; 29 # 10; 35 # 10] /\
   map model_name tie_results
   = ["Ridge"; "SVR"; "RandomForest"; "GradientBoosting"; "XGBoost"] /\
   exists winner,
     first_item (sort_by_test_rmse tie_results) = Return winner /\
     nth_error tie_results 1 = Some winner /\
     model_name winner = "SVR") /\
  (forall request w body w',
      train request w = (Ok200 body, w') ->
      exists results winner pre post,
        map model_name results
        = ["Ridge"; "SVR"; "RandomForest"; "GradientBoosting"; "XGBoost"] /\
        body_models body = sort_by_test_rmse results /\
        body_best_model body = model_name winner /\
        results = pre ++ winner :: post /\
        (forall r, In r pre -> test_rmse winner < test_rmse r) /\
        (forall r, In r post -> test_rmse winner <= test_rmse r)).
Proof.
  split; [|split].
  - intros results Hne.
    destruct (first_item_sorted_results results Hne)
      as (winner & pre & post & Hf & Hl & Hpre & Hpost).
    exists winner, pre, post.
    repeat (split; [assumption|]).
    split; [apply list_sort_perm|].
    split; [apply (list_sort_sorted test_rmse)|].
    intro k. apply (list_sort_stable test_rmse).
  - split; [reflexivity|]. split; [reflexivity|].
    eexists. split; [vm_compute; reflexivity|]. split; reflexivity.
  - intros request w body w' H.
    apply train_models_ok in H.
    destruct H as (p & w1 & _ & Hr & _).
    apply fit_and_report_returns in Hr.
    destruct Hr as (results & w3 & winner & pre & post & _ & Hnames & Hl
                    & Hpre & Hpost & (summary & Hbody & _) & _).
    injection Hbody as ->.
    exists results, winner, pre, post.
    split; [exact Hnames|]. split; [reflexivity|]. split; [reflexivity|].
    split; [exact Hl|]. split; assumption.
Qed.

(* ---------------------------------------------------------------- *)
(** *** C4: a failing model *)

(** A round one of whose steps raises, raises. *)
Lemma train_one_step_raises ts fc sp total idx name pipe e w :
  In name registry_names ->
  step_raises randomized_search refit sk_metrics name pipe sp e ->
  exists w', round ts fc sp total idx name pipe w = (Raise e, w').
Proof.
  intros Hname Hstep. unfold train_one. munfold.
  rewrite (tune_registry _ _ _ _ _ _ Hname).
  destruct Hstep as [Hs|s Hs Hf|s bp Hs Hf Hp|s bp yp Hs Hf Hp Hm];
    rewrite Hs.
  - eexists. reflexivity.
  - rewrite Hf. eexists. reflexivity.
  - rewrite Hf, Hp. eexists. reflexivity.
  - rewrite Hf, Hp, Hm. eexists. reflexivity.
Qed.

(** A round all of whose steps return, returns. *)
Lemma train_one_completes ts fc sp total idx name pipe w :
  In name registry_names ->
  round_completes randomized_search refit sk_metrics name pipe sp ->
  exists r w', round ts fc sp total idx name pipe w = (Return r, w').
Proof.
  intros Hname (s & bp & yp & m & Hs & Hf & Hp & Hm).
  unfold train_one. munfold.
  rewrite (tune_registry _ _ _ _ _ _ Hname), Hs, Hf, Hp, Hm.
  eexists. eexists. reflexivity.
Qed.

(** The loop stops at the first model one of whose steps raises. *)
Lemma train_loop_stops_at ts fc sp total name pipe e post :
  In name registry_names ->
  step_raises randomized_search refit sk_metrics name pipe sp e ->
  forall pre idx acc w,
    (forall m, In m pre ->
               In (fst m) registry_names /\
               round_completes randomized_search refit sk_metrics
                               (fst m) (snd m) sp) ->
    exists w',
      loop ts fc sp total idx (pre ++ (name, pipe) :: post) acc w
      = (Raise e, w') /\
      current_model (training_state w') = name /\
      models_trained (training_state w')
      = models_trained (training_state w) ++ map fst pre /\
      is_training (training_state w') = is_training (training_state w) /\
      RESULTS_FOLDER w' = RESULTS_FOLDER w.
Proof.
  intros Hname Hstep.
  induction pre as [|[n q] pre IH]; intros idx acc w Hpre.
  - destruct (train_one_step_raises ts fc sp total idx name pipe e w
                                    Hname Hstep) as (w' & Hr).
    exists w'. simpl. unfold mbind at 1. rewrite Hr.
    apply train_one_raises in Hr. destruct Hr as (Hts & _ & _ & Hres).
    split; [reflexivity|]. rewrite Hts. simpl.
    now rewrite app_nil_r.
  - destruct (Hpre (n, q) (or_introl eq_refl)) as (Hn & Hc).
    destruct (train_one_completes ts fc sp total idx n q w Hn Hc)
      as (r & w1 & Hr).
    destruct (IH (S idx) (acc ++ [r]) w1) as (w' & Hl & Hcur & Hmt & Hit
                                              & Hres).
    { intros m Hm. apply Hpre. now right. }
    exists w'. simpl. unfold mbind at 1. rewrite Hr.
    apply train_one_returns in Hr.
    destruct Hr as (_ & _ & Hts & _ & Hres1 & _).
    split; [exact Hl|]. split; [exact Hcur|].
    rewrite Hmt, Hit, Hres, Hts, Hres1. simpl.
    now rewrite <- app_assoc.
Qed.

Lemma nth_error_split_at {A : Type} (l : list A) (k : nat) (x : A) :
  nth_error l k = Some x ->
  l = firstn k l ++ x :: skipn (S k) l.
Proof.
  revert k. induction l as [|y l IH]; intros [|k] H; try discriminate.
  - injection H as ->. reflexivity.
  - simpl. f_equal. now apply IH.
Qed.

Lemma nth_error_firstn_In {A : Type} (l : list A) (k : nat) (x : A) :
  In x (firstn k l) ->
  exists j, (j < k)%nat /\ nth_error l j = Some x.
Proof.
  revert k. induction l as [|y l IH]; intros [|k] H; try contradiction.
  destruct H as [->|H].
  - exists 0%nat. split; [lia|reflexivity].
  - destruct (IH k H) as (j & Hj & Hn). exists (S j). split; [lia|exact Hn].
Qed.

(** A round completes or one of its steps raises. *)
Lemma round_outcome name pipe sp :
  round_completes randomized_search refit sk_metrics name pipe sp \/
  exists e, step_raises randomized_search refit sk_metrics name pipe sp e.
Proof.
  destruct (randomized_search name pipe (param_space name) 30%nat
                              (X_train sp) (y_train sp)) as [s|e] eqn:Hs;
    [|right; exists e; now apply search_raises].
  destruct (refit (best_estimator_ s) (X_train sp) (y_train sp))
    as [bp|e] eqn:Hf;
    [|right; exists e; now apply (fit_raises _ _ _ _ _ _ _ s)].
  destruct (predict_fn bp (X_test sp)) as [yp|e] eqn:Hp;
    [|right; exists e; now apply (predict_raises _ _ _ _ _ _ _ s bp)].
  destruct (sk_metrics (y_test sp) yp) as [m|e] eqn:Hm;
    [|right; exists e; now apply (metrics_raise _ _ _ _ _ _ _ s bp yp)].
  left. exists s, bp, yp, m. auto.
Qed.

(** Among the first [n] rounds either all complete or there is a first
    one with a step that raises. *)
Lemma first_failing_round sp (n : nat) :
  (forall j name pipe,
      (j < n)%nat -> nth_error build_models j = Some (name, pipe) ->
      round_completes randomized_search refit sk_metrics name pipe sp) \/
  exists k name pipe e,
    (k < n)%nat /\
    nth_error build_models k = Some (name, pipe) /\
    step_raises randomized_search refit sk_metrics name pipe sp e /\
    forall j name_j pipe_j,
      (j < k)%nat -> nth_error build_models j = Some (name_j, pipe_j) ->
      round_completes randomized_search refit sk_metrics name_j pipe_j sp.
Proof.
  induction n as [|n IH].
  - left. intros j name pipe Hj. lia.
  - destruct IH as [Hall|(k & name & pipe & e & Hk & Hn & Hs & Hb)].
    + destruct (nth_error build_models n) as [[name pipe]|] eqn:Hn.
      * destruct (round_outcome name pipe sp) as [Hc|(e & He)].
        -- left. intros j nj pj Hj Hnj.
           destruct (Nat.eq_dec j n) as [->|Hne].
           ++ rewrite Hn in Hnj. injection Hnj as <- <-. exact Hc.
           ++ apply (Hall j); [lia|exact Hnj].
        -- right. exists n, name, pipe, e.
           split; [lia|]. split; [exact Hn|]. split; [exact He|exact Hall].
      * left. intros j nj pj Hj Hnj.
        destruct (Nat.eq_dec j n) as [->|Hne]; [congruence|].
        apply (Hall j); [lia|exact Hnj].
    + right. exists k, name, pipe, e.
      split; [lia|]. auto.
Qed.

(** C4, amended.  When a fit or predict step of a model raises, the
    models before it in the registry having completed their rounds, the
    run ends there: the response is the 500 error built from the
    exception alone (its message and traceback), the results folder holds
    only what the clearing left, so neither a training summary nor a
    latest-training record of this run, and [is_training] is false; the
    name of the model that raised stays in [current_model] of the
    training state, with the names of the models completed before it in
    [models_trained].  So whenever a step of any model of the registry
    would raise, the run is answered with a 500 and stops at that model
    or at an earlier one whose step raises.  [is_training] is false as
    well after every successful run and after every other 500
    response. *)
Theorem failing_model_aborts_the_run :
  (forall request w p w1 k name pipe e,
      prepare request w = (Return (inr p), w1) ->
      nth_error build_models k = Some (name, pipe) ->
      (forall j name_j pipe_j,
          (j < k)%nat ->
          nth_error build_models j = Some (name_j, pipe_j) ->
          round_completes randomized_search refit sk_metrics
                          name_j pipe_j (run_split p)) ->
      step_raises randomized_search refit sk_metrics
                  name pipe (run_split p) e ->
      exists w',
        train request w = (Error500 e, w') /\
        is_training (training_state w') = false /\
        RESULTS_FOLDER w' = clear_folder (RESULTS_FOLDER w) /\
        current_model (training_state w') = name /\
        models_trained (training_state w')
        = models_trained (training_state w) ++ firstn k registry_names) /\
  (forall request w p w1 k name pipe e,
      prepare request w = (Return (inr p), w1) ->
      nth_error build_models k = Some (name, pipe) ->
      step_raises randomized_search refit sk_metrics
                  name pipe (run_split p) e ->
      exists e' w' k' name',
        train request w = (Error500 e', w') /\
        (k' <= k)%nat /\
        nth_error registry_names k' = Some name' /\
        current_model (training_state w') = name' /\
        models_trained (training_state w')
        = models_trained (training_state w) ++ firstn k' registry_names /\
        is_training (training_state w') = false /\
        RESULTS_FOLDER w' = clear_folder (RESULTS_FOLDER w)) /\
  (forall request w resp w',
      train request w = (resp, w') ->
      is_ok resp = true \/ (exists e, resp = Error500 e) ->
      is_training (training_state w') = false).
Proof.
  assert (Hfirst :
    forall request w p w1 k name pipe e,
      prepare request w = (Return (inr p), w1) ->
      nth_error build_models k = Some (name, pipe) ->
      (forall j name_j pipe_j,
          (j < k)%nat ->
          nth_error build_models j = Some (name_j, pipe_j) ->
          round_completes randomized_search refit sk_metrics
                          name_j pipe_j (run_split p)) ->
      step_raises randomized_search refit sk_metrics
                  name pipe (run_split p) e ->
      exists w',
        train request w = (Error500 e, w') /\
        is_training (training_state w') = false /\
        RESULTS_FOLDER w' = clear_folder (RESULTS_FOLDER w) /\
        current_model (training_state w') = name /\
        models_trained (training_state w')
        = models_trained (training_state w) ++ firstn k registry_names);
    [|split; [exact Hfirst|split]].
  - intros request w p w1 k name pipe e Hp Hk Hbefore Hstep.
    pose proof (train_models_cases request w) as Hc. rewrite Hp in Hc.
    assert (Hreg : forall j n q, nth_error build_models j = Some (n, q) ->
                                 In n registry_names).
    { intros j n q Hj. unfold registry_names. apply in_map_iff.
      exists (n, q). split; [reflexivity|]. eapply nth_error_In; eauto. }
    destruct (train_loop_stops_at
                (run_timestamp p) (run_feature_cols p) (run_split p)
                (length build_models) name pipe e
                (skipn (S k) build_models) (Hreg _ _ _ Hk) Hstep
                (firstn k build_models) 0%nat []
                (set_is_training true w1))
      as (w2 & Hloop & Hcur & Hmt & Hit & Hr).
    { intros [n q] Hm.
      destruct (nth_error_firstn_In _ _ _ Hm) as (j & Hj & Hn).
      split; [exact (Hreg _ _ _ Hn)|]. exact (Hbefore j n q Hj Hn). }
    rewrite <- (nth_error_split_at _ _ _ Hk) in Hloop.
    rewrite (fit_and_report_loop_raises _ _ _ _ Hloop) in Hc.
    exists (set_is_training false w2). split; [exact Hc|].
    split; [reflexivity|].
    destruct (prepare_training_prepared _ _ _ _ Hp) as (file & Hacc).
    destruct (prepare_training_clears _ _ _ _ _ Hacc Hp) as (_ & Hres & _).
    pose proof (prepare_training_state _ _ _ _ Hp) as Hst.
    split; [simpl; now rewrite Hr, <- Hres|].
    split; [exact Hcur|].
    simpl. rewrite Hmt. simpl. rewrite Hst.
    unfold registry_names. now rewrite firstn_map.
  - intros request w p w1 k name pipe e Hp Hk Hstep.
    assert (Hname : forall j n q, nth_error build_models j = Some (n, q) ->
                                  nth_error registry_names j = Some n).
    { intros j n q Hj. unfold registry_names.
      now rewrite nth_error_map, Hj. }
    destruct (first_failing_round (run_split p) k)
      as [Hall|(k' & name' & pipe' & e' & Hlt & Hk' & Hs' & Hb')].
    + destruct (Hfirst request w p w1 k name pipe e Hp Hk Hall Hstep)
        as (w' & Ht & Hit & Hres & Hcur & Hmt).
      exists e, w', k, name. split; [exact Ht|]. split; [lia|].
      split; [exact (Hname _ _ _ Hk)|]. auto.
    + destruct (Hfirst request w p w1 k' name' pipe' e' Hp Hk' Hb' Hs')
        as (w' & Ht & Hit & Hres & Hcur & Hmt).
      exists e', w', k', name'. split; [exact Ht|]. split; [lia|].
      split; [exact (Hname _ _ _ Hk')|]. auto.
  - intros request w resp w' H Hresp.
    pose proof (train_models_cases request w) as Hc.
    destruct (prepare request w) as [[[r|p]|e] w1] eqn:Hp.
    + rewrite Hc in H. injection H as -> ->.
      apply prepare_training_early_response in Hp.
      destruct Hp as (msg & ->).
      destruct Hresp as [Hok|(e & He)]; discriminate.
    + destruct (report p w1) as [[r|e] w2] eqn:Hr;
        rewrite Hc in H; injection H as <- <-; [|reflexivity].
      apply fit_and_report_returns in Hr.
      destruct Hr as (results & w3 & winner & pre & post & _ & _ & _ & _
                      & _ & _ & Hts).
      now rewrite Hts.
    + rewrite Hc in H. injection H as <- <-. reflexivity.
Qed.

(* ---------------------------------------------------------------- *)
(** *** C10: [models_trained] is never reset *)

(** C10.  No training request removes a name from [models_trained]: the
    list after the request is the list before it followed by the first
    [k] registry names, where [k] is 5 when the run succeeds (and then
    [is_training] is false and [progress] is 100) and, when a round of
    the loop raises, the number of models completed before it.  So [k]
    successful runs add [5 * k] names, and a process that starts with the
    empty list holds exactly [5 * k] after them. *)
Theorem models_trained_is_never_reset :
  (forall request w,
      exists k,
        models_trained (training_state (snd (train request w)))
        = models_trained (training_state w) ++ firstn k registry_names) /\
  (forall request w body w',
      train request w = (Ok200 body, w') ->
      models_trained (training_state w')
      = models_trained (training_state w) ++ registry_names /\
      length registry_names = 5%nat /\
      is_training (training_state w') = false /\
      progress (training_state w') = 100%Z) /\
  (forall request w p w1 e w2,
      prepare request w = (Return (inr p), w1) ->
      loop (run_timestamp p) (run_feature_cols p) (run_split p)
           (length build_models) 0 build_models [] (set_is_training true w1)
      = (Raise e, w2) ->
      exists k name,
        nth_error registry_names k = Some name /\
        current_model (training_state (snd (train request w))) = name /\
        models_trained (training_state (snd (train request w)))
        = models_trained (training_state w) ++ firstn k registry_names) /\
  (forall requests w,
      forallb is_ok (fst (serve requests w)) = true ->
      models_trained (training_state (snd (serve requests w)))
      = models_trained (training_state w)
        ++ concat (repeat registry_names (length requests)) /\
      length (models_trained (training_state (snd (serve requests w))))
      = (length (models_trained (training_state w))
         + 5 * length requests)%nat /\
      (training_state w = initial_training_state ->
       length (models_trained (training_state (snd (serve requests w))))
       = (5 * length requests)%nat)).
Proof.
  split; [exact train_models_models_trained|]. split; [|split].
  - intros request w body w' H. apply train_models_ok in H.
    destruct H as (_ & _ & _ & _ & Hit & Hpr & Hmt). auto.
  - intros request w p w1 e w2 Hp Hloop.
    pose proof (train_models_cases request w) as Hc. rewrite Hp in Hc.
    rewrite (fit_and_report_loop_raises _ _ _ _ Hloop) in Hc.
    rewrite Hc. simpl.
    pose proof (prepare_training_state _ _ _ _ Hp) as Hst.
    apply train_loop_raises in Hloop.
    destruct Hloop as ((k & name & Hk & Hcur & Hmt) & _).
    exists k, name. rewrite Hcur, Hmt. simpl. rewrite Hst. auto.
  - intros requests w Hok.
    pose proof (serve_training_all_ok requests w Hok) as Hmt.
    split; [exact Hmt|].
    assert (Hlen : length (models_trained
                             (training_state (snd (serve requests w))))
                   = (length (models_trained (training_state w))
                      + 5 * length requests)%nat).
    { rewrite Hmt, length_app, length_concat_repeat.
      change (length registry_names) with 5%nat. lia. }
    split; [exact Hlen|].
    intro Hinit. rewrite Hlen, Hinit. reflexivity.
Qed.

End TrainingRun.

(* ================================================================== *)
(** ** Prediction *)

Lemma ltb_lt (a b : string) :
  String.ltb a b = true <-> OrderedTypeEx.String_as_OT.lt a b.
Proof.
  unfold String.ltb. rewrite <- OrderedTypeEx.String_as_OT.cmp_lt.
  unfold OrderedTypeEx.String_as_OT.cmp.
  destruct (String.compare a b); split; congruence.
Qed.

Lemma ltb_asym (a b : string) :
  String.ltb a b = true -> String.ltb b a = false.
Proof.
  intro H. destruct (String.ltb b a) eqn:E; [|reflexivity].
  apply ltb_lt in H, E.
  pose proof (OrderedTypeEx.String_as_OT.lt_trans _ _ _ H E) as Hc.
  apply OrderedTypeEx.String_as_OT.lt_not_eq in Hc.
  exfalso. apply Hc. reflexivity.
Qed.

(** [not (x < h)] and [not (h < g)] give [not (x < g)]. *)
Lemma ltb_false_trans (x h g : string) :
  String.ltb x h = false -> String.ltb h g = false -> String.ltb x g = false.
Proof.
  intros Hxh Hhg. destruct (String.ltb x g) eqn:E; [|reflexivity].
  apply ltb_lt in E.
  destruct (String.compare x h) eqn:C.
  - apply OrderedTypeEx.String_as_OT.cmp_eq in C. subst h.
    apply ltb_lt in E. congruence.
  - unfold String.ltb in Hxh. rewrite C in Hxh. discriminate.
  - assert (Hhx : OrderedTypeEx.String_as_OT.lt h x).
    { apply OrderedTypeEx.String_as_OT.cmp_lt.
      unfold OrderedTypeEx.String_as_OT.cmp.
      rewrite String.compare_antisym, C. reflexivity. }
    pose proof (OrderedTypeEx.String_as_OT.lt_trans _ _ _ Hhx E) as Hhg'.
    apply ltb_lt in Hhg'. congruence.
Qed.

(** After [sort(reverse=True)] the first name is one that no name of the
    list exceeds. *)
Lemma sort_reverse_first_greatest (l : list string) :
  l <> [] ->
  exists newest,
    first_item (list_sort_reverse String.ltb l) = Return newest /\
    In newest l /\
    forall f, In f l -> String.ltb newest f = false.
Proof.
  unfold list_sort_reverse.
  induction l as [|x l IH]; [congruence|]. intros _.
  destruct l as [|y l].
  - exists x. simpl. split; [reflexivity|]. split; [now left|].
    intros f [<-|[]]. destruct (String.ltb x x) eqn:E; [|reflexivity].
    apply ltb_asym in E as E'. congruence.
  - destruct IH as (m & Hm & Hin & Hmax); [discriminate|].
    change (list_sort (fun a b => String.ltb b a) (x :: y :: l))
      with (insert_by (fun a b => String.ltb b a) x
                      (list_sort (fun a b => String.ltb b a) (y :: l))).
    destruct (list_sort (fun a b => String.ltb b a) (y :: l)) as [|h s];
      [discriminate|].
    simpl in Hm. injection Hm as ->.
    simpl insert_by. destruct (String.ltb x m) eqn:E; simpl.
    + exists m. split; [reflexivity|]. split; [now right|].
      intros f [<-|Hf]; [now apply ltb_asym | now apply Hmax].
    + exists x. split; [reflexivity|]. split; [now left|].
      intros f [<-|Hf].
      * destruct (String.ltb x x) eqn:Exx; [|reflexivity].
        apply ltb_asym in Exx as E'. congruence.
      * apply (ltb_false_trans x m f E). now apply Hmax.
Qed.

Lemma prediction_stats_nonempty (np_std : list fval -> fval)
      (predictions : list fval) :
  predictions <> [] ->
  exists stats, prediction_stats np_std predictions = Return stats.
Proof.
  intro H. destruct predictions as [|x v]; [congruence|].
  unfold prediction_stats. simpl. eexists. reflexivity.
Qed.

Section Prediction.

Variable np_log1p : fval -> fval.
Variable np_std : list fval -> fval.
Variable secure_filename : string -> string.

Local Abbreviation serve_predict :=
  (predict np_log1p np_std secure_filename).

(** With no matching artifact no request is answered with predictions. *)
Lemma predict_without_artifact request w :
  matching_model_files (requested_model request) (MODEL_FOLDER w) = [] ->
  is_ok (fst (serve_predict request w)) = false.
Proof.
  intro Hm. unfold predict, predict_try.
  destruct (files_file request) as [file|]; [|reflexivity].
  destruct (String.eqb (filename file) ""); [reflexivity|].
  destruct (negb (allowed_file (filename file))); [reflexivity|].
  munfold.
  destruct (read_csv file) as [df|e]; [|reflexivity].
  destruct (preprocess_dataframe np_log1p df false) as [out|e];
    [|reflexivity].
  cbn [MODEL_FOLDER]. rewrite Hm. reflexivity.
Qed.

(** ... and a request that reaches the lookup gets the 404 answer. *)
Lemma predict_model_not_found request file df out w :
  acceptable_upload request file ->
  read_csv file = Return df ->
  preprocess_dataframe np_log1p df false = Return out ->
  matching_model_files (requested_model request) (MODEL_FOLDER w) = [] ->
  fst (serve_predict request w)
  = ErrorJson 404 ("No trained model found for "
                     ++ requested_model request)%string.
Proof.
  intros (Hf & Hn & Ha) Hcsv Hpre Hm. apply String.eqb_neq in Hn.
  unfold predict, predict_try. rewrite Hf, Hn, Ha.
  change (negb true) with false. cbv beta iota. munfold.
  rewrite Hcsv, Hpre. cbn [MODEL_FOLDER]. rewrite Hm. reflexivity.
Qed.

(** A successful answer counts one prediction per row of the upload. *)
Lemma predict_ok_one_per_row request w body :
  fst (serve_predict request w) = Ok200 body ->
  exists file df,
    files_file request = Some file /\
    read_csv file = Return df /\
    body_total_predictions body = nrows df.
Proof.
  unfold predict, predict_try.
  destruct (files_file request) as [file|]; [|discriminate].
  destruct (String.eqb (filename file) ""); [discriminate|].
  destruct (negb (allowed_file (filename file))); [discriminate|].
  munfold.
  destruct (read_csv file) as [df|e] eqn:Hcsv; [|discriminate].
  destruct (preprocess_dataframe np_log1p df false) as [out|e];
    [|discriminate].
  destruct (matching_model_files _ _) as [|f fs]; [discriminate|].
  munfold.
  destruct (first_item _) as [newest|e]; [|discriminate].
  destruct (joblib_load _ _) as [model|e]; [|discriminate].
  destruct (predict_fn model _) as [predictions|e]; [|discriminate].
  destruct (Nat.eqb (length predictions) (nrows df)) eqn:El;
    [|discriminate].
  change (negb true) with false. cbv beta iota. munfold.
  destruct (prediction_stats np_std predictions) as [stats|e];
    [|discriminate].
  intro H. injection H as <-.
  exists file, df. apply Nat.eqb_eq in El.
  split; [reflexivity|]. split; [exact Hcsv|exact El].
Qed.

(** The answer when an artifact matches and its call succeeds. *)
Lemma predict_with_artifact request file df out f fs newest model
      predictions w :
  acceptable_upload request file ->
  read_csv file = Return df ->
  preprocess_dataframe np_log1p df false = Return out ->
  matching_model_files (requested_model request) (MODEL_FOLDER w)
  = f :: fs ->
  first_item (list_sort_reverse String.ltb (f :: fs)) = Return newest ->
  joblib_load newest (MODEL_FOLDER w) = Return model ->
  predict_fn model (select_cols (predict_feature_cols out) out)
  = Return predictions ->
  length predictions = nrows df ->
  predictions <> [] ->
  exists body w',
    serve_predict request w = (Ok200 body, w') /\
    body_model_used body = requested_model request /\
    body_total_predictions body = nrows df /\
    exists entry,
      lookup_entry (body_output_file body) (RESULTS_FOLDER w') = Some entry
      /\ content entry
         = PredictionsCsv df predictions (map classify_wqi predictions).
Proof.
  intros (Hf & Hn & Ha) Hcsv Hpre Hm Hfirst Hload Hpred Hlen Hne.
  apply String.eqb_neq in Hn.
  destruct (prediction_stats_nonempty np_std predictions Hne)
    as (stats & Hstats).
  unfold predict, predict_try. rewrite Hf, Hn, Ha.
  change (negb true) with false. cbv beta iota. munfold.
  rewrite Hcsv, Hpre. cbn [MODEL_FOLDER]. rewrite Hm. munfold.
  rewrite Hfirst. cbn [MODEL_FOLDER]. rewrite Hload, Hpred.
  rewrite (proj2 (Nat.eqb_eq _ _) Hlen).
  change (negb true) with false. cbv beta iota. munfold.
  rewrite Hstats.
  eexists. eexists. split; [reflexivity|].
  cbn [body_model_used body_total_predictions body_output_file
       RESULTS_FOLDER].
  split; [reflexivity|]. split; [exact Hlen|].
  rewrite lookup_write_file_other by (simpl; discriminate).
  match goal with
  | |- context [lookup_entry ?n (write_file ?n ?c ?d)] =>
      destruct (lookup_write_file_same n c d) as (e0 & He0 & _ & _ & Hc0)
  end.
  exists e0. split; assumption.
Qed.

(** What comes before the lookup: an upload that cannot be read, or that
    the feature engineering refuses, is answered with that exception,
    whatever the model folder holds. *)
Lemma predict_unreadable_upload request file e w :
  acceptable_upload request file ->
  read_csv file = Raise e ->
  fst (serve_predict request w) = Error500 e.
Proof.
  intros (Hf & Hn & Ha) Hcsv. apply String.eqb_neq in Hn.
  unfold predict, predict_try. rewrite Hf, Hn, Ha.
  change (negb true) with false. cbv beta iota. munfold.
  rewrite Hcsv. reflexivity.
Qed.

Lemma predict_refused_upload request w :
  (forall file, ~ acceptable_upload request file) ->
  exists msg, fst (serve_predict request w) = ErrorJson 400 msg.
Proof.
  intro Hrej. unfold predict, predict_try.
  destruct (files_file request) as [file|] eqn:Hf;
    [|eexists; reflexivity].
  destruct (String.eqb (filename file) "") eqn:Hn;
    [eexists; reflexivity|].
  destruct (allowed_file (filename file)) eqn:Ha;
    [|eexists; reflexivity].
  exfalso. apply (Hrej file). apply String.eqb_neq in Hn.
  unfold acceptable_upload. auto.
Qed.

Lemma predict_refused_by_preprocessing request file df e w :
  acceptable_upload request file ->
  read_csv file = Return df ->
  preprocess_dataframe np_log1p df false = Raise e ->
  fst (serve_predict request w) = Error500 e.
Proof.
  intros (Hf & Hn & Ha) Hcsv Hpre. apply String.eqb_neq in Hn.
  unfold predict, predict_try. rewrite Hf, Hn, Ha.
  change (negb true) with false. cbv beta iota. munfold.
  rewrite Hcsv, Hpre. reflexivity.
Qed.

(* ---------------------------------------------------------------- *)
(** *** C8: the artifact lookup of [predict] *)

(** C8.  A prediction request that names a model for which the model
    folder has no file [<name>_model_*.pkl] is never answered with
    predictions, and once its upload has passed the checks and the
    feature engineering it gets the 404 answer "No trained model found".
    When such files exist the one loaded is the first after the reverse
    sort, a matching name that no matching name exceeds in lexicographic
    order; when loading it and calling it succeed with one value per row,
    the answer is a success that counts and stores one prediction per row
    of the upload, each with its class.  Every successful answer counts
    one prediction per row.  The lookup comes after the upload is read
    and preprocessed: a request whose upload cannot be read, or which
    the feature engineering refuses, is answered with that exception as
    a 500, whether or not an artifact exists; one whose upload fails
    the file checks gets a 400. *)
Theorem predict_uses_latest_artifact :
  (forall request w,
      matching_model_files (requested_model request) (MODEL_FOLDER w) = [] ->
      is_ok (fst (serve_predict request w)) = false) /\
  (forall request file df out w,
      acceptable_upload request file ->
      read_csv file = Return df ->
      preprocess_dataframe np_log1p df false = Return out ->
      matching_model_files (requested_model request) (MODEL_FOLDER w) = [] ->
      fst (serve_predict request w)
      = ErrorJson 404 ("No trained model found for "
                         ++ requested_model request)%string) /\
  (forall request file df out w,
      acceptable_upload request file ->
      read_csv file = Return df ->
      preprocess_dataframe np_log1p df false = Return out ->
      matching_model_files (requested_model request) (MODEL_FOLDER w) <> [] ->
      exists newest,
        first_item (list_sort_reverse String.ltb
                      (matching_model_files (requested_model request)
                                            (MODEL_FOLDER w)))
        = Return newest /\
        In newest (matching_model_files (requested_model request)
                                        (MODEL_FOLDER w)) /\
        (forall f,
            In f (matching_model_files (requested_model request)
                                       (MODEL_FOLDER w)) ->
            String.ltb newest f = false) /\
        (forall model predictions,
            joblib_load newest (MODEL_FOLDER w) = Return model ->
            predict_fn model (select_cols (predict_feature_cols out) out)
            = Return predictions ->
            length predictions = nrows df ->
            predictions <> [] ->
            exists body w',
              serve_predict request w = (Ok200 body, w') /\
              body_model_used body = requested_model request /\
              body_total_predictions body = nrows df /\
              exists entry,
                lookup_entry (body_output_file body) (RESULTS_FOLDER w')
                = Some entry /\
                content entry
                = PredictionsCsv df predictions
                                 (map classify_wqi predictions))) /\
  (forall request w body,
      fst (serve_predict request w) = Ok200 body ->
      exists file df,
        files_file request = Some file /\
        read_csv file = Return df /\
        body_total_predictions body = nrows df) /\
  (forall request file e w,
      acceptable_upload request file ->
      read_csv file = Raise e ->
      fst (serve_predict request w) = Error500 e) /\
  (forall request file df e w,
      acceptable_upload request file ->
      read_csv file = Return df ->
      preprocess_dataframe np_log1p df false = Raise e ->
      fst (serve_predict request w) = Error500 e) /\
  (forall request w,
      (forall file, ~ acceptable_upload request file) ->
      exists msg, fst (serve_predict request w) = ErrorJson 400 msg).
Proof.
  split; [exact predict_without_artifact|].
  split; [exact predict_model_not_found|].
  split;
    [|split; [exact predict_ok_one_per_row|];
      split; [exact predict_unreadable_upload|];
      split; [exact predict_refused_by_preprocessing
             |exact predict_refused_upload]].
  intros request file df out w Hacc Hcsv Hpre Hne.
  destruct (sort_reverse_first_greatest _ Hne) as (newest & Hf & Hin & Hmax).
  exists newest. split; [exact Hf|]. split; [exact Hin|].
  split; [exact Hmax|].
  intros model predictions Hload Hpred Hlen Hnonempty.
  destruct (matching_model_files _ _) as [|f fs] eqn:Hm; [congruence|].
  now apply (predict_with_artifact request file df out f fs newest model
                                   predictions w).
Qed.

End Prediction.

(* ================================================================== *)
(** ** C9: the clearing comes before the dataset is looked at *)

Section RejectedUpload.

Variable np_log1p : fval -> fval.
Variable np_std : list fval -> fval.
Variable secure_filename : string -> string.
Variable train_test_split : DataFrame -> list fval -> result Split.
Variable randomized_search :
  string -> PipelineSpec -> list string -> nat -> DataFrame -> list fval ->
  result Search.
Variable pipe_fit :
  string -> PipelineSpec -> DataFrame -> list fval -> result Pipeline.
Variable cross_val_score :
  string -> PipelineSpec -> DataFrame -> list fval -> result (list fval).
Variable refit : Pipeline -> DataFrame -> list fval -> result Pipeline.
Variable sk_metrics : list fval -> list fval -> result Metrics.

Local Abbreviation train :=
  (train_models np_log1p secure_filename train_test_split randomized_search
                pipe_fit cross_val_score refit sk_metrics).
Local Abbreviation serve_predict :=
  (predict np_log1p np_std secure_filename).

Local Abbreviation prepare :=
  (prepare_training np_log1p secure_filename train_test_split).





End RejectedUpload.

(* ================================================================== *)
(** ** The theorems on the sample data *)

Lemma winner_is_first_of_least_rmse_witness :
  tie_results <> [] /\
  (exists winner pre post,
      first_item (sort_by_test_rmse tie_results) = Return winner /\
      tie_results = pre ++ winner :: post /\
      (forall r, In r pre -> test_rmse winner < test_rmse r)) /\
  (exists body results winner,
      fst (sample_train [] sample_request sample_world) = Ok200 body /\
      map model_name results
      = ["Ridge"; "SVR"; "RandomForest"; "GradientBoosting"; "XGBoost"] /\
      body_models body = sort_by_test_rmse results /\
      body_best_model body = model_name winner).
Proof.
  destruct (winner_is_first_of_least_rmse
              sample_log1p sample_secure_filename sample_split
              (sample_search []) sample_pipe_fit sample_cross_val_score
              sample_refit sample_metrics) as (Hsort & _ & Hrun).
  split; [discriminate|]. split.
  - destruct (Hsort tie_results ltac:(discriminate))
      as (winner & pre & post & Hf & Hl & Hpre & _).
    exists winner, pre, post. auto.
  - assert (E : exists body w',
               sample_train [] sample_request sample_world = (Ok200 body, w'))
      by (eexists; eexists; vm_compute; reflexivity).
    destruct E as (body & w' & E).
    exists body. rewrite E. apply Hrun in E.
    destruct E as (results & winner & pre & post & Hn & Hm & Hb & _).
    exists results, winner. auto.
Defined.

(** C4, as stated, fails: the response to a failed run does not carry the
    name of the model that raised.  The same exception out of Ridge and out
    of SVR gives the same response, so nothing computed from the response
    tells which model it was; only [current_model] of the training state
    does. *)
Lemma failure_response_does_not_name_the_model :
  ~ (exists originating_model : Response TrainBody -> string,
        forall failing,
          In failing [["Ridge"]; ["SVR"]] ->
          originating_model
            (fst (sample_train failing sample_request sample_world))
          = current_model
              (training_state
                 (snd (sample_train failing sample_request sample_world)))).
Proof.
  intros (f & Hf).
  pose proof (Hf ["Ridge"] (or_introl eq_refl)) as H1.
  pose proof (Hf ["SVR"] (or_intror (or_introl eq_refl))) as H2.
  assert (E1 : fst (sample_train ["Ridge"] sample_request sample_world)
               = Error500 (LibraryError "fit failed"))
    by (vm_compute; reflexivity).
  assert (E2 : fst (sample_train ["SVR"] sample_request sample_world)
               = Error500 (LibraryError "fit failed"))
    by (vm_compute; reflexivity).
  assert (C1 : current_model
                 (training_state
                    (snd (sample_train ["Ridge"] sample_request sample_world)))
               = "Ridge") by (vm_compute; reflexivity).
  assert (C2 : current_model
                 (training_state
                    (snd (sample_train ["SVR"] sample_request sample_world)))
               = "SVR") by (vm_compute; reflexivity).
  rewrite E1, C1 in H1. rewrite E2, C2 in H2.
  rewrite H1 in H2. discriminate H2.
Qed.

Lemma failing_model_aborts_the_run_witness :
  exists w',
    sample_train ["RandomForest"] sample_request sample_world
    = (Error500 (LibraryError "fit failed"), w') /\
    is_training (training_state w') = false /\
    RESULTS_FOLDER w' = clear_folder (RESULTS_FOLDER sample_world) /\
    current_model (training_state w') = "RandomForest" /\
    models_trained (training_state w') = ["Ridge"; "SVR"].
Proof.
  destruct (failing_model_aborts_the_run
              sample_log1p sample_secure_filename sample_split
              (sample_search ["RandomForest"]) sample_pipe_fit
              sample_cross_val_score sample_refit sample_metrics)
    as [Hfail _].
  eassert (Hp : prepare_training sample_log1p sample_secure_filename
                                 sample_split sample_request sample_world
                = (Return (inr _), _)) by (vm_compute; reflexivity).
  destruct (Hfail sample_request sample_world _ _ 2%nat "RandomForest"
                  (mkSpec false) (LibraryError "fit failed") Hp eq_refl)
    as (w' & Ht & Hit & Hres & Hcur & Hmt).
  - intros j name_j pipe_j Hj Hn.
    destruct j as [|[|j]]; [| |lia]; injection Hn as <- <-;
      (eexists; eexists; eexists; eexists;
       split; [reflexivity|]; split; [reflexivity|];
       split; [reflexivity|vm_compute; reflexivity]).
  - apply search_raises. reflexivity.
  - exists w'. split; [exact Ht|]. split; [exact Hit|].
    split; [exact Hres|]. split; [exact Hcur|exact Hmt].
Defined.

Lemma models_trained_is_never_reset_witness :
  length (models_trained
            (training_state
               (snd (sample_serve [sample_request; sample_request]
                                  sample_world))))
  = (5 * 2)%nat.
Proof.
  destruct (models_trained_is_never_reset
              sample_log1p sample_secure_filename sample_split
              (sample_search []) sample_pipe_fit sample_cross_val_score
              sample_refit sample_metrics) as (_ & _ & _ & Hserve).
  destruct (Hserve [sample_request; sample_request] sample_world)
    as (_ & _ & Hinit).
  - vm_compute. reflexivity.
  - apply Hinit. reflexivity.
Defined.



(** C8, as stated, fails: with no artifact for the model named, the answer
    is not always "model not found".  The upload is read and preprocessed
    before the model folder is looked at, so a request for SVR, for which
    no artifact exists, whose upload lacks [pH] is answered with the
    missing-columns error as a 500, not with the 404. *)
Lemma missing_column_is_answered_before_missing_model :
  ~ (forall request w,
        matching_model_files (requested_model request) (MODEL_FOLDER w) = [] ->
        exists status msg,
          fst (sample_predict request w) = ErrorJson status msg).
Proof.
  intro H.
  destruct (H (prediction_request "SVR" (drop_col "pH" sample_prediction_frame)
                                  "20240301_090000")
              sample_world eq_refl) as (status & msg & E).
  assert (E500 : fst (sample_predict
                        (prediction_request
                           "SVR" (drop_col "pH" sample_prediction_frame)
                           "20240301_090000") sample_world)
                 = Error500 (MissingColumns
                               ["pH"]
                               ["Temp"; "Conductivity"; "Nitrate";
                                "Fecal_Coliform"; "Total_Coliform"; "TDS";
                                "Fluoride"]))
    by (vm_compute; reflexivity).
  rewrite E500 in E. discriminate E.
Qed.

Lemma predict_uses_latest_artifact_witness :
  fst (sample_predict svr_prediction_request sample_world)
  = ErrorJson 404 "No trained model found for SVR" /\
  exists body w',
    sample_predict xgboost_prediction_request sample_world = (Ok200 body, w')
    /\ body_total_predictions body = nrows sample_prediction_frame.
Proof.
  destruct (predict_uses_latest_artifact
              sample_log1p sample_std sample_secure_filename)
    as (_ & H404 & Hart & _).
  assert (Hacc : forall model,
             acceptable_upload
               (prediction_request model sample_prediction_frame
                                   "20240301_090000")
               (mkUpload "new.csv" (Return sample_prediction_frame))).
  { intro model. split; [reflexivity|]. split; [discriminate|reflexivity]. }
  split.
  - eapply (H404 svr_prediction_request
                 (mkUpload "new.csv" (Return sample_prediction_frame))
                 sample_prediction_frame ?[out] sample_world);
      [apply Hacc | reflexivity | vm_compute; reflexivity | reflexivity].
  - destruct (Hart xgboost_prediction_request
                   (mkUpload "new.csv" (Return sample_prediction_frame))
                   sample_prediction_frame
                   (add_derived_features
                      sample_log1p
                      (impute_missing sample_prediction_frame false))
                   sample_world)
      as (newest & Hf & _ & _ & Hrun);
      [apply Hacc | reflexivity | vm_compute; reflexivity
       | vm_compute; discriminate |].
    vm_compute in Hf. injection Hf as Hn. subst newest.
    edestruct Hrun as (body & w' & Hp & _ & Hcount & _);
      [vm_compute; reflexivity | vm_compute; reflexivity
       | reflexivity | discriminate |].
    exists body, w'. split; [exact Hp|exact Hcount].
Defined.

(* ================================================================== *)
(** * Further properties of the code *)

(** ** [allowed_file] *)

Lemma str_append_assoc (a b c : string) :
  ((a ++ b) ++ c)%string = (a ++ (b ++ c))%string.
Proof. induction a as [|x a IH]; [reflexivity|]. simpl. now rewrite IH. Qed.

Lemma str_append_nil_r (a : string) : (a ++ "")%string = a.
Proof. induction a as [|x a IH]; [reflexivity|]. simpl. now rewrite IH. Qed.

Lemma str_rev_onto_append (s acc : string) :
  str_rev_onto s acc = (str_rev s ++ acc)%string.
Proof.
  unfold str_rev. revert acc. induction s as [|c s IH]; intro acc.
  - reflexivity.
  - simpl. rewrite IH, (IH (String c EmptyString)), str_append_assoc.
    reflexivity.
Qed.

Lemma str_rev_cons (c : ascii) (s : string) :
  str_rev (String c s) = (str_rev s ++ String c EmptyString)%string.
Proof. unfold str_rev at 1. simpl. apply str_rev_onto_append. Qed.

Lemma str_rev_append (a b : string) :
  str_rev (a ++ b) = (str_rev b ++ str_rev a)%string.
Proof.
  induction a as [|c a IH]; simpl.
  - now rewrite str_append_nil_r.
  - now rewrite !str_rev_cons, IH, str_append_assoc.
Qed.

Lemma str_rev_involutive (s : string) : str_rev (str_rev s) = s.
Proof.
  induction s as [|c s IH]; [reflexivity|].
  now rewrite str_rev_cons, str_rev_append, IH.
Qed.

Lemma contains_dot_cons (c : ascii) (s : string) :
  str_contains "." (String c s) = Ascii.eqb c "."%char || str_contains "." s.
Proof.
  change (str_contains "." (String c s))
    with (if String.prefix "." (String c s) then true
          else str_contains "." s).
  change (String.prefix "." (String c s))
    with (if ascii_dec "."%char c then String.prefix "" s else false).
  destruct (ascii_dec "."%char c) as [<-|Hne].
  - rewrite Ascii.eqb_refl. now destruct s.
  - assert (E : Ascii.eqb c "."%char = false)
      by (apply Ascii.eqb_neq; congruence).
    now rewrite E.
Qed.

Lemma contains_dot_append (a b : string) :
  str_contains "." (a ++ b)
  = str_contains "." a || str_contains "." b.
Proof.
  induction a as [|c a IH].
  - simpl. now destruct b.
  - change (String c a ++ b)%string with (String c (a ++ b)%string).
    rewrite !contains_dot_cons, IH. now rewrite orb_assoc.
Qed.

Lemma contains_dot_rev (s : string) :
  str_contains "." (str_rev s) = str_contains "." s.
Proof.
  induction s as [|c s IH]; [reflexivity|].
  rewrite str_rev_cons, contains_dot_append, IH, !contains_dot_cons.
  simpl str_contains at 2. rewrite orb_false_r. apply orb_comm.
Qed.

Lemma before_dot_append (a b : string) :
  str_contains "." a = false ->
  before_dot (a ++ String "."%char b) = a.
Proof.
  induction a as [|c a IH]; intro H; [reflexivity|].
  rewrite contains_dot_cons in H. apply orb_false_iff in H.
  destruct H as [Hc Ha]. simpl. rewrite Hc. now rewrite IH.
Qed.

(** X1.  A name is accepted exactly by what follows its last dot: a name
    [base.ext], where [ext] holds no dot, is accepted when [ext] is "csv"
    up to the case of its letters and refused otherwise, whatever [base]
    is; a name without a dot is refused. *)
Theorem allowed_file_by_last_extension :
  (forall base ext : string,
      str_contains "." ext = false ->
      after_last_dot (base ++ "." ++ ext) = ext /\
      allowed_file (base ++ "." ++ ext) = String.eqb (str_lower ext) "csv") /\
  (forall name : string,
      str_contains "." name = false -> allowed_file name = false).
Proof.
  split.
  - intros base ext Hext.
    assert (Hafter : after_last_dot (base ++ "." ++ ext) = ext).
    { unfold after_last_dot.
      rewrite str_rev_append.
      change ("." ++ ext)%string with (String "."%char ext).
      rewrite str_rev_cons, str_append_assoc. simpl append at 2.
      rewrite before_dot_append by (now rewrite contains_dot_rev).
      apply str_rev_involutive. }
    split; [exact Hafter|].
    unfold allowed_file. rewrite Hafter, contains_dot_append.
    change ("." ++ ext)%string with (String "."%char ext).
    rewrite contains_dot_cons. simpl orb at 2.
    rewrite orb_true_r. simpl. now rewrite orb_false_r.
  - intros name H. unfold allowed_file. now rewrite H.
Qed.

Lemma allowed_file_by_last_extension_witness :
  allowed_file ("data.2024" ++ "." ++ "CSV") = true /\
  allowed_file ("archive" ++ "." ++ "csv" ++ "." ++ "gz") = false /\
  allowed_file "csv" = false.
Proof.
  destruct allowed_file_by_last_extension as [Hext Hnone].
  split; [|split].
  - rewrite (proj2 (Hext "data.2024" "CSV" eq_refl)). reflexivity.
  - change ("archive" ++ "." ++ "csv" ++ "." ++ "gz")%string
      with ("archive.csv" ++ "." ++ "gz")%string.
    rewrite (proj2 (Hext "archive.csv" "gz" eq_refl)). reflexivity.
  - apply Hnone. reflexivity.
Defined.

(* ================================================================== *)
(** ** Requests turned away by the upload checks *)

Section RejectedRequests.

Variable np_log1p : fval -> fval.
Variable np_std : list fval -> fval.
Variable secure_filename : string -> string.
Variable train_test_split : DataFrame -> list fval -> result Split.
Variable randomized_search :
  string -> PipelineSpec -> list string -> nat -> DataFrame -> list fval ->
  result Search.
Variable pipe_fit :
  string -> PipelineSpec -> DataFrame -> list fval -> result Pipeline.
Variable cross_val_score :
  string -> PipelineSpec -> DataFrame -> list fval -> result (list fval).
Variable refit : Pipeline -> DataFrame -> list fval -> result Pipeline.
Variable sk_metrics : list fval -> list fval -> result Metrics.

Local Abbreviation train :=
  (train_models np_log1p secure_filename train_test_split randomized_search
                pipe_fit cross_val_score refit sk_metrics).
Local Abbreviation serve_predict :=
  (predict np_log1p np_std secure_filename).

(** X2.  A request without a file, with an empty file name or with a
    name that [allowed_file] refuses is answered with a 400 error by both
    endpoints and changes nothing: no folder is cleared, no upload is
    saved, the training state stays as it is. *)
Theorem refused_upload_changes_nothing :
  forall request w,
    (forall file, ~ acceptable_upload request file) ->
    (exists msg, train request w = (ErrorJson 400 msg, w)) /\
    (exists msg, serve_predict request w = (ErrorJson 400 msg, w)).
Proof.
  intros request w Hrej. split.
  - pose proof (train_models_cases np_log1p secure_filename train_test_split
                  randomized_search pipe_fit cross_val_score refit
                  sk_metrics request w) as Hc.
    destruct (prepare_training np_log1p secure_filename train_test_split
                               request w) as [r w1] eqn:Hp.
    destruct (prepare_training_rejected _ _ _ _ _ _ _ Hrej Hp)
      as (-> & msg & ->).
    exists msg. exact Hc.
  - unfold predict, predict_try.
    destruct (files_file request) as [file|] eqn:Hf.
    + destruct (String.eqb (filename file) "") eqn:Hn.
      * eexists. reflexivity.
      * destruct (allowed_file (filename file)) eqn:Ha.
        -- exfalso. apply (Hrej file). apply String.eqb_neq in Hn.
           unfold acceptable_upload. auto.
        -- eexists. reflexivity.
    + eexists. reflexivity.
Qed.

End RejectedRequests.

Lemma refused_upload_changes_nothing_witness :
  exists msg,
    sample_train [] (mkRequest (Some (mkUpload "data.xlsx"
                                               (Return sample_training_frame)))
                               None "20240201_120000") sample_world
    = (ErrorJson 400 msg, sample_world).
Proof.
  apply (refused_upload_changes_nothing
           sample_log1p sample_std sample_secure_filename sample_split
           (sample_search []) sample_pipe_fit sample_cross_val_score
           sample_refit sample_metrics).
  intros file (Hf & _ & Ha). injection Hf as <-. discriminate Ha.
Defined.

(* ================================================================== *)
(** ** The frame [preprocess_dataframe] returns *)

Lemma columns_setitem (c : string) (d : dtype) (v : list fval)
      (df : DataFrame) :
  columns (setitem c d v df)
  = if has_col c df then columns df else columns df ++ [c].
Proof.
  unfold setitem. destruct (has_col c df).
  - unfold columns. rewrite map_map. apply map_ext_in.
    intros s _. destruct (String.eqb (cname s) c) eqn:E; [|reflexivity].
    apply String.eqb_eq in E. now rewrite E.
  - unfold columns. now rewrite map_app.
Qed.

Lemma tidy_setitem (c : string) (d : dtype) (v : list fval) (df : DataFrame) :
  is_text d = false -> tidy df -> tidy (setitem c d v df).
Proof.
  intros Hd [Hnd Htext]. split.
  - rewrite columns_setitem. destruct (has_col c df) eqn:Hc; [exact Hnd|].
    apply NoDup_app; [exact Hnd | repeat constructor; intros [] |].
    intros x Hx [<-|[]]. apply has_col_In in Hx. congruence.
  - intros s Hs. unfold setitem in Hs. destruct (has_col c df).
    + apply in_map_iff in Hs. destruct Hs as (s0 & <- & Hs0).
      destruct (String.eqb (cname s0) c); [exact Hd | now apply Htext].
    + apply in_app_or in Hs. destruct Hs as [Hs|[<-|[]]];
        [now apply Htext | exact Hd].
Qed.

Lemma tidy_guarded (b : bool) (c : string) (d : dtype) (v : list fval)
      (df : DataFrame) :
  is_text d = false -> tidy df -> tidy (if b then setitem c d v df else df).
Proof. intros Hd Ht. destruct b; [now apply tidy_setitem | exact Ht]. Qed.

Lemma mul_dtype_not_text (a b : dtype) : is_text (mul_dtype a b) = false.
Proof. now destruct a, b. Qed.

Lemma pow_dtype_not_text (a : dtype) : is_text (pow_dtype a) = false.
Proof. now destruct a. Qed.

Lemma tidy_impute_col (col : string) (df : DataFrame) :
  tidy df -> tidy (impute_col col df).
Proof.
  intros [Hnd Htext]. split; [now rewrite columns_impute_col|].
  intros s Hs. unfold impute_col in Hs.
  destruct (has_col col df); [|now apply Htext].
  destruct (existsb is_nan (col_cells col df)); [|now apply Htext].
  apply in_map_iff in Hs. destruct Hs as (s0 & <- & Hs0).
  destruct (String.eqb (cname s0) col); [simpl|]; now apply Htext.
Qed.

Lemma tidy_impute_missing (df : DataFrame) (is_training : bool) :
  tidy df -> tidy (impute_missing df is_training).
Proof.
  intro H. unfold impute_missing.
  assert (Hf : forall cols d, tidy d ->
                 tidy (fold_left (fun d col => impute_col col d) cols d)).
  { induction cols as [|c cols IH]; intros d Hd; [exact Hd|].
    simpl. apply IH. now apply tidy_impute_col. }
  cbv zeta. destruct (is_training && _);
    [apply tidy_impute_col|]; now apply Hf.
Qed.

Lemma tidy_add_derived_features (np_log1p : fval -> fval) (df : DataFrame) :
  tidy df -> tidy (add_derived_features np_log1p df).
Proof.
  intro H. unfold add_derived_features, add_Temp_squared, add_pH_squared,
             add_logs, add_coliform_ratio, add_tds_ratio, add_interaction.
  cbn [fold_left]. unfold add_log.
  repeat (apply tidy_guarded;
          [first [reflexivity | apply mul_dtype_not_text
                  | apply pow_dtype_not_text]|]).
  exact H.
Qed.

Lemma preprocess_returns_tidy (np_log1p : fval -> fval) (df out : DataFrame)
      (is_training : bool) :
  preprocess_dataframe np_log1p df is_training = Return out -> tidy out.
Proof.
  intro H. apply preprocess_dataframe_returns in H.
  destruct H as (cleaned & Hclean & _ & ->).
  apply tidy_add_derived_features, tidy_impute_missing.
  exact (clean_columns_NoDup _ _ Hclean).
Qed.

Lemma col_dtype_unique (df : DataFrame) (s : Series) :
  NoDup (columns df) -> In s df -> col_dtype (cname s) df = sdtype s.
Proof.
  unfold col_dtype. induction df as [|s0 df IH]; intros Hnd Hin;
    [contradiction|].
  simpl in Hnd. inversion Hnd as [|? ? Hnot Hnd']; subst.
  simpl. destruct Hin as [->|Hin]; [now rewrite String.eqb_refl|].
  destruct (String.eqb (cname s0) (cname s)) eqn:E; [|now apply IH].
  apply String.eqb_eq in E. exfalso. apply Hnot. rewrite E.
  unfold columns. now apply in_map.
Qed.

(** X3.  Every frame [preprocess_dataframe] returns, in either mode, has
    one column per label and no column of text type; and when the renaming
    and the drop list leave two columns under one label the call does not
    return a frame: it raises. *)
Theorem preprocess_returns_tidy_frames (np_log1p : fval -> fval) :
  (forall df is_training out,
      preprocess_dataframe np_log1p df is_training = Return out ->
      NoDup (columns out) /\
      forall s, In s out -> is_text (sdtype s) = false) /\
  (forall df is_training,
      ~ NoDup (columns (drop_listed (rename_columns (present_map df) df))) ->
      exists e, preprocess_dataframe np_log1p df is_training = Raise e).
Proof.
  split.
  - intros df is_training out H.
    apply preprocess_dataframe_returns in H.
    destruct H as (cleaned & Hclean & _ & ->).
    apply tidy_add_derived_features, tidy_impute_missing.
    exact (clean_columns_NoDup _ _ Hclean).
  - intros df is_training Hdup. unfold preprocess_dataframe.
    destruct (clean_columns df) as [cleaned|e] eqn:Hclean;
      [|exists e; reflexivity].
    exfalso. apply Hdup. unfold clean_columns in Hclean.
    apply unique_labels_NoDup.
    exact (drop_non_numeric_unique _ _ _ Hclean).
Qed.

Lemma preprocess_returns_tidy_frames_witness :
  (exists out,
      preprocess_dataframe sample_log1p sample_training_frame true = Return out
      /\ NoDup (columns out)) /\
  exists e,
    preprocess_dataframe
      sample_log1p
      (mkSeries "Temperature" float64 sample_cells :: sample_training_frame)
      true
    = Raise e.
Proof.
  destruct (preprocess_returns_tidy_frames sample_log1p) as [Hret Hdup].
  split.
  - eexists. split; [vm_compute; reflexivity|].
    eapply (Hret sample_training_frame true). vm_compute. reflexivity.
  - apply Hdup. vm_compute. intro H.
    inversion H as [|x l Hn _]. apply Hn. simpl. auto 12.
Defined.

(* ================================================================== *)
(** ** The artifacts of a training run *)

Lemma lookup_entry_none (n : string) (d : Folder) :
  lookup_entry n d = None <-> str_in n (listdir d) = false.
Proof.
  unfold lookup_entry, listdir, str_in.
  induction d as [|e d IH]; [simpl; tauto|]. simpl.
  rewrite (String.eqb_sym n (fname e)).
  destruct (String.eqb (fname e) n); simpl; [split; discriminate | exact IH].
Qed.

Lemma listdir_write_file (n : string) (c : Content) (d : Folder) :
  listdir (write_file n c d) = add_name (listdir d) n.
Proof.
  unfold write_file, add_name.
  destruct (lookup_entry n d) as [e|] eqn:E.
  - assert (Hin : str_in n (listdir d) = true).
    { destruct (str_in n (listdir d)) eqn:S; [reflexivity|].
      apply lookup_entry_none in S. congruence. }
    rewrite Hin. unfold listdir. rewrite map_map. apply map_ext.
    intro e0. destruct (String.eqb (fname e0) n) eqn:E0; [|reflexivity].
    apply String.eqb_eq in E0. now rewrite E0.
  - apply lookup_entry_none in E. rewrite E.
    unfold listdir. now rewrite map_app.
Qed.

(** The folder has a regular file [n] that holds a pickled pipeline. *)
Lemma joblib_load_after_write (n : string) (p : Pipeline) (d : Folder) :
  joblib_load n (write_file n (Pickle p) d) = Return p.
Proof.
  unfold joblib_load.
  destruct (lookup_write_file_same n (Pickle p) d) as (e & -> & _ & -> & ->).
  reflexivity.
Qed.

Lemma joblib_load_write_other (n m : string) (c : Content) (d : Folder) :
  n <> m -> joblib_load n (write_file m c d) = joblib_load n d.
Proof.
  intro H. unfold joblib_load. now rewrite lookup_write_file_other.
Qed.

Lemma joblib_load_kept (n m : string) (q : Pipeline) (d : Folder) :
  (exists p, joblib_load n d = Return p) ->
  exists p, joblib_load n (write_file m (Pickle q) d) = Return p.
Proof.
  intros (p & Hp). destruct (String.eqb n m) eqn:E.
  - apply String.eqb_eq in E. subst m. exists q.
    apply joblib_load_after_write.
  - apply String.eqb_neq in E. exists p.
    now rewrite joblib_load_write_other.
Qed.

Lemma zipped_maps {A B : Type} (f g : A -> string) (k : string -> string)
      (h : B -> string) (l : list A) (models : list B) :
  map f l = map h models ->
  map g l = map (fun m => k (h m)) models ->
  forall r, In r l -> g r = k (f r).
Proof.
  revert models. induction l as [|a l IH]; intros [|m models] Hf Hg r Hr;
    try discriminate; [destruct Hr|].
  simpl in Hf, Hg. injection Hf as Ha Hf. injection Hg as Hga Hg.
  destruct Hr as [<-|Hr]; [congruence|]. now apply (IH models).
Qed.

Lemma str_append_cancel_l (s a b : string) :
  (s ++ a)%string = (s ++ b)%string -> a = b.
Proof.
  induction s as [|c s IH]; [auto|]. simpl. intro H. injection H as H. auto.
Qed.

Lemma str_append_cancel_r (a b s : string) :
  (a ++ s)%string = (b ++ s)%string -> a = b.
Proof.
  intro H. apply (f_equal str_rev) in H. rewrite !str_rev_append in H.
  apply str_append_cancel_l in H.
  rewrite <- (str_rev_involutive a), <- (str_rev_involutive b). now rewrite H.
Qed.

(** Two models never share an artifact name within a run. *)
Lemma model_filename_injective (n m ts : string) :
  model_filename n ts = model_filename m ts -> n = m.
Proof.
  unfold model_filename. apply str_append_cancel_r.
Qed.

Lemma prefix_append (a b : string) : String.prefix a (a ++ b) = true.
Proof.
  induction a as [|c a IH]; [now destruct b|]. simpl.
  destruct (ascii_dec c c) as [_|Hne]; [exact IH | congruence].
Qed.

Lemma endswith_append (a b : string) : endswith (a ++ b) b = true.
Proof. unfold endswith. rewrite str_rev_append. apply prefix_append. Qed.

Lemma endswith_model_filename (n ts : string) :
  endswith (model_filename n ts) ".pkl" = true.
Proof.
  unfold model_filename. rewrite <- !str_append_assoc.
  apply endswith_append.
Qed.

Lemma startswith_model_filename (n m ts : string) :
  In n registry_names -> In m registry_names ->
  startswith (model_filename m ts) (n ++ "_model_") = String.eqb m n.
Proof.
  intros Hn Hm. simpl in Hn, Hm.
  in_cases Hn; in_cases Hm;
    first
      [ match goal with
        | |- startswith (model_filename ?m ts) ?pre = _ =>
            change (model_filename m ts) with (pre ++ (ts ++ ".pkl"))%string
        end;
        unfold startswith; rewrite prefix_append; reflexivity
      | vm_compute; reflexivity ].
Qed.

Lemma add_names_fresh (names acc : list string) :
  NoDup (acc ++ names) -> fold_left add_name names acc = acc ++ names.
Proof.
  revert acc. induction names as [|n names IH]; intros acc H.
  - simpl. now rewrite app_nil_r.
  - simpl. unfold add_name at 2.
    assert (Hn : str_in n acc = false).
    { apply str_in_false. intro Hin. apply NoDup_remove_2 in H.
      apply H. apply in_or_app. now left. }
    rewrite Hn, IH; [now rewrite <- app_assoc|].
    now rewrite <- app_assoc.
Qed.

Lemma In_fold_add_name (names acc : list string) (x : string) :
  In x (fold_left add_name names acc) <-> In x acc \/ In x names.
Proof.
  revert acc. induction names as [|n names IH]; intro acc; simpl; [tauto|].
  rewrite IH. unfold add_name. destruct (str_in n acc) eqn:E.
  - apply str_in_In in E. split; [tauto|].
    intros [H|[<-|H]]; tauto.
  - rewrite in_app_iff. simpl. tauto.
Qed.

Lemma model_filenames_NoDup (ts : string) :
  NoDup (map (fun n => model_filename n ts) registry_names).
Proof.
  assert (H : NoDup registry_names).
  { unfold registry_names. simpl.
    repeat (constructor; [simpl; intuition discriminate|]). constructor. }
  revert H. generalize registry_names as l.
  induction l as [|n l IH]; intro H; [constructor|].
  inversion H as [|? ? Hn Hl]; subst. simpl. constructor; [|now apply IH].
  intro Hin. apply in_map_iff in Hin. destruct Hin as (m & Heq & Hm).
  apply model_filename_injective in Heq. now subst m.
Qed.

Lemma filter_map_swap {A B : Type} (f : A -> B) (P : B -> bool) (l : list A) :
  filter P (map f l) = map f (filter (fun x => P (f x)) l).
Proof.
  induction l as [|x l IH]; [reflexivity|]. simpl.
  destruct (P (f x)); simpl; now rewrite IH.
Qed.

Section Artifacts.

Variable np_log1p : fval -> fval.
Variable secure_filename : string -> string.
Variable train_test_split : DataFrame -> list fval -> result Split.
Variable randomized_search :
  string -> PipelineSpec -> list string -> nat -> DataFrame -> list fval ->
  result Search.
Variable pipe_fit :
  string -> PipelineSpec -> DataFrame -> list fval -> result Pipeline.
Variable cross_val_score :
  string -> PipelineSpec -> DataFrame -> list fval -> result (list fval).
Variable refit : Pipeline -> DataFrame -> list fval -> result Pipeline.
Variable sk_metrics : list fval -> list fval -> result Metrics.

Local Abbreviation loop :=
  (train_loop randomized_search pipe_fit cross_val_score refit sk_metrics).
Local Abbreviation round :=
  (train_one randomized_search pipe_fit cross_val_score refit sk_metrics).
Local Abbreviation report :=
  (fit_and_report randomized_search pipe_fit cross_val_score refit
                  sk_metrics).
Local Abbreviation prepare :=
  (prepare_training np_log1p secure_filename train_test_split).
Local Abbreviation train :=
  (train_models np_log1p secure_filename train_test_split randomized_search
                pipe_fit cross_val_score refit sk_metrics).

(** The model folder after the loop: one name written per model, each
    loadable, and what was loadable before still is. *)
Lemma train_loop_model_folder ts fc sp total models :
  forall idx acc w rs w',
    loop ts fc sp total idx models acc w = (Return rs, w') ->
    listdir (MODEL_FOLDER w')
    = fold_left add_name
                (map (fun m => model_filename (fst m) ts) models)
                (listdir (MODEL_FOLDER w)) /\
    (forall n, (exists p, joblib_load n (MODEL_FOLDER w) = Return p) ->
               exists p, joblib_load n (MODEL_FOLDER w') = Return p) /\
    (forall m, In m models ->
               exists p, joblib_load (model_filename (fst m) ts)
                                     (MODEL_FOLDER w') = Return p).
Proof.
  induction models as [|[name pipe] models IH]; intros idx acc w rs w' H.
  - simpl in H. unfold ret in H. injection H as <- <-.
    split; [reflexivity|]. split; [auto|]. intros m [].
  - simpl in H. unfold mbind at 1 in H.
    destruct (round ts fc sp total idx name pipe w) as [[r|e] w1] eqn:E1;
      [|discriminate].
    apply train_one_returns in E1.
    destruct E1 as (_ & _ & _ & _ & _ & bp & Hm).
    apply IH in H. destruct H as (Hl & Hkeep & Hnew).
    split; [|split].
    + rewrite Hl, Hm, listdir_write_file. reflexivity.
    + intros n Hn. apply Hkeep. rewrite Hm. now apply joblib_load_kept.
    + intros m [<-|Hin]; [|now apply Hnew].
      apply Hkeep. rewrite Hm. exists bp. apply joblib_load_after_write.
Qed.

(** The world a returning [fit_and_report] leaves, in full. *)
Lemma fit_and_report_world p w resp w' :
  report p w = (Return resp, w') ->
  exists results w1 winner summary history,
    loop (run_timestamp p) (run_feature_cols p) (run_split p)
         (length build_models) 0 build_models [] (set_is_training true w)
    = (Return results, w1) /\
    first_item (sort_by_test_rmse results) = Return winner /\
    summary
    = mkSummary (run_timestamp p) (run_filename p)
                (nrows (run_df p), length (run_df p)) (run_feature_cols p)
                (nrows (X_train (run_split p)))
                (nrows (X_test (run_split p)))
                (sort_by_test_rmse results) (model_name winner) /\
    resp = Ok200 (mkTrainBody summary (sort_by_test_rmse results)
                              (model_name winner)) /\
    MODEL_FOLDER w' = MODEL_FOLDER w1 /\
    UPLOAD_FOLDER w' = UPLOAD_FOLDER w1 /\
    (history = [] /\
     lookup_entry TRAINING_HISTORY_FILE
       (write_file LATEST_TRAINING_FILE (SummaryJson summary)
          (write_file ("training_summary_" ++ run_timestamp p ++ ".json")
                      (SummaryJson summary) (RESULTS_FOLDER w1))) = None
     \/ exists e,
         lookup_entry TRAINING_HISTORY_FILE
           (write_file LATEST_TRAINING_FILE (SummaryJson summary)
              (write_file ("training_summary_" ++ run_timestamp p ++ ".json")
                          (SummaryJson summary) (RESULTS_FOLDER w1)))
         = Some e /\ content e = HistoryJson history) /\
    RESULTS_FOLDER w'
    = write_file TRAINING_HISTORY_FILE
        (HistoryJson (last_50 (history ++ [summary])))
        (write_file LATEST_TRAINING_FILE (SummaryJson summary)
           (write_file ("training_summary_" ++ run_timestamp p ++ ".json")
                       (SummaryJson summary) (RESULTS_FOLDER w1))).
Proof.
  unfold fit_and_report. munfold.
  destruct (loop _ _ _ _ _ _ _ _) as [[results|e] w1] eqn:Hloop;
    [|discriminate].
  destruct (first_item (sort_by_test_rmse results)) as [winner|e] eqn:Hfirst;
    [|discriminate].
  match goal with
  | |- context [lookup_entry TRAINING_HISTORY_FILE ?d] =>
      destruct (lookup_entry TRAINING_HISTORY_FILE d) as [entry|] eqn:Hh
  end.
  - cbn [RESULTS_FOLDER MODEL_FOLDER UPLOAD_FOLDER training_state] in Hh.
    destruct (content entry) eqn:Hc; try discriminate.
    intro H. injection H as <- <-.
    exists results, w1, winner. eexists. exists h.
    split; [reflexivity|]. split; [exact Hfirst|]. split; [reflexivity|].
    split; [reflexivity|]. split; [reflexivity|]. split; [reflexivity|].
    split; [|reflexivity].
    right. exists entry. split; [exact Hh|exact Hc].
  - cbn [RESULTS_FOLDER MODEL_FOLDER UPLOAD_FOLDER training_state] in Hh.
    intro H. injection H as <- <-.
    exists results, w1, winner. eexists. exists [].
    split; [reflexivity|]. split; [exact Hfirst|]. split; [reflexivity|].
    split; [reflexivity|]. split; [reflexivity|]. split; [reflexivity|].
    split; [|reflexivity].
    left. split; [reflexivity|exact Hh].
Qed.

Lemma train_models_ok_world request w body w' :
  train request w = (Ok200 body, w') ->
  exists p w0,
    prepare request w = (Return (inr p), w0) /\
    report p w0 = (Return (Ok200 body), w') /\
    run_timestamp p = now request /\
    training_state w0 = training_state w /\
    MODEL_FOLDER w0 = clear_folder (MODEL_FOLDER w) /\
    RESULTS_FOLDER w0 = clear_folder (RESULTS_FOLDER w).
Proof.
  intro H.
  destruct (train_models_ok _ _ _ _ _ _ _ _ _ _ _ _ H)
    as (p & w0 & Hp & Hr & _).
  exists p, w0. split; [exact Hp|]. split; [exact Hr|].
  split; [exact (prepare_training_timestamp _ _ _ _ _ _ _ Hp)|].
  split; [exact (prepare_training_state _ _ _ _ _ _ _ Hp)|].
  destruct (prepare_training_prepared _ _ _ _ _ _ _ Hp) as (file & Hacc).
  destruct (prepare_training_clears _ _ _ _ _ _ _ _ Hacc Hp)
    as (Hm & Hres & _).
  auto.
Qed.

(** The records and the model folder of a successful run. *)
Lemma successful_run_model_folder :
  forall request w body w',
    train request w = (Ok200 body, w') ->
    (forall r, In r (body_models body) ->
               In (model_name r) registry_names /\
               model_file r = model_filename (model_name r) (now request) /\
               exists p, joblib_load (model_file r) (MODEL_FOLDER w')
                         = Return p) /\
    length (body_models body) = 5%nat /\
    listdir (MODEL_FOLDER w')
    = fold_left add_name
                (map (fun n => model_filename n (now request))
                     registry_names)
                (listdir (clear_folder (MODEL_FOLDER w))) /\
    ((forall e, In e (MODEL_FOLDER w) ->
                isfile e = true /\ removable e = true) ->
     listdir (MODEL_FOLDER w')
     = map (fun n => model_filename n (now request)) registry_names).
Proof.
  intros request w body w' H.
  destruct (train_models_ok_world _ _ _ _ H)
    as (p & w0 & Hp & Hr & Hts & _ & Hm0 & _).
  destruct (fit_and_report_world _ _ _ _ Hr)
    as (results & w1 & winner & summary & history & Hloop & _ & _ & Hbody
        & Hm & _).
  injection Hbody as ->.
  pose proof (train_loop_returns _ _ _ _ _ _ _ _ _ _ _ _ _ _ _ Hloop)
    as ((new & Hnew & Hnames & Hfiles) & _).
  simpl in Hnew. subst new.
  destruct (train_loop_model_folder _ _ _ _ _ _ _ _ _ _ Hloop)
    as (Hlist & _ & Hload).
  assert (Hperm : Permutation results (sort_by_test_rmse results))
    by apply list_sort_perm.
  assert (Hlistdir :
            listdir (MODEL_FOLDER w')
            = fold_left add_name
                        (map (fun n => model_filename n (now request))
                             registry_names)
                        (listdir (clear_folder (MODEL_FOLDER w)))).
  { rewrite Hm, Hlist. cbn [MODEL_FOLDER set_is_training
                            set_training_state]. rewrite Hm0.
    unfold registry_names. rewrite map_map, Hts. reflexivity. }
  split; [|split; [|split]].
  - intros r Hr'. cbn [body_models] in Hr'.
    apply (Permutation_in r (Permutation_sym Hperm)) in Hr'.
    assert (Hfile : model_file r
                    = model_filename (model_name r) (run_timestamp p)).
    { exact (zipped_maps model_name model_file
                         (fun n => model_filename n (run_timestamp p))
                         fst results build_models Hnames Hfiles r Hr'). }
    assert (Hin : In (model_name r) registry_names).
    { unfold registry_names. rewrite <- Hnames. now apply in_map. }
    split; [exact Hin|]. split; [now rewrite Hfile, Hts|].
    rewrite Hfile, Hm.
    unfold registry_names in Hin. apply in_map_iff in Hin.
    destruct Hin as (m & Hm1 & Hm2). rewrite <- Hm1. now apply Hload.
  - cbn [body_models]. rewrite <- (Permutation_length Hperm).
    rewrite <- (length_map model_name), Hnames. reflexivity.
  - exact Hlistdir.
  - intro Hall. rewrite Hlistdir, (clear_folder_all_files _ Hall).
    apply (add_names_fresh _ []). apply model_filenames_NoDup.
Qed.

(** X4.  After a successful training run every result record of the
    response names its artifact, [<model>_model_<timestamp>.pkl], and
    that file is in the model folder and loads as a pipeline.  The names
    in the model folder are then those the clearing left and the five
    new ones; if the folder held only removable regular files before the
    request, its listing is, up to the order of the listing, the five
    artifacts of this run. *)
Theorem trained_artifacts_are_stored :
  forall request w body w',
    train request w = (Ok200 body, w') ->
    (forall r, In r (body_models body) ->
               In (model_name r) registry_names /\
               model_file r = model_filename (model_name r) (now request) /\
               exists p, joblib_load (model_file r) (MODEL_FOLDER w')
                         = Return p) /\
    length (body_models body) = 5%nat /\
    (forall name,
        In name (listdir (MODEL_FOLDER w')) <->
        In name (listdir (clear_folder (MODEL_FOLDER w))) \/
        exists n, In n registry_names /\
                  name = model_filename n (now request)) /\
    ((forall e, In e (MODEL_FOLDER w) ->
                isfile e = true /\ removable e = true) ->
     Permutation (listdir (MODEL_FOLDER w'))
                 (map (fun n => model_filename n (now request))
                      registry_names)).
Proof.
  intros request w body w' H.
  destruct (successful_run_model_folder _ _ _ _ H)
    as (Hrec & Hlen & Hlist & Hall).
  split; [exact Hrec|]. split; [exact Hlen|]. split.
  - intro name. rewrite Hlist, In_fold_add_name, in_map_iff.
    split; (intros [Hold|(n & Hn1 & Hn2)]; [now left|right; exists n; auto]).
  - intro Hfiles. now rewrite (Hall Hfiles).
Qed.

(** X5.  After a successful training run on a model folder that held
    only removable regular files, the lookup of [predict] finds, for each
    of the five model names, exactly the artifact this run stored for it,
    and that artifact loads. *)
Theorem each_model_finds_its_own_artifact :
  forall request w body w' name,
    train request w = (Ok200 body, w') ->
    (forall e, In e (MODEL_FOLDER w) ->
               isfile e = true /\ removable e = true) ->
    In name registry_names ->
    matching_model_files name (MODEL_FOLDER w')
    = [model_filename name (now request)] /\
    exists p, joblib_load (model_filename name (now request))
                          (MODEL_FOLDER w') = Return p.
Proof.
  intros request w body w' name H Hall Hname.
  destruct (successful_run_model_folder _ _ _ _ H)
    as (Hrec & _ & _ & Hlist).
  specialize (Hlist Hall). split.
  - unfold matching_model_files. rewrite Hlist, filter_map_swap.
    assert (Hfilter :
              filter (fun n => startswith (model_filename n (now request))
                                          (name ++ "_model_")
                               && endswith (model_filename n (now request))
                                           ".pkl") registry_names
              = filter (fun n => String.eqb n name) registry_names).
    { apply filter_ext_in. intros n Hn.
      now rewrite startswith_model_filename, endswith_model_filename,
        andb_true_r. }
    rewrite Hfilter. simpl in Hname. in_cases Hname; reflexivity.
  - destruct (train_models_ok_world _ _ _ _ H)
      as (p & w0 & _ & Hr & Hts & _).
    destruct (fit_and_report_world _ _ _ _ Hr)
      as (results & w1 & winner & summary & history & Hloop & _ & _ & _
          & Hm & _).
    destruct (train_loop_model_folder _ _ _ _ _ _ _ _ _ _ Hloop)
      as (_ & _ & Hload).
    unfold registry_names in Hname. apply in_map_iff in Hname.
    destruct Hname as (m & <- & Hm2).
    rewrite Hm, <- Hts. now apply Hload.
Qed.

End Artifacts.

(* ================================================================== *)
(** ** The run store after a training request *)

Lemma last_50_snoc {A : Type} (h : list A) (x : A) :
  last_50 (h ++ [x]) = skipn (length h + 1 - 50) h ++ [x] /\
  (length (last_50 (h ++ [x])) <= 50)%nat.
Proof.
  unfold last_50. rewrite length_app. simpl length.
  assert (Hn : (length h + 1 - 50 <= length h)%nat) by lia.
  rewrite skipn_app.
  replace (length h + 1 - 50 - length h)%nat with 0%nat by lia.
  split; [reflexivity|].
  rewrite length_app, length_skipn. simpl. lia.
Qed.

Lemma load_json_written {A : Type} (name : string)
      (decode : Content -> option A) (c : Content) (a : A) (w : World)
      (d : Folder) :
  RESULTS_FOLDER w = write_file name c d ->
  decode c = Some a ->
  load_json name decode w = Return (Some a).
Proof.
  intros Hw Hd. unfold load_json. rewrite Hw.
  destruct (lookup_write_file_same name c d) as (e & -> & _ & -> & ->).
  now rewrite Hd.
Qed.

Lemma load_json_other {A : Type} (name other : string)
      (decode : Content -> option A) (c : Content) (w w0 : World) :
  RESULTS_FOLDER w = write_file other c (RESULTS_FOLDER w0) ->
  name <> other ->
  load_json name decode w = load_json name decode w0.
Proof.
  intros Hw Hne. unfold load_json. now rewrite Hw, lookup_write_file_other.
Qed.

Lemma load_json_empty {A : Type} (name : string)
      (decode : Content -> option A) (w : World) :
  RESULTS_FOLDER w = [] -> load_json name decode w = Return None.
Proof. intro H. unfold load_json. now rewrite H. Qed.

Lemma summary_name_not_history (ts : string) :
  TRAINING_HISTORY_FILE <> ("training_summary_" ++ ts ++ ".json")%string.
Proof. intro H. vm_compute in H. discriminate H. Qed.

Lemma summary_name_not_latest (ts : string) :
  LATEST_TRAINING_FILE <> ("training_summary_" ++ ts ++ ".json")%string.
Proof. intro H. vm_compute in H. discriminate H. Qed.

Lemma summary_name_not_prediction (ts : string) :
  LATEST_PREDICTION_FILE <> ("training_summary_" ++ ts ++ ".json")%string.
Proof. intro H. vm_compute in H. discriminate H. Qed.

Section RunStore.

Variable np_log1p : fval -> fval.
Variable secure_filename : string -> string.
Variable train_test_split : DataFrame -> list fval -> result Split.
Variable randomized_search :
  string -> PipelineSpec -> list string -> nat -> DataFrame -> list fval ->
  result Search.
Variable pipe_fit :
  string -> PipelineSpec -> DataFrame -> list fval -> result Pipeline.
Variable cross_val_score :
  string -> PipelineSpec -> DataFrame -> list fval -> result (list fval).
Variable refit : Pipeline -> DataFrame -> list fval -> result Pipeline.
Variable sk_metrics : list fval -> list fval -> result Metrics.

Local Abbreviation loop :=
  (train_loop randomized_search pipe_fit cross_val_score refit sk_metrics).
Local Abbreviation report :=
  (fit_and_report randomized_search pipe_fit cross_val_score refit
                  sk_metrics).
Local Abbreviation prepare :=
  (prepare_training np_log1p secure_filename train_test_split).
Local Abbreviation train :=
  (train_models np_log1p secure_filename train_test_split randomized_search
                pipe_fit cross_val_score refit sk_metrics).

(** The results folder after a successful run, from the folder the
    clearing left. *)
Lemma train_models_ok_results request w body w' :
  train request w = (Ok200 body, w') ->
  exists history,
    let summary := body_summary body in
    let d2 :=
      write_file LATEST_TRAINING_FILE (SummaryJson summary)
        (write_file ("training_summary_" ++ now request ++ ".json")
                    (SummaryJson summary)
                    (clear_folder (RESULTS_FOLDER w))) in
    timestamp summary = now request /\
    summary_best_model summary = body_best_model body /\
    summary_models_trained summary = body_models body /\
    (history = [] /\ lookup_entry TRAINING_HISTORY_FILE d2 = None
     \/ exists e, lookup_entry TRAINING_HISTORY_FILE d2 = Some e /\
                  content e = HistoryJson history) /\
    RESULTS_FOLDER w'
    = write_file TRAINING_HISTORY_FILE
                 (HistoryJson (last_50 (history ++ [summary]))) d2.
Proof.
  intro H.
  destruct (train_models_ok_world _ _ _ _ _ _ _ _ _ _ _ _ H)
    as (p & w0 & Hp & Hr & Hts & _ & _ & Hres0).
  destruct (fit_and_report_world _ _ _ _ _ _ _ _ _ Hr)
    as (results & w1 & winner & summary & history & Hloop & _ & Hsum & Hbody
        & _ & _ & Hhist & Hres).
  pose proof (train_loop_returns _ _ _ _ _ _ _ _ _ _ _ _ _ _ _ Hloop)
    as (_ & _ & _ & _ & Hr1).
  cbn [RESULTS_FOLDER set_is_training set_training_state] in Hr1.
  rewrite Hr1, Hres0, Hts in Hhist, Hres.
  injection Hbody as ->. cbn [body_summary body_best_model body_models].
  exists history. cbv zeta.
  split; [now rewrite Hsum|]. split; [now rewrite Hsum|].
  split; [now rewrite Hsum|]. split; [exact Hhist|exact Hres].
Qed.

(** X6.  After a successful training run the run store gives back what
    the run reported: the latest-training record is the summary of the
    response (its timestamp the clock value of the request, its best
    model and ranked records those of the response), the dashboard
    endpoint answers with it, and the history read back ends with it and
    has at most 50 entries. *)
Theorem latest_training_is_read_back :
  forall request w body w',
    train request w = (Ok200 body, w') ->
    get_latest_training w' = Return (Some (body_summary body)) /\
    get_dashboard_training w' = Ok200 (body_summary body) /\
    timestamp (body_summary body) = now request /\
    summary_best_model (body_summary body) = body_best_model body /\
    summary_models_trained (body_summary body) = body_models body /\
    exists older,
      get_training_history w' = Return (older ++ [body_summary body]) /\
      (length (older ++ [body_summary body]) <= 50)%nat.
Proof.
  intros request w body w' H.
  destruct (train_models_ok_results _ _ _ _ H)
    as (history & Hts & Hbest & Hmodels & _ & Hres).
  cbv zeta in Hres.
  assert (Hlatest : get_latest_training w'
                    = Return (Some (body_summary body))).
  { unfold get_latest_training.
    rewrite (load_json_other _ _ _ _ _
               (mkWorld (training_state w') (UPLOAD_FOLDER w')
                        (MODEL_FOLDER w') _) Hres)
      by discriminate.
    eapply load_json_written; reflexivity. }
  split; [exact Hlatest|].
  split; [unfold get_dashboard_training; now rewrite Hlatest|].
  split; [exact Hts|]. split; [exact Hbest|]. split; [exact Hmodels|].
  destruct (last_50_snoc history (body_summary body)) as (Hl & Hlen).
  exists (skipn (length history + 1 - 50) history).
  rewrite <- Hl. split; [|exact Hlen].
  unfold get_training_history.
  erewrite load_json_written; [reflexivity | exact Hres | reflexivity].
Qed.

(** X7.  The history does not survive a training run: the clearing
    removes [training_history.json] with the rest of the results folder,
    so after a successful run on a results folder that held only
    removable regular files the history is that run alone, and the
    folder holds, in whatever order it is listed, the three files the
    run wrote. *)
Theorem history_restarts_with_each_run :
  forall request w body w',
    train request w = (Ok200 body, w') ->
    (forall e, In e (RESULTS_FOLDER w) ->
               isfile e = true /\ removable e = true) ->
    get_training_history w' = Return [body_summary body] /\
    get_dashboard_history w' = Ok200 ([body_summary body], 1%nat) /\
    Permutation
      (listdir (RESULTS_FOLDER w'))
      [("training_summary_" ++ now request ++ ".json")%string;
       LATEST_TRAINING_FILE; TRAINING_HISTORY_FILE].
Proof.
  intros request w body w' H Hall.
  destruct (train_models_ok_results _ _ _ _ H)
    as (history & _ & _ & _ & Hhist & Hres).
  cbv zeta in Hhist, Hres.
  rewrite (clear_folder_all_files _ Hall) in Hhist, Hres.
  assert (Hnone : history = []).
  { destruct Hhist as [[Hh _]|(e & He & _)]; [exact Hh|].
    rewrite lookup_write_file_other in He by discriminate.
    rewrite lookup_write_file_other in He
      by apply summary_name_not_history.
    discriminate He. }
  subst history.
  assert (Hget : get_training_history w' = Return [body_summary body]).
  { unfold get_training_history.
    erewrite load_json_written; [reflexivity | exact Hres | reflexivity]. }
  split; [exact Hget|].
  split; [unfold get_dashboard_history; now rewrite Hget|].
  rewrite Hres, !listdir_write_file. apply Permutation_refl.
Qed.

End RunStore.

(* ================================================================== *)
(** ** The dashboard endpoints after a training request *)

Section Dashboard.

Variable np_log1p : fval -> fval.
Variable secure_filename : string -> string.
Variable train_test_split : DataFrame -> list fval -> result Split.
Variable randomized_search :
  string -> PipelineSpec -> list string -> nat -> DataFrame -> list fval ->
  result Search.
Variable pipe_fit :
  string -> PipelineSpec -> DataFrame -> list fval -> result Pipeline.
Variable cross_val_score :
  string -> PipelineSpec -> DataFrame -> list fval -> result (list fval).
Variable refit : Pipeline -> DataFrame -> list fval -> result Pipeline.
Variable sk_metrics : list fval -> list fval -> result Metrics.

Local Abbreviation loop :=
  (train_loop randomized_search pipe_fit cross_val_score refit sk_metrics).
Local Abbreviation report :=
  (fit_and_report randomized_search pipe_fit cross_val_score refit
                  sk_metrics).
Local Abbreviation prepare :=
  (prepare_training np_log1p secure_filename train_test_split).
Local Abbreviation train :=
  (train_models np_log1p secure_filename train_test_split randomized_search
                pipe_fit cross_val_score refit sk_metrics).

(** A run that raises from an empty results folder leaves it empty: the
    three files are written after the last step that can raise. *)
Lemma fit_and_report_raises_results p w e w' :
  report p w = (Raise e, w') ->
  RESULTS_FOLDER w = [] ->
  RESULTS_FOLDER w' = [].
Proof.
  intros H Hempty. unfold fit_and_report in H. munfold.
  destruct (loop _ _ _ _ _ _ _ _) as [[results|e1] w1] eqn:Hloop.
  - pose proof (train_loop_returns _ _ _ _ _ _ _ _ _ _ _ _ _ _ _ Hloop)
      as (_ & _ & _ & _ & Hr1).
    cbn [RESULTS_FOLDER set_is_training set_training_state] in Hr1.
    rewrite Hempty in Hr1.
    destruct (first_item (sort_by_test_rmse results)) as [winner|e2];
      [|injection H as <- <-; exact Hr1].
    cbn [RESULTS_FOLDER MODEL_FOLDER UPLOAD_FOLDER training_state] in H.
    rewrite Hr1 in H.
    rewrite lookup_write_file_other in H by discriminate.
    rewrite lookup_write_file_other in H
      by apply summary_name_not_history.
    discriminate H.
  - pose proof (train_loop_raises _ _ _ _ _ _ _ _ _ _ _ _ _ _ _ Hloop)
      as (_ & _ & _ & Hr1).
    cbn [RESULTS_FOLDER set_is_training set_training_state] in Hr1.
    injection H as <- <-. now rewrite Hr1.
Qed.

Lemma failed_training_results request file w resp w' :
  acceptable_upload request file ->
  train request w = (resp, w') ->
  is_ok resp = false ->
  clear_folder (RESULTS_FOLDER w) = [] ->
  RESULTS_FOLDER w' = [].
Proof.
  intros Hacc H Hfail Hclear.
  pose proof (train_models_cases np_log1p secure_filename train_test_split
                randomized_search pipe_fit cross_val_score refit sk_metrics
                request w) as Hc.
  destruct (prepare request w) as [[[early|p]|e] w1] eqn:Hp;
    destruct (prepare_training_clears _ _ _ _ _ _ _ _ Hacc Hp)
      as (_ & Hr & _);
    rewrite Hclear in Hr.
  - rewrite Hc in H. injection H as <- <-. exact Hr.
  - destruct (report p w1) as [[resp2|e2] w2] eqn:Hrep.
    + rewrite Hc in H. injection H as <- <-.
      destruct (fit_and_report_world _ _ _ _ _ _ _ _ _ Hrep)
        as (? & ? & ? & ? & ? & _ & _ & _ & -> & _).
      discriminate Hfail.
    + rewrite Hc in H. injection H as <- <-.
      cbn [RESULTS_FOLDER set_is_training set_training_state].
      exact (fit_and_report_raises_results _ _ _ _ Hrep Hr).
  - rewrite Hc in H. injection H as <- <-. exact Hr.
Qed.

(** X8.  After a successful training run on model and results folders
    that held only removable regular files, the dashboard summary
    reports training data, no prediction data (the clearing removed
    [latest_prediction.json]), five model files and one training
    session, with the summary of the response as the latest training. *)
Theorem dashboard_after_successful_run :
  forall request w body w',
    train request w = (Ok200 body, w') ->
    (forall e, In e (MODEL_FOLDER w) ->
               isfile e = true /\ removable e = true) ->
    (forall e, In e (RESULTS_FOLDER w) ->
               isfile e = true /\ removable e = true) ->
    get_dashboard_summary w'
    = Ok200 (mkDashboardSummary true false 5 1
                                (Some (body_summary body)) None) /\
    get_dashboard_prediction w'
    = ErrorJson 404
        "No prediction data available. Please make predictions first.".
Proof.
  intros request w body w' H Hm Hr.
  destruct (train_models_ok_results _ _ _ _ _ _ _ _ _ _ _ _ H)
    as (history & _ & _ & _ & Hhist & Hres).
  cbv zeta in Hhist, Hres.
  rewrite (clear_folder_all_files _ Hr) in Hhist, Hres.
  assert (Hnone : history = []).
  { destruct Hhist as [[Hh _]|(e & He & _)]; [exact Hh|].
    rewrite lookup_write_file_other in He by discriminate.
    rewrite lookup_write_file_other in He
      by apply summary_name_not_history.
    discriminate He. }
  subst history.
  assert (Hlatest : get_latest_training w'
                    = Return (Some (body_summary body))).
  { unfold get_latest_training.
    rewrite (load_json_other _ _ _ _ _
               (mkWorld (training_state w') (UPLOAD_FOLDER w')
                        (MODEL_FOLDER w') _) Hres)
      by discriminate.
    eapply load_json_written; reflexivity. }
  assert (Hpred : get_latest_prediction w' = Return None).
  { unfold get_latest_prediction, load_json. rewrite Hres.
    rewrite !lookup_write_file_other
      by first [apply summary_name_not_prediction | discriminate].
    reflexivity. }
  assert (Hget : get_training_history w' = Return [body_summary body]).
  { unfold get_training_history.
    erewrite load_json_written; [reflexivity | exact Hres | reflexivity]. }
  assert (Hfiles : length (filter (fun f => endswith f ".pkl")
                                  (listdir (MODEL_FOLDER w'))) = 5%nat).
  { destruct (successful_run_model_folder _ _ _ _ _ _ _ _ _ _ _ _ H)
      as (_ & _ & _ & Hlist).
    rewrite (Hlist Hm), filter_map_swap, length_map.
    rewrite (filter_ext _ (fun _ => true))
      by (intro n; apply endswith_model_filename).
    reflexivity. }
  split.
  - unfold get_dashboard_summary.
    rewrite Hlatest, Hpred, Hget. cbn [bind respond]. rewrite Hfiles.
    reflexivity.
  - unfold get_dashboard_prediction. now rewrite Hpred.
Qed.

(** X9.  A training request that passes the upload checks and is not
    answered with 200, whatever the reason (unreadable or rejected
    dataset, failing split, failing model), leaves a results folder that
    held only removable regular files empty: the dashboard then has no
    latest training, no latest prediction and an empty history. *)
Theorem failed_training_empties_the_dashboard :
  forall request file w resp w',
    acceptable_upload request file ->
    train request w = (resp, w') ->
    is_ok resp = false ->
    (forall e, In e (RESULTS_FOLDER w) ->
               isfile e = true /\ removable e = true) ->
    RESULTS_FOLDER w' = [] /\
    get_dashboard_training w'
    = ErrorJson 404
        "No training data available. Please train models first." /\
    get_dashboard_prediction w'
    = ErrorJson 404
        "No prediction data available. Please make predictions first." /\
    get_dashboard_history w' = Ok200 ([], 0%nat).
Proof.
  intros request file w resp w' Hacc H Hfail Hall.
  assert (Hempty : RESULTS_FOLDER w' = []).
  { eapply failed_training_results; eauto.
    now apply clear_folder_all_files. }
  split; [exact Hempty|].
  unfold get_dashboard_training, get_dashboard_prediction,
    get_dashboard_history, get_latest_training, get_latest_prediction,
    get_training_history.
  rewrite !(load_json_empty _ _ _ Hempty). auto.
Qed.

End Dashboard.

(* ================================================================== *)
(** ** The answer and the record of a prediction request *)















Lemma nrows_setitem (c : string) (d : dtype) (v : list fval)
      (df : DataFrame) :
  length v = nrows df -> nrows (setitem c d v df) = length v.
Proof.
  intro H. unfold setitem. destruct df as [|s df].
  - reflexivity.
  - destruct (has_col c (s :: df)); simpl in *; [|now symmetry].
    destruct (String.eqb (cname s) c); [reflexivity|now symmetry].
Qed.

Lemma prediction_names_not_store (model ts : string) :
  LATEST_TRAINING_FILE <> ("predictions_" ++ model ++ "_" ++ ts ++ ".csv")%string
  /\ TRAINING_HISTORY_FILE
     <> ("predictions_" ++ model ++ "_" ++ ts ++ ".csv")%string
  /\ LATEST_PREDICTION_FILE
     <> ("predictions_" ++ model ++ "_" ++ ts ++ ".csv")%string.
Proof. repeat split; intro H; simpl in H; discriminate H. Qed.

Section PredictionAnswer.

Variable np_log1p : fval -> fval.
Variable np_std : list fval -> fval.
Variable secure_filename : string -> string.

Local Abbreviation serve_predict :=
  (predict np_log1p np_std secure_filename).

(** The answer and the world of a successful prediction request. *)
Lemma predict_ok_world request w body w' :
  serve_predict request w = (Ok200 body, w') ->
  exists file df predictions stats,
    acceptable_upload request file /\
    read_csv file = Return df /\
    length predictions = nrows df /\
    prediction_stats np_std predictions = Return stats /\
    let classes := map classify_wqi predictions in
    let output :=
      ("predictions_" ++ requested_model request ++ "_" ++ now request
                      ++ ".csv")%string in
    let with_pred := setitem "Predicted_WQI" float64 predictions df in
    let sample_size := Nat.min 100 (nrows with_pred) in
    body
    = mkPredictBody
        (requested_model request) (length predictions) stats
        (value_counts classes)
        (map (fun s => mkSeries (cname s) (sdtype s)
                                (firstn sample_size (cells s)))
             (filter (fun s => negb (String.eqb (cname s) TARGET))
                     with_pred),
         firstn sample_size classes)
        output /\
    training_state w' = training_state w /\
    MODEL_FOLDER w' = MODEL_FOLDER w /\
    UPLOAD_FOLDER w'
    = write_file ("predict_" ++ now request ++ "_"
                             ++ secure_filename (filename file))%string
                 UploadedCsv (UPLOAD_FOLDER w) /\
    RESULTS_FOLDER w'
    = write_file LATEST_PREDICTION_FILE
        (PredictionMetaJson
           (mkPredictionMeta (now request) (requested_model request)
                             (length predictions) stats
                             (value_counts classes) output))
        (write_file output (PredictionsCsv df predictions classes)
                    (RESULTS_FOLDER w)).
Proof.
  unfold predict, predict_try.
  destruct (files_file request) as [file|] eqn:Hfile; [|discriminate].
  destruct (String.eqb (filename file) "") eqn:Hname; [discriminate|].
  destruct (allowed_file (filename file)) eqn:Hallowed; [|discriminate].
  change (negb true) with false. cbv beta iota.
  munfold.
  destruct (read_csv file) as [df|e] eqn:Hcsv; [|discriminate].
  destruct (preprocess_dataframe np_log1p df false) as [out|e];
    [|discriminate].
  destruct (matching_model_files _ _) as [|f fs]; [discriminate|].
  munfold.
  destruct (first_item _) as [newest|e]; [|discriminate].
  destruct (joblib_load _ _) as [model|e]; [|discriminate].
  destruct (predict_fn model _) as [predictions|e]; [|discriminate].
  destruct (Nat.eqb (length predictions) (nrows df)) eqn:El;
    [|discriminate].
  change (negb true) with false. cbv beta iota. munfold.
  destruct (prediction_stats np_std predictions) as [stats|e] eqn:Hstats;
    [|discriminate].
  intro H. injection H as <- <-.
  exists file, df, predictions, stats.
  apply Nat.eqb_eq in El. apply String.eqb_neq in Hname.
  split; [repeat split; assumption|].
  split; [exact Hcsv|]. split; [exact El|]. split; [exact Hstats|].
  cbv zeta. cbn [training_state MODEL_FOLDER UPLOAD_FOLDER RESULTS_FOLDER].
  repeat split.
Qed.

(** X10.  A successful prediction request is recorded: the
    latest-prediction record read back (and served by the dashboard)
    carries the model, the count, the statistics, the class distribution
    and the output file of the response and the clock value of the
    request; the output file is in the results folder as a regular file;
    the training state, the model folder and the stored training records
    are as before. *)
Theorem prediction_is_recorded :
  forall request w body w',
    serve_predict request w = (Ok200 body, w') ->
    (exists meta,
        get_latest_prediction w' = Return (Some meta) /\
        get_dashboard_prediction w' = Ok200 meta /\
        meta_timestamp meta = now request /\
        meta_model_used meta = body_model_used body /\
        meta_total_predictions meta = body_total_predictions body /\
        meta_statistics meta = body_statistics body /\
        meta_class_distribution meta = body_class_distribution body /\
        meta_output_file meta = body_output_file body) /\
    (exists entry,
        lookup_entry (body_output_file body) (RESULTS_FOLDER w')
        = Some entry /\ isfile entry = true) /\
    training_state w' = training_state w /\
    MODEL_FOLDER w' = MODEL_FOLDER w /\
    get_latest_training w' = get_latest_training w /\
    get_training_history w' = get_training_history w.
Proof.
  intros request w body w' H.
  destruct (predict_ok_world _ _ _ _ H)
    as (file & df & predictions & stats & _ & _ & _ & _ & Hbody & Hts & Hm
        & _ & Hres).
  cbv zeta in Hbody, Hres. subst body.
  cbn [body_model_used body_total_predictions body_statistics
       body_class_distribution body_output_file].
  destruct (prediction_names_not_store (requested_model request)
                                       (now request))
    as (Hn1 & Hn2 & Hn3).
  split; [|split; [|split; [exact Hts|split; [exact Hm|split]]]].
  - eexists.
    assert (Hget : get_latest_prediction w' = Return (Some _))
      by (unfold get_latest_prediction;
          eapply load_json_written; [exact Hres|reflexivity]).
    split; [exact Hget|].
    split; [unfold get_dashboard_prediction; now rewrite Hget|].
    repeat split.
  - rewrite Hres, lookup_write_file_other by (intro E; now symmetry in E).
    match goal with
    | |- context [lookup_entry ?n (write_file ?n ?c ?d)] =>
        destruct (lookup_write_file_same n c d) as (e0 & He0 & _ & Hf0 & _)
    end.
    exists e0. split; assumption.
  - unfold get_latest_training, load_json. rewrite Hres.
    rewrite lookup_write_file_other by discriminate.
    now rewrite lookup_write_file_other by exact Hn1.
  - unfold get_training_history, load_json. rewrite Hres.
    rewrite lookup_write_file_other by discriminate.
    now rewrite lookup_write_file_other by exact Hn2.
Qed.


(** X12.  The sample of a successful prediction answer has at most 100
    rows, exactly [min 100 total_predictions] classes, never a column
    named [WQI], and always the column [Predicted_WQI]. *)
Theorem sample_predictions_are_bounded :
  forall request w body w',
    serve_predict request w = (Ok200 body, w') ->
    let sample := body_sample_predictions body in
    (forall s, In s (fst sample) -> (length (cells s) <= 100)%nat) /\
    length (snd sample) = Nat.min 100 (body_total_predictions body) /\
    ~ In TARGET (columns (fst sample)) /\
    In "Predicted_WQI" (columns (fst sample)).
Proof.
  intros request w body w' H.
  destruct (predict_ok_world _ _ _ _ H)
    as (file & df & predictions & stats & _ & _ & Hlen & _ & Hbody & _).
  cbv zeta in Hbody. subst body. cbv zeta.
  cbn [body_sample_predictions body_total_predictions fst snd].
  split; [|split; [|split]].
  - intros s Hs. apply in_map_iff in Hs. destruct Hs as (s0 & <- & _).
    cbn [cells]. rewrite length_firstn. lia.
  - rewrite length_firstn, length_map.
    rewrite (nrows_setitem _ _ _ _ Hlen). lia.
  - unfold columns. rewrite map_map. cbn [cname].
    intro Hin. apply in_map_iff in Hin.
    destruct Hin as (s & Hname & Hs). apply filter_In in Hs.
    destruct Hs as (_ & Hneq). rewrite Hname in Hneq.
    now rewrite String.eqb_refl in Hneq.
  - unfold columns. rewrite map_map. cbn [cname].
    assert (Hcol : has_col "Predicted_WQI"
                           (setitem "Predicted_WQI" float64 predictions df)
                   = true)
      by (now rewrite has_col_setitem, String.eqb_refl).
    apply has_col_In in Hcol. unfold columns in Hcol.
    apply in_map_iff in Hcol. destruct Hcol as (s & Hname & Hs).
    apply in_map_iff. exists s. split; [exact Hname|].
    apply filter_In. split; [exact Hs|]. now rewrite Hname.
Qed.

End PredictionAnswer.

(* ================================================================== *)
(** ** Progress of a run, and the features it reports *)

Lemma progress_of_registry (k : nat) (name : string) :
  nth_error registry_names k = Some name ->
  progress_of k (length build_models) = (20 * Z.of_nat k)%Z.
Proof.
  intro H.
  do 5 (destruct k as [|k]; [reflexivity|]).
  destruct k; discriminate H.
Qed.

Section Progress.

Variable np_log1p : fval -> fval.
Variable secure_filename : string -> string.
Variable train_test_split : DataFrame -> list fval -> result Split.
Variable randomized_search :
  string -> PipelineSpec -> list string -> nat -> DataFrame -> list fval ->
  result Search.
Variable pipe_fit :
  string -> PipelineSpec -> DataFrame -> list fval -> result Pipeline.
Variable cross_val_score :
  string -> PipelineSpec -> DataFrame -> list fval -> result (list fval).
Variable refit : Pipeline -> DataFrame -> list fval -> result Pipeline.
Variable sk_metrics : list fval -> list fval -> result Metrics.

Local Abbreviation round :=
  (train_one randomized_search pipe_fit cross_val_score refit sk_metrics).
Local Abbreviation loop :=
  (train_loop randomized_search pipe_fit cross_val_score refit sk_metrics).
Local Abbreviation report :=
  (fit_and_report randomized_search pipe_fit cross_val_score refit
                  sk_metrics).
Local Abbreviation prepare :=
  (prepare_training np_log1p secure_filename train_test_split).
Local Abbreviation train :=
  (train_models np_log1p secure_filename train_test_split randomized_search
                pipe_fit cross_val_score refit sk_metrics).

(** A loop that raises stops at the model it announced last. *)
Lemma train_loop_raises_progress ts fc sp total models :
  forall idx acc w e w',
    loop ts fc sp total idx models acc w = (Raise e, w') ->
    exists k name,
      nth_error (map fst models) k = Some name /\
      current_model (training_state w') = name /\
      progress (training_state w') = progress_of (idx + k) total.
Proof.
  induction models as [|[name pipe] models IH]; intros idx acc w e w' H.
  - discriminate.
  - simpl in H. unfold mbind at 1 in H.
    destruct (round ts fc sp total idx name pipe w)
      as [[r|e1] w1] eqn:E1.
    + apply IH in H. destruct H as (k & n & Hk & Hc & Hp).
      exists (S k), n. split; [exact Hk|]. split; [exact Hc|].
      now rewrite Hp, Nat.add_succ_r.
    + injection H as <- <-. apply train_one_raises in E1.
      destruct E1 as (Hts & _).
      exists 0%nat, name. rewrite Hts, Nat.add_0_r. simpl. auto.
Qed.

(** A loop that returns has announced its last model last. *)
Lemma train_loop_returns_progress ts fc sp total models :
  forall idx acc w rs w',
    models <> [] ->
    loop ts fc sp total idx models acc w = (Return rs, w') ->
    exists name,
      nth_error (map fst models) (length models - 1) = Some name /\
      current_model (training_state w') = name /\
      progress (training_state w')
      = progress_of (idx + (length models - 1)) total.
Proof.
  induction models as [|[name pipe] models IH];
    intros idx acc w rs w' Hne H; [contradiction|].
  simpl in H. unfold mbind at 1 in H.
  destruct (round ts fc sp total idx name pipe w)
    as [[r|e1] w1] eqn:E1; [|discriminate].
  destruct models as [|m models].
  - simpl in H. unfold ret in H. injection H as <- <-.
    apply train_one_returns in E1. destruct E1 as (_ & _ & Hts & _).
    exists name. rewrite Hts. simpl. rewrite Nat.add_0_r. auto.
  - apply IH in H; [|discriminate].
    destruct H as (n & Hk & Hc & Hp). exists n.
    assert (Hlen : (length ((name, pipe) :: m :: models) - 1
                    = S (length (m :: models) - 1))%nat)
      by (simpl; lia).
    rewrite Hlen. split; [exact Hk|]. split; [exact Hc|].
    rewrite Hp. f_equal. lia.
Qed.

Lemma fit_and_report_raises_progress p w e w' :
  report p w = (Raise e, w') ->
  exists k name,
    nth_error registry_names k = Some name /\
    current_model (training_state w') = name /\
    progress (training_state w') = (20 * Z.of_nat k)%Z.
Proof.
  intro H. unfold fit_and_report in H. munfold.
  destruct (loop _ _ _ _ _ _ _ _) as [[results|e1] w1] eqn:Hloop.
  - apply train_loop_returns_progress in Hloop; [|discriminate].
    destruct Hloop as (name & Hk & Hc & Hp).
    assert (Hstate : training_state w' = training_state w1).
    { destruct (first_item _) as [best|e2];
        [|now injection H as <- <-].
      match type of H with
      | context [lookup_entry TRAINING_HISTORY_FILE ?d] =>
          destruct (lookup_entry TRAINING_HISTORY_FILE d) as [entry|]
      end; [destruct (content entry)|]; try discriminate;
        now injection H as <- <-. }
    exists 4%nat, name. rewrite Hstate.
    split; [exact Hk|]. split; [exact Hc|]. rewrite Hp. reflexivity.
  - injection H as <- <-.
    apply train_loop_raises_progress in Hloop.
    destruct Hloop as (k & name & Hk & Hc & Hp).
    exists k, name. split; [exact Hk|]. split; [exact Hc|].
    rewrite Hp. simpl Nat.add.
    exact (progress_of_registry k name Hk).
Qed.

(** X13.  A training request that is not answered with 200 leaves
    [progress] and [current_model] either as they were (the request
    failed before the loop) or at the model that was running: progress
    is then [20 * k] for the [k]-th registry model, at most 80, with
    [is_training] false.  So a failure never brings progress to 100;
    nor does it reset a stale 100 when it fails before the loop. *)
Theorem failed_run_progress :
  forall request w resp w',
    train request w = (resp, w') ->
    is_ok resp = false ->
    (progress (training_state w') = progress (training_state w) /\
     current_model (training_state w') = current_model (training_state w)
     \/
     exists k name,
       nth_error registry_names k = Some name /\
       current_model (training_state w') = name /\
       progress (training_state w') = (20 * Z.of_nat k)%Z /\
       (progress (training_state w') <= 80)%Z /\
       is_training (training_state w') = false) /\
    (progress (training_state w) <> 100%Z ->
     progress (training_state w') <> 100%Z).
Proof.
  intros request w resp w' H Hfail.
  assert (Hcases :
            progress (training_state w') = progress (training_state w) /\
            current_model (training_state w')
            = current_model (training_state w)
            \/
            exists k name,
              nth_error registry_names k = Some name /\
              current_model (training_state w') = name /\
              progress (training_state w') = (20 * Z.of_nat k)%Z /\
              (progress (training_state w') <= 80)%Z /\
              is_training (training_state w') = false).
  { pose proof (train_models_cases np_log1p secure_filename
                  train_test_split randomized_search pipe_fit
                  cross_val_score refit sk_metrics request w) as Hc.
    destruct (prepare request w) as [[[early|p]|e] w1] eqn:Hp;
      pose proof (prepare_training_state _ _ _ _ _ _ _ Hp) as Hstate.
    - rewrite Hc in H. injection H as <- <-. left. now rewrite Hstate.
    - destruct (report p w1) as [[resp2|e2] w2] eqn:Hrep.
      + rewrite Hc in H. injection H as <- <-.
        destruct (fit_and_report_world _ _ _ _ _ _ _ _ _ Hrep)
          as (? & ? & ? & ? & ? & _ & _ & _ & -> & _).
        discriminate Hfail.
      + rewrite Hc in H. injection H as <- <-. right.
        destruct (fit_and_report_raises_progress _ _ _ _ Hrep)
          as (k & name & Hk & Hcur & Hprog).
        exists k, name. cbn [training_state set_is_training
                             set_training_state current_model progress
                             is_training].
        split; [exact Hk|]. split; [exact Hcur|]. split; [exact Hprog|].
        split; [|reflexivity].
        rewrite Hprog.
        assert (Hlt : (k < length registry_names)%nat)
          by (apply nth_error_Some; rewrite Hk; discriminate).
        change (k < 5)%nat in Hlt. lia.
    - rewrite Hc in H. injection H as <- <-. left.
      cbn [training_state set_is_training set_training_state
           current_model progress]. now rewrite Hstate. }
  split; [exact Hcases|].
  intros Hold Hnew.
  destruct Hcases as [[Hsame _]|(k & name & _ & _ & _ & Hle & _)].
  - apply Hold. now rewrite <- Hsame.
  - rewrite Hnew in Hle. lia.
Qed.

(** What the first half of [train_models] hands to the loop. *)
Lemma prepare_training_features request w p w' :
  prepare request w = (Return (inr p), w') ->
  exists file df,
    files_file request = Some file /\
    read_csv file = Return df /\
    preprocess_dataframe np_log1p df true = Return (run_df p) /\
    run_feature_cols p = feature_cols_of (select_number (run_df p)) /\
    has_col TARGET (select_number (run_df p)) = true.
Proof.
  unfold prepare_training.
  destruct (files_file request) as [file|] eqn:Hfile; [|discriminate].
  destruct (String.eqb (filename file) ""); [discriminate|].
  destruct (negb (allowed_file (filename file))); [discriminate|].
  munfold.
  destruct (read_csv file) as [df|e] eqn:Hcsv; [|discriminate].
  destruct (negb (has_col TARGET df || has_col "WQI" df)); [discriminate|].
  destruct (preprocess_dataframe np_log1p df true) as [out|e] eqn:Hpre;
    [|discriminate].
  destruct (has_col TARGET (select_number out)) eqn:Ht; [|discriminate].
  change (negb true) with false. cbv beta iota.
  destruct (Nat.eqb (count_true _) 0); [discriminate|].
  destruct (train_test_split _ _) as [sp|e]; [|discriminate].
  intro H. injection H as <- <-.
  exists file, df. cbn [run_df run_feature_cols].
  split; [reflexivity|]. split; [exact Hcsv|]. split; [exact Hpre|].
  split; [reflexivity|exact Ht].
Qed.

(** X14.  The [features_used] of a successful run are labels of numeric
    columns of the preprocessed upload, each once, and never the target
    [WQI] nor one of the class columns; the shape reported is that of
    the preprocessed frame, derived columns included. *)
Theorem features_used_exclude_the_target :
  forall request w body w',
    train request w = (Ok200 body, w') ->
    exists file df out,
      files_file request = Some file /\
      read_csv file = Return df /\
      preprocess_dataframe np_log1p df true = Return out /\
      let features := features_used (body_summary body) in
      features = feature_cols_of (select_number out) /\
      ~ In TARGET features /\
      (forall c, In c excluded_feature_cols -> ~ In c features) /\
      NoDup features /\
      (forall c, In c features ->
                 In c (columns out) /\ is_number (col_dtype c out) = true) /\
      dataset_shape (body_summary body) = (nrows out, length out).
Proof.
  intros request w body w' H.
  destruct (train_models_ok_world _ _ _ _ _ _ _ _ _ _ _ _ H)
    as (p & w0 & Hp & Hr & _).
  destruct (fit_and_report_world _ _ _ _ _ _ _ _ _ Hr)
    as (results & w1 & winner & summary & history & _ & _ & Hsum & Hbody
        & _).
  destruct (prepare_training_features _ _ _ _ Hp)
    as (file & df & Hfile & Hcsv & Hpre & Hfc & _).
  injection Hbody as ->. cbn [body_summary]. subst summary.
  cbn [features_used dataset_shape]. cbv zeta.
  exists file, df, (run_df p).
  split; [exact Hfile|]. split; [exact Hcsv|]. split; [exact Hpre|].
  split; [exact Hfc|]. rewrite Hfc.
  destruct (preprocess_returns_tidy np_log1p df (run_df p) true Hpre)
    as (Hnd & _).
  unfold feature_cols_of.
  split; [|split; [|split; [|split; [|reflexivity]]]].
  - intro Hin. apply filter_In in Hin. destruct Hin as (_ & Hb).
    now rewrite String.eqb_refl in Hb.
  - intros c Hc Hin. apply filter_In in Hin. destruct Hin as (_ & Hb).
    apply andb_true_iff in Hb. destruct Hb as (_ & Hb).
    apply negb_true_iff in Hb. apply str_in_false in Hb. contradiction.
  - apply NoDup_filter. now apply NoDup_columns_filter.
  - intros c Hin. apply filter_In in Hin. destruct Hin as (Hin & _).
    unfold columns, select_number in Hin. apply in_map_iff in Hin.
    destruct Hin as (s & Hname & Hs). apply filter_In in Hs.
    destruct Hs as (Hs & Hnum). split.
    + unfold columns. apply in_map_iff. now exists s.
    + rewrite <- Hname.
      now rewrite (col_dtype_unique (run_df p) s Hnd Hs).
Qed.

End Progress.

(* ================================================================== *)
(** ** Renaming, the analyzer and the classes *)

Lemma find_filter_implied {A : Type} (p q : A -> bool) (l : list A) :
  (forall x, p x = true -> q x = true) ->
  find p (filter q l) = find p l.
Proof.
  intro H. induction l as [|x l IH]; [reflexivity|]. simpl.
  destruct (p x) eqn:Hp.
  - rewrite (H x Hp). simpl. now rewrite Hp.
  - destruct (q x); [simpl; now rewrite Hp|exact IH].
Qed.

(** For a label of the frame, the present entries of [RENAME_MAP] answer as
    the whole map does. *)
Lemma dict_get_present_map (df : DataFrame) (k : string) :
  has_col k df = true ->
  dict_get (present_map df) k = dict_get RENAME_MAP k.
Proof.
  intro H. unfold dict_get, present_map.
  rewrite find_filter_implied; [reflexivity|].
  intros kv Hk. apply String.eqb_eq in Hk. now rewrite Hk.
Qed.

Lemma rename_columns_by_map (df : DataFrame) :
  rename_columns (present_map df) df
  = map (fun s => match dict_get RENAME_MAP (cname s) with
                  | Some v => mkSeries v (sdtype s) (cells s)
                  | None => s
                  end) df.
Proof.
  unfold rename_columns. apply map_ext_in. intros s Hs.
  rewrite dict_get_present_map; [reflexivity|].
  apply has_col_In. unfold columns. now apply in_map.
Qed.

(** No canonical name is renamed again. *)
Lemma RENAME_MAP_values_fixed (k v : string) :
  dict_get RENAME_MAP k = Some v ->
  In (k, v) RENAME_MAP /\ In v FEATURES /\
  (dict_get RENAME_MAP v = None \/ dict_get RENAME_MAP v = Some v).
Proof.
  unfold dict_get.
  destruct (find (fun kv => String.eqb (fst kv) k) RENAME_MAP)
    as [[k' v']|] eqn:E; [|discriminate].
  intro H. injection H as ->. apply find_some in E.
  destruct E as (Hin & Hk). apply String.eqb_eq in Hk. simpl in Hk. subst k'.
  split; [exact Hin|].
  assert (Hall : forallb
                   (fun kv =>
                      str_in (snd kv) FEATURES
                      && match find (fun kv' => String.eqb (fst kv') (snd kv))
                                    RENAME_MAP with
                         | Some kv' => String.eqb (snd kv') (snd kv)
                         | None => true
                         end) RENAME_MAP = true) by (vm_compute; reflexivity).
  rewrite forallb_forall in Hall. specialize (Hall _ Hin).
  cbv beta in Hall. cbn [snd] in Hall.
  apply andb_true_iff in Hall. destruct Hall as (Hf & Hfix).
  split; [now apply str_in_In|].
  destruct (find (fun kv' => String.eqb (fst kv') v) RENAME_MAP)
    as [[k2 v2]|]; [|now left].
  right. cbn [snd] in Hfix. apply String.eqb_eq in Hfix. now subst.
Qed.

(** X16.  Renaming the columns is idempotent and touches labels only: the
    cells and the types stay, every label stays or becomes the canonical
    feature name [RENAME_MAP] gives for it, and renaming the renamed
    frame changes nothing. *)
Theorem renaming_is_idempotent :
  forall df,
    let renamed := rename_columns (present_map df) df in
    rename_columns (present_map renamed) renamed = renamed /\
    map cells renamed = map cells df /\
    map sdtype renamed = map sdtype df /\
    Forall2 (fun old new => new = old \/
                            In (old, new) RENAME_MAP /\ In new FEATURES)
            (columns df) (columns renamed).
Proof.
  intro df. cbv zeta. rewrite (rename_columns_by_map df).
  rewrite rename_columns_by_map.
  split; [|split; [|split]].
  - rewrite map_map. apply map_ext. intro s.
    destruct (dict_get RENAME_MAP (cname s)) as [v|] eqn:E.
    + cbn [cname sdtype cells].
      destruct (RENAME_MAP_values_fixed _ _ E) as (_ & _ & [-> | ->]);
        reflexivity.
    + now rewrite E.
  - rewrite map_map. apply map_ext. intro s.
    now destruct (dict_get RENAME_MAP (cname s)).
  - rewrite map_map. apply map_ext. intro s.
    now destruct (dict_get RENAME_MAP (cname s)).
  - unfold columns. induction df as [|s df IH]; [constructor|].
    simpl. constructor; [|exact IH].
    destruct (dict_get RENAME_MAP (cname s)) as [v|] eqn:E; [|now left].
    right. cbn [cname].
    destruct (RENAME_MAP_values_fixed _ _ E) as (Hin & Hf & _). auto.
Qed.

Lemma In_conditional_drops (cols : list string) (s : Series) :
  forall df,
    In s (fold_left (fun d col => if has_col col d then drop_col col d else d)
                    cols df) ->
    In s df.
Proof.
  induction cols as [|c cols IH]; intros df H; [exact H|].
  simpl in H. apply IH in H.
  destruct (has_col c df); [|exact H].
  unfold drop_col in H. now apply filter_In in H.
Qed.

(** A label that survives the cleaning was a label after the renaming. *)
Lemma cleaned_columns_renamed (df cleaned : DataFrame) (c : string) :
  clean_columns df = Return cleaned ->
  In c (columns cleaned) ->
  In c (columns (rename_columns (present_map df) df)).
Proof.
  unfold clean_columns. intros H Hc.
  destruct (drop_non_numeric_filter _ _ _ H) as (keep & ->).
  unfold columns in Hc. apply in_map_iff in Hc.
  destruct Hc as (s & <- & Hs). apply filter_In in Hs.
  destruct Hs as (Hs & _). apply In_conditional_drops in Hs.
  unfold columns. now apply in_map.
Qed.

(** X15.  The validation block of [analyze_dataset] states a necessary
    condition only.  Whenever [preprocess_dataframe] returns in training
    mode the analyzer reports [ready_for_training], and whenever it
    returns in prediction mode the analyzer reports
    [ready_for_prediction], with no missing feature.  The converse fails:
    the analyzer looks at labels and not at types, so there is a frame it
    reports ready for training on which [preprocess_dataframe] raises the
    missing-columns error. *)
Theorem analyzer_is_necessary_not_sufficient :
  (forall np_log1p df out,
      preprocess_dataframe np_log1p df true = Return out ->
      analyze_validation df = mkValidation true true [] true true) /\
  (forall np_log1p df out,
      preprocess_dataframe np_log1p df false = Return out ->
      ready_for_prediction (analyze_validation df) = true /\
      has_all_features (analyze_validation df) = true /\
      missing_features (analyze_validation df) = []) /\
  (exists df,
      ready_for_training (analyze_validation df) = true /\
      forall np_log1p,
        exists missing available,
          preprocess_dataframe np_log1p df true
          = Raise (MissingColumns missing available)).
Proof.
  assert (Hfeatures :
            forall np_log1p df out is_training,
              preprocess_dataframe np_log1p df is_training = Return out ->
              forallb (fun feat =>
                         has_col feat (rename_columns (present_map df) df))
                      FEATURES = true /\
              missing_from FEATURES (rename_columns (present_map df) df) = []).
  { intros np_log1p df out is_training H.
    apply preprocess_dataframe_returns in H.
    destruct H as (cleaned & Hclean & Hcheck & _).
    pose proof (check_required_features _ _ Hcheck) as Hall.
    assert (Hin : forall c, In c FEATURES ->
                            In c (columns (rename_columns (present_map df) df)))
      by (intros c Hc; eapply cleaned_columns_renamed; eauto).
    split.
    - apply forallb_forall. intros c Hc. apply has_col_In. auto.
    - now apply missing_from_nil. }
  split; [|split].
  - intros np_log1p df out H.
    destruct (Hfeatures _ _ _ _ H) as (Hf & Hm).
    unfold analyze_validation. rewrite Hf, Hm.
    apply preprocess_dataframe_returns in H.
    destruct H as (cleaned & Hclean & Hcheck & _).
    rewrite check_required_training in Hcheck.
    destruct (missing_from (FEATURES ++ [TARGET]) cleaned) eqn:E;
      [|discriminate].
    assert (Ht : has_col TARGET (rename_columns (present_map df) df) = true).
    { apply has_col_In. eapply cleaned_columns_renamed; [exact Hclean|].
      apply (proj1 (missing_from_nil _ _) E). apply in_or_app.
      right. now left. }
    now rewrite Ht.
  - intros np_log1p df out H.
    destruct (Hfeatures _ _ _ _ H) as (Hf & Hm).
    unfold analyze_validation. cbn [ready_for_prediction has_all_features
                                    missing_features].
    auto.
  - exists frame_with_text_pH. split; [vm_compute; reflexivity|].
    intro np_log1p. eexists. eexists.
    erewrite preprocess_dataframe_cleaned; [|vm_compute; reflexivity].
    vm_compute. reflexivity.
Qed.

(** X17.  [classify_wqi] is monotone: a value that is [<=] another never
    gets a worse class, the classes running from Excellent to Unsuitable
    for Drinking.  A NaN, which is [<=] nothing, falls through every test
    and is reported as Unsuitable for Drinking, as is plus infinity;
    minus infinity is Excellent. *)
Theorem classify_wqi_is_monotone :
  (forall a b,
      fle a b = true ->
      (class_rank (classify_wqi a) <= class_rank (classify_wqi b))%nat) /\
  classify_wqi NaN = "Unsuitable for Drinking" /\
  classify_wqi PInf = "Unsuitable for Drinking" /\
  classify_wqi NInf = "Excellent".
Proof.
  split; [|repeat split].
  intros a b Hab.
  destruct a as [x| | |], b as [y| | |]; try discriminate Hab;
    try (vm_compute; lia).
  - simpl in Hab. apply Qle_bool_iff in Hab.
    unfold classify_wqi, fle.
    repeat match goal with
           | |- context [Qle_bool ?u ?v] =>
               let E := fresh "E" in
               destruct (Qle_bool u v) eqn:E;
               [apply Qle_bool_iff in E
               |apply not_true_iff_false in E; rewrite Qle_bool_iff in E]
           end;
      try (vm_compute; lia); exfalso; lra.
  - unfold classify_wqi at 2. cbn [fle].
    change (class_rank "Unsuitable for Drinking") with 4%nat.
    unfold classify_wqi.
    repeat match goal with
           | |- context [fle ?u ?v] => destruct (fle u v)
           end; vm_compute; lia.
Qed.

(* ================================================================== *)
(** ** Held-out error, pass-through columns, statistics, uploads *)

(** X18.  On a non-empty test set whose actual values are all
    nonnegative numbers, as water quality indices are, and whose
    predictions are numbers, the MAPE stored for a model is a number
    between 0 and 100. *)
Theorem mape_of_nonnegative_targets_in_range :
  forall ys ps : list Q,
    ys <> [] -> length ys = length ps ->
    Forall (fun y => 0 <= y) ys ->
    exists q, clipped_mape (map Fin ys) (map Fin ps) = Fin q /\ 0 <= q <= 100.
Proof.
  intros ys ps Hne Hlen Hpos.
  apply clipped_mape_in_range; [exact Hne|exact Hlen|].
  clear Hne. revert ps Hlen.
  induction Hpos as [|y ys Hy Hpos IH]; intros [|p ps] Hlen; simpl;
    try constructor.
  - simpl. intros (Hz & _). unfold epsilon in Hz. lra.
  - apply IH. simpl in Hlen. lia.
Qed.

Lemma col_cells_impute_col_other (x col : string) (df : DataFrame) :
  x <> col -> col_cells x (impute_col col df) = col_cells x df.
Proof.
  intro Hne. rewrite col_cells_impute_col.
  apply String.eqb_neq in Hne. now rewrite Hne.
Qed.

Lemma col_cells_impute_missing_other (x : string) (df : DataFrame)
      (is_training : bool) :
  ~ In x FEATURES -> (is_training = true -> x <> TARGET) ->
  col_cells x (impute_missing df is_training) = col_cells x df.
Proof.
  intros Hx Ht. unfold impute_missing.
  assert (Hfold : col_cells x (fold_left (fun d col => impute_col col d)
                                         FEATURES df) = col_cells x df).
  { rewrite (col_cells_impute_fold x FEATURES FEATURES_NoDup).
    apply str_in_false in Hx. now rewrite Hx. }
  destruct is_training; [|exact Hfold].
  destruct (has_col TARGET _); [|exact Hfold].
  cbn [andb]. rewrite col_cells_impute_col_other; [exact Hfold|now apply Ht].
Qed.

(** X19.  Imputation and feature construction touch the canonical and the
    derived columns only.  Any other column of the cleaned frame comes out
    of [preprocess_dataframe] with the cells it had; in prediction mode
    this includes a [WQI] column, whose missing cells are left missing. *)
Theorem other_columns_pass_through (np_log1p : fval -> fval) :
  forall df cleaned out is_training,
    clean_columns df = Return cleaned ->
    preprocess_dataframe np_log1p df is_training = Return out ->
    (forall c, ~ In c FEATURES -> ~ In c derived_columns ->
               (is_training = true -> c <> TARGET) ->
               has_col c out = has_col c cleaned /\
               col_cells c out = col_cells c cleaned) /\
    (is_training = false ->
     col_cells TARGET out = col_cells TARGET cleaned).
Proof.
  intros df cleaned out is_training Hclean Hpre.
  rewrite (preprocess_dataframe_cleaned _ _ _ _ Hclean) in Hpre.
  destruct (check_required cleaned is_training); [|discriminate].
  injection Hpre as <-.
  assert (Hother : forall c, ~ In c FEATURES -> ~ In c derived_columns ->
                             (is_training = true -> c <> TARGET) ->
                             has_col c (add_derived_features
                                          np_log1p
                                          (impute_missing cleaned is_training))
                             = has_col c cleaned /\
                             col_cells c (add_derived_features
                                            np_log1p
                                            (impute_missing cleaned is_training))
                             = col_cells c cleaned).
  { intros c Hf Hd Ht.
    destruct (add_derived_features_other np_log1p c
                (impute_missing cleaned is_training) Hd) as (-> & ->).
    split.
    - unfold has_col. now rewrite columns_impute_missing.
    - now apply col_cells_impute_missing_other. }
  split; [exact Hother|].
  intro Hmode. apply Hother.
  - vm_compute. intuition discriminate.
  - vm_compute. intuition discriminate.
  - rewrite Hmode. discriminate.
Qed.

(* ------------------------------------------------------------------ *)
(** *** Minimum and maximum of the predictions *)

Lemma fle_refl (x : fval) : is_nan x = false -> fle x x = true.
Proof.
  destruct x as [q| | |]; try reflexivity; [|discriminate].
  intros _. simpl. apply Qle_bool_iff. lra.
Qed.

Lemma fle_trans (x y z : fval) :
  fle x y = true -> fle y z = true -> fle x z = true.
Proof.
  destruct x as [a| | |], y as [b| | |], z as [c| | |]; simpl;
    try discriminate; try reflexivity.
  rewrite !Qle_bool_iff. lra.
Qed.

Lemma flt_fle (x y : fval) : flt x y = true -> fle x y = true.
Proof.
  destruct x as [a| | |], y as [b| | |]; simpl; try discriminate;
    try reflexivity.
  intro H. apply negb_true_iff in H. apply not_true_iff_false in H.
  rewrite Qle_bool_iff in H. apply Qle_bool_iff. lra.
Qed.

Lemma not_flt_fle (x y : fval) :
  is_nan x = false -> is_nan y = false -> flt x y = false -> fle y x = true.
Proof.
  destruct x as [a| | |], y as [b| | |]; simpl; try discriminate;
    try reflexivity.
  intros _ _ H. now apply negb_false_iff in H.
Qed.

Lemma nan_min_spec (a b : fval) :
  is_nan a = false -> is_nan b = false ->
  (nan_min a b = a \/ nan_min a b = b) /\
  is_nan (nan_min a b) = false /\
  fle (nan_min a b) a = true /\ fle (nan_min a b) b = true.
Proof.
  intros Ha Hb. unfold nan_min. rewrite Ha, Hb. cbn [orb].
  destruct (flt b a) eqn:E.
  - split; [now right|]. split; [exact Hb|].
    split; [now apply flt_fle|now apply fle_refl].
  - split; [now left|]. split; [exact Ha|].
    split; [now apply fle_refl|now apply not_flt_fle].
Qed.

Lemma nan_max_spec (a b : fval) :
  is_nan a = false -> is_nan b = false ->
  (nan_max a b = a \/ nan_max a b = b) /\
  is_nan (nan_max a b) = false /\
  fle a (nan_max a b) = true /\ fle b (nan_max a b) = true.
Proof.
  intros Ha Hb. unfold nan_max. rewrite Ha, Hb. cbn [orb].
  destruct (flt a b) eqn:E.
  - split; [now right|]. split; [exact Hb|].
    split; [now apply flt_fle|now apply fle_refl].
  - split; [now left|]. split; [exact Ha|].
    split; [now apply fle_refl|now apply not_flt_fle].
Qed.

Lemma fold_nan_min_spec (v : list fval) :
  forall x,
    existsb is_nan (x :: v) = false ->
    In (fold_left nan_min v x) (x :: v) /\
    forall y, In y (x :: v) -> fle (fold_left nan_min v x) y = true.
Proof.
  induction v as [|b v IH]; intros x H.
  - simpl in *. apply orb_false_iff in H. destruct H as (Hx & _).
    split; [now left|]. intros y [<-|[]]. now apply fle_refl.
  - cbn [existsb] in H. apply orb_false_iff in H. destruct H as (Hx & H).
    apply orb_false_iff in H. destruct H as (Hb & Hv).
    destruct (nan_min_spec x b Hx Hb) as (Hcase & Hnan & Hlx & Hlb).
    cbn [fold_left].
    destruct (IH (nan_min x b)) as (Hin & Hle).
    { cbn [existsb]. now rewrite Hnan, Hv. }
    split.
    + destruct Hin as [Hin|Hin]; [|now right; right].
      rewrite <- Hin. destruct Hcase as [-> | ->]; [now left|right; now left].
    + assert (Hm : fle (fold_left nan_min v (nan_min x b)) (nan_min x b)
                   = true) by (apply Hle; now left).
      intros y [<-|[<-|Hy]].
      * eapply fle_trans; eauto.
      * eapply fle_trans; eauto.
      * apply Hle. now right.
Qed.

Lemma fold_nan_max_spec (v : list fval) :
  forall x,
    existsb is_nan (x :: v) = false ->
    In (fold_left nan_max v x) (x :: v) /\
    forall y, In y (x :: v) -> fle y (fold_left nan_max v x) = true.
Proof.
  induction v as [|b v IH]; intros x H.
  - simpl in *. apply orb_false_iff in H. destruct H as (Hx & _).
    split; [now left|]. intros y [<-|[]]. now apply fle_refl.
  - cbn [existsb] in H. apply orb_false_iff in H. destruct H as (Hx & H).
    apply orb_false_iff in H. destruct H as (Hb & Hv).
    destruct (nan_max_spec x b Hx Hb) as (Hcase & Hnan & Hlx & Hlb).
    cbn [fold_left].
    destruct (IH (nan_max x b)) as (Hin & Hle).
    { cbn [existsb]. now rewrite Hnan, Hv. }
    split.
    + destruct Hin as [Hin|Hin]; [|now right; right].
      rewrite <- Hin. destruct Hcase as [-> | ->]; [now left|right; now left].
    + assert (Hm : fle (nan_max x b) (fold_left nan_max v (nan_max x b))
                   = true) by (apply Hle; now left).
      intros y [<-|[<-|Hy]].
      * eapply fle_trans; eauto.
      * eapply fle_trans; eauto.
      * apply Hle. now right.
Qed.

Lemma fold_nan_absorbs (f : fval -> fval -> fval) (v : list fval) :
  (forall a b, is_nan a || is_nan b = true -> f a b = NaN) ->
  forall x, existsb is_nan (x :: v) = true -> fold_left f v x = NaN.
Proof.
  intro Hf. induction v as [|b v IH]; intros x H.
  - simpl in *. rewrite orb_false_r in H. now destruct x.
  - cbn [fold_left]. apply IH. cbn [existsb] in *.
    destruct (is_nan x || is_nan b) eqn:E.
    + now rewrite (Hf _ _ E).
    + apply orb_false_iff in E. destruct E as (Ex & Eb).
      rewrite Ex, Eb in H. cbn [orb] in H. rewrite H. apply orb_true_r.
Qed.

(** X20.  The statistics of a prediction answer.  On an empty array the
    minimum raises, so no statistics are produced.  Otherwise, when no
    prediction is NaN, [min_wqi] and [max_wqi] are predictions that bound
    every prediction from below and from above; when some prediction is
    NaN, minimum, maximum and median are all NaN. *)
Theorem prediction_stats_bounds (np_std : list fval -> fval) :
  (exists e, prediction_stats np_std [] = Raise e) /\
  (forall predictions,
      predictions <> [] ->
      exists stats,
        prediction_stats np_std predictions = Return stats /\
        (existsb is_nan predictions = false ->
         In (min_wqi stats) predictions /\
         In (max_wqi stats) predictions /\
         forall x, In x predictions ->
                   fle (min_wqi stats) x = true /\
                   fle x (max_wqi stats) = true) /\
        (existsb is_nan predictions = true ->
         min_wqi stats = NaN /\ max_wqi stats = NaN /\
         median_wqi stats = NaN)).
Proof.
  split; [eexists; reflexivity|].
  intros [|x v] Hne; [contradiction|].
  eexists. split; [reflexivity|].
  cbn [min_wqi max_wqi median_wqi]. split.
  - intro Hnan.
    destruct (fold_nan_min_spec v x Hnan) as (Hmin & Hlo).
    destruct (fold_nan_max_spec v x Hnan) as (Hmax & Hhi).
    split; [exact Hmin|]. split; [exact Hmax|]. auto.
  - intro Hnan. split; [|split].
    + apply fold_nan_absorbs; [|exact Hnan].
      intros a b E. unfold nan_min. now rewrite E.
    + apply fold_nan_absorbs; [|exact Hnan].
      intros a b E. unfold nan_max. now rewrite E.
    + unfold np_median. now rewrite Hnan.
Qed.

(* ================================================================== *)
(** ** What requests leave alone *)

Lemma In_add_name (names : list string) (n x : string) :
  In x names -> In x (add_name names n).
Proof.
  intro H. unfold add_name. destruct (str_in n names); [exact H|].
  apply in_or_app. now left.
Qed.

Lemma In_add_name_new (names : list string) (n : string) :
  In n (add_name names n).
Proof.
  unfold add_name. destruct (str_in n names) eqn:E.
  - now apply str_in_In.
  - apply in_or_app. right. now left.
Qed.

Section Untouched.

Variable np_log1p : fval -> fval.
Variable np_std : list fval -> fval.
Variable secure_filename : string -> string.
Variable train_test_split : DataFrame -> list fval -> result Split.
Variable randomized_search :
  string -> PipelineSpec -> list string -> nat -> DataFrame -> list fval ->
  result Search.
Variable pipe_fit :
  string -> PipelineSpec -> DataFrame -> list fval -> result Pipeline.
Variable cross_val_score :
  string -> PipelineSpec -> DataFrame -> list fval -> result (list fval).
Variable refit : Pipeline -> DataFrame -> list fval -> result Pipeline.
Variable sk_metrics : list fval -> list fval -> result Metrics.

Local Abbreviation loop :=
  (train_loop randomized_search pipe_fit cross_val_score refit sk_metrics).
Local Abbreviation report :=
  (fit_and_report randomized_search pipe_fit cross_val_score refit
                  sk_metrics).
Local Abbreviation prepare :=
  (prepare_training np_log1p secure_filename train_test_split).
Local Abbreviation train :=
  (train_models np_log1p secure_filename train_test_split randomized_search
                pipe_fit cross_val_score refit sk_metrics).
Local Abbreviation serve_predict :=
  (predict np_log1p np_std secure_filename).

(** The second half of [train_models] never writes an upload. *)
Lemma fit_and_report_uploads p w r w' :
  report p w = (r, w') -> UPLOAD_FOLDER w' = UPLOAD_FOLDER w.
Proof.
  destruct r as [resp|e]; intro H.
  - destruct (fit_and_report_world _ _ _ _ _ _ _ _ _ H)
      as (results & w1 & ? & ? & ? & Hloop & _ & _ & _ & _ & Hu & _).
    pose proof (train_loop_returns _ _ _ _ _ _ _ _ _ _ _ _ _ _ _ Hloop)
      as (_ & _ & _ & Hu1 & _).
    now rewrite Hu, Hu1.
  - unfold fit_and_report in H. munfold.
    destruct (loop _ _ _ _ _ _ _ _) as [[results|e1] w1] eqn:Hloop.
    + pose proof (train_loop_returns _ _ _ _ _ _ _ _ _ _ _ _ _ _ _ Hloop)
        as (_ & _ & _ & Hu1 & _).
      cbn [UPLOAD_FOLDER set_is_training set_training_state] in Hu1.
      rewrite <- Hu1.
      destruct (first_item _) as [best|e2];
        [|now injection H as <- <-].
      match type of H with
      | context [lookup_entry TRAINING_HISTORY_FILE ?d] =>
          destruct (lookup_entry TRAINING_HISTORY_FILE d) as [entry|]
      end; [destruct (content entry)|]; try discriminate;
        now injection H as <- <-.
    + pose proof (train_loop_raises _ _ _ _ _ _ _ _ _ _ _ _ _ _ _ Hloop)
        as (_ & _ & Hu1 & _).
      injection H as <- <-. exact Hu1.
Qed.

(** The upload folder after a training request. *)
Lemma train_models_uploads request w :
  UPLOAD_FOLDER (snd (train request w)) = UPLOAD_FOLDER w /\
  (forall file, ~ acceptable_upload request file)
  \/ exists file,
      acceptable_upload request file /\
      UPLOAD_FOLDER (snd (train request w))
      = write_file ("train_" ++ now request ++ "_"
                             ++ secure_filename (filename file))%string
                   UploadedCsv (UPLOAD_FOLDER w).
Proof.
  pose proof (train_models_cases np_log1p secure_filename train_test_split
                randomized_search pipe_fit cross_val_score refit sk_metrics
                request w) as Hc.
  assert (Hdec : (forall file, ~ acceptable_upload request file)
                 \/ exists file, acceptable_upload request file).
  { unfold acceptable_upload.
    destruct (files_file request) as [file|];
      [|left; intros f (Hf & _); discriminate].
    destruct (String.eqb (filename file) "") eqn:En.
    - apply String.eqb_eq in En. left. intros f (Hf & Hn & _).
      injection Hf as ->. contradiction.
    - apply String.eqb_neq in En.
      destruct (allowed_file (filename file)) eqn:Ea.
      + right. exists file. auto.
      + left. intros f (Hf & _ & Ha). injection Hf as ->. congruence. }
  destruct (prepare request w) as [r w1] eqn:Hp.
  destruct Hdec as [Hrej|(file & Hacc)].
  - left. split; [|exact Hrej].
    destruct (prepare_training_rejected _ _ _ _ _ _ _ Hrej Hp)
      as (-> & msg & ->).
    now rewrite Hc.
  - right. exists file. split; [exact Hacc|].
    destruct (prepare_training_clears _ _ _ _ _ _ _ _ Hacc Hp)
      as (_ & _ & Hu).
    destruct r as [[early|p]|e].
    + now rewrite Hc.
    + destruct (report p w1) as [[resp|e] w2] eqn:Hrep;
        rewrite Hc; cbn [snd UPLOAD_FOLDER set_is_training
                         set_training_state];
        now rewrite (fit_and_report_uploads _ _ _ _ Hrep).
    + now rewrite Hc.
Qed.

(** What a prediction request can change, whatever its outcome. *)
Lemma predict_world request w :
  let w' := snd (serve_predict request w) in
  training_state w' = training_state w /\
  MODEL_FOLDER w' = MODEL_FOLDER w /\
  (is_ok (fst (serve_predict request w)) = false ->
   RESULTS_FOLDER w' = RESULTS_FOLDER w) /\
  (UPLOAD_FOLDER w' = UPLOAD_FOLDER w
   \/ exists file,
       files_file request = Some file /\
       UPLOAD_FOLDER w'
       = write_file ("predict_" ++ now request ++ "_"
                                ++ secure_filename (filename file))%string
                    UploadedCsv (UPLOAD_FOLDER w)).
Proof.
  cbv zeta. unfold predict, predict_try.
  destruct (files_file request) as [file|]; [|cbn; auto].
  destruct (String.eqb (filename file) ""); [cbn; auto|].
  destruct (negb (allowed_file (filename file))); [cbn; auto|].
  munfold.
  assert (Hright :
            forall u,
              u = write_file ("predict_" ++ now request ++ "_"
                                ++ secure_filename (filename file))%string
                             UploadedCsv (UPLOAD_FOLDER w) ->
              u = UPLOAD_FOLDER w
              \/ exists file0,
                  Some file = Some file0 /\
                  u = write_file ("predict_" ++ now request ++ "_"
                                    ++ secure_filename (filename file0))%string
                                 UploadedCsv (UPLOAD_FOLDER w))
    by (intros u ->; right; now exists file).
  destruct (read_csv file) as [df|e];
    [|cbn [fst snd training_state MODEL_FOLDER RESULTS_FOLDER
           UPLOAD_FOLDER]; auto].
  destruct (preprocess_dataframe np_log1p df false) as [out|e];
    [|cbn [fst snd training_state MODEL_FOLDER RESULTS_FOLDER
           UPLOAD_FOLDER]; auto].
  cbn [MODEL_FOLDER].
  destruct (matching_model_files _ _) as [|f fs];
    [cbn [fst snd training_state MODEL_FOLDER RESULTS_FOLDER
          UPLOAD_FOLDER]; auto|].
  munfold.
  destruct (first_item _) as [newest|e];
    [|cbn [fst snd training_state MODEL_FOLDER RESULTS_FOLDER
           UPLOAD_FOLDER]; auto].
  cbn [MODEL_FOLDER].
  destruct (joblib_load _ _) as [model|e];
    [|cbn [fst snd training_state MODEL_FOLDER RESULTS_FOLDER
           UPLOAD_FOLDER]; auto].
  destruct (predict_fn model _) as [predictions|e];
    [|cbn [fst snd training_state MODEL_FOLDER RESULTS_FOLDER
           UPLOAD_FOLDER]; auto].
  destruct (negb (Nat.eqb (length predictions) (nrows df)));
    [munfold; cbn [fst snd training_state MODEL_FOLDER RESULTS_FOLDER
                   UPLOAD_FOLDER]; auto|].
  munfold.
  destruct (prediction_stats np_std predictions) as [stats|e];
    cbn [fst snd training_state MODEL_FOLDER RESULTS_FOLDER
         UPLOAD_FOLDER is_ok]; repeat split; auto; discriminate.
Qed.

(** X21.  Uploads are never removed.  The clearing of [train_models]
    covers the model and the results folder only, and both endpoints
    only write into the upload folder: every name listed there before a
    request is listed after it, and a training request whose upload
    passes the checks leaves its file
    [train_<timestamp>_<secured name>] there, whatever the outcome. *)
Theorem uploads_are_never_removed :
  forall request w,
    (forall name,
        In name (listdir (UPLOAD_FOLDER w)) ->
        In name (listdir (UPLOAD_FOLDER (snd (train request w)))) /\
        In name (listdir (UPLOAD_FOLDER (snd (serve_predict request w)))))
    /\
    (forall file,
        acceptable_upload request file ->
        In ("train_" ++ now request ++ "_"
                     ++ secure_filename (filename file))%string
           (listdir (UPLOAD_FOLDER (snd (train request w))))).
Proof.
  intros request w. split.
  - intros name Hin. split.
    + destruct (train_models_uploads request w)
        as [(-> & _)|(file & _ & ->)]; [exact Hin|].
      rewrite listdir_write_file. now apply In_add_name.
    + destruct (predict_world request w) as (_ & _ & _ & Hu).
      cbv zeta in Hu. destruct Hu as [-> |(file & _ & ->)]; [exact Hin|].
      rewrite listdir_write_file. now apply In_add_name.
  - intros file Hacc.
    destruct (train_models_uploads request w)
      as [(_ & Hrej)|(file' & (Hf' & _) & ->)];
      [exfalso; exact (Hrej file Hacc)|].
    destruct Hacc as (Hf & _). rewrite Hf in Hf'. injection Hf' as <-.
    rewrite listdir_write_file. apply In_add_name_new.
Qed.

(** X22.  A prediction request never touches the training state or the
    model folder, and one that is not answered with 200 writes nothing
    into the results folder: the output file and the latest-prediction
    record are written only by a request that succeeds, so the
    dashboard keeps showing the last successful prediction. *)
Theorem failed_prediction_writes_no_result :
  forall request w,
    training_state (snd (serve_predict request w)) = training_state w /\
    MODEL_FOLDER (snd (serve_predict request w)) = MODEL_FOLDER w /\
    (is_ok (fst (serve_predict request w)) = false ->
     RESULTS_FOLDER (snd (serve_predict request w)) = RESULTS_FOLDER w /\
     get_latest_prediction (snd (serve_predict request w))
     = get_latest_prediction w /\
     get_dashboard_prediction (snd (serve_predict request w))
     = get_dashboard_prediction w).
Proof.
  intros request w.
  destruct (predict_world request w) as (Hts & Hm & Hres & _).
  cbv zeta in Hts, Hm, Hres.
  split; [exact Hts|]. split; [exact Hm|].
  intro Hfail. specialize (Hres Hfail).
  split; [exact Hres|].
  assert (Hget : get_latest_prediction (snd (serve_predict request w))
                 = get_latest_prediction w)
    by (unfold get_latest_prediction, load_json; now rewrite Hres).
  split; [exact Hget|].
  unfold get_dashboard_prediction. now rewrite Hget.
Qed.

End Untouched.

(* ================================================================== *)
(** ** Listing the models and downloading the predictions *)

Lemma contains_char_cons (ch c : ascii) (s : string) :
  str_contains (String ch "") (String c s)
  = Ascii.eqb c ch || str_contains (String ch "") s.
Proof.
  change (str_contains (String ch "") (String c s))
    with (if String.prefix (String ch "") (String c s) then true
          else str_contains (String ch "") s).
  change (String.prefix (String ch "") (String c s))
    with (if ascii_dec ch c then String.prefix "" s else false).
  destruct (ascii_dec ch c) as [<-|Hne].
  - rewrite Ascii.eqb_refl. now destruct s.
  - assert (E : Ascii.eqb c ch = false)
      by (apply Ascii.eqb_neq; congruence).
    now rewrite E.
Qed.

Lemma contains_char_append (ch : ascii) (a b : string) :
  str_contains (String ch "") (a ++ b)
  = str_contains (String ch "") a || str_contains (String ch "") b.
Proof.
  induction a as [|c a IH].
  - simpl. now destruct b.
  - change (String c a ++ b)%string with (String c (a ++ b)%string).
    rewrite !contains_char_cons, IH. now rewrite orb_assoc.
Qed.

(** Removing [".pkl"] from a name that holds no other dot takes the
    extension off. *)
Lemma str_remove_extension (s : string) :
  str_contains "." s = false -> str_remove ".pkl" (s ++ ".pkl") = s.
Proof.
  unfold str_remove. induction s as [|c s IH]; intro H; [reflexivity|].
  rewrite contains_char_cons in H. apply orb_false_iff in H.
  destruct H as (Hc & Hs).
  change (String c s ++ ".pkl")%string with (String c (s ++ ".pkl")%string).
  change (str_remove_from ".pkl" 0 (String c (s ++ ".pkl")))
    with (if String.prefix ".pkl" (String c (s ++ ".pkl"))
          then str_remove_from ".pkl" 3 (s ++ ".pkl")
          else String c (str_remove_from ".pkl" 0 (s ++ ".pkl"))).
  change (String.prefix ".pkl" (String c (s ++ ".pkl")))
    with (if ascii_dec "."%char c then String.prefix "pkl" (s ++ ".pkl")
          else false).
  destruct (ascii_dec "."%char c) as [<-|_]; [discriminate Hc|].
  now rewrite IH.
Qed.

Lemma str_split_plain (sep : ascii) (s : string) :
  str_contains (String sep "") s = false -> str_split sep s = [s].
Proof.
  induction s as [|c s IH]; intro H; [reflexivity|].
  rewrite contains_char_cons in H. apply orb_false_iff in H.
  destruct H as (Hc & Hs). simpl. now rewrite Hc, IH.
Qed.

Lemma str_split_append (sep : ascii) (a rest : string) :
  str_contains (String sep "") a = false ->
  str_split sep (a ++ String sep rest) = a :: str_split sep rest.
Proof.
  induction a as [|c a IH]; intro H.
  - simpl. now rewrite Ascii.eqb_refl.
  - rewrite contains_char_cons in H. apply orb_false_iff in H.
    destruct H as (Hc & Ha). simpl. now rewrite Hc, IH.
Qed.

Lemma plain_parts (s : string) :
  plain s = true ->
  str_contains "_" s = false /\ str_contains "." s = false.
Proof.
  unfold plain. intro H. apply andb_true_iff in H.
  destruct H as (H1 & H2). now rewrite negb_true_iff in H1, H2.
Qed.

Lemma model_filename_stem (name date time : string) :
  model_filename name (date ++ "_" ++ time)
  = ((name ++ String "_" ("model" ++ String "_" (date ++ String "_" time)))
       ++ ".pkl")%string.
Proof.
  unfold model_filename.
  change ("_model_" ++ (date ++ "_" ++ time) ++ ".pkl")%string
    with (String "_" ("model" ++ String "_" ((date ++ String "_" time)
                                               ++ ".pkl")))%string.
  change (String "_" ("model" ++ String "_" (date ++ String "_" time)))
    with ("_model_" ++ (date ++ String "_" time))%string.
  change (String "_" ("model" ++ String "_" ((date ++ String "_" time)
                                               ++ ".pkl")))%string
    with ("_model_" ++ ((date ++ String "_" time) ++ ".pkl"))%string.
  now rewrite <- !str_append_assoc.
Qed.

(** The entry [list_models] builds from an artifact name: for plain model
    name, date and time it reads back the name and the timestamp. *)
Lemma model_entry_of_artifact (name date time : string) :
  plain name = true -> plain date = true -> plain time = true ->
  model_entry (model_filename name (date ++ "_" ++ time))
  = mkModelEntry name (model_filename name (date ++ "_" ++ time))
                 (date ++ "_" ++ time)
                 ("models/" ++ model_filename name (date ++ "_" ++ time)).
Proof.
  intros Hn Hd Ht.
  destruct (plain_parts _ Hn) as (Hn1 & Hn2).
  destruct (plain_parts _ Hd) as (Hd1 & Hd2).
  destruct (plain_parts _ Ht) as (Ht1 & Ht2).
  unfold model_entry. rewrite (model_filename_stem name date time).
  rewrite str_remove_extension.
  - rewrite (str_split_append "_" name) by exact Hn1.
    rewrite (str_split_append "_" "model") by reflexivity.
    rewrite (str_split_append "_" date) by exact Hd1.
    rewrite (str_split_plain "_" time) by exact Ht1.
    reflexivity.
  - change (String "_" ("model" ++ String "_" (date ++ String "_" time)))
      with ("_model_" ++ (date ++ "_" ++ time))%string.
    rewrite !contains_char_append, Hn2, Hd2, Ht2. reflexivity.
Qed.

Lemma list_sort_all_ties {A : Type} (lt : A -> A -> bool) (l : list A) :
  (forall a b, In a l -> In b l -> lt a b = false) -> list_sort lt l = l.
Proof.
  induction l as [|x l IH]; intro H; [reflexivity|].
  simpl. rewrite IH by (intros a b Ha Hb; apply H; now right).
  destruct l as [|y l]; [reflexivity|]. simpl.
  rewrite H; [reflexivity|right; now left|now left].
Qed.

Lemma ltb_irrefl (s : string) : String.ltb s s = false.
Proof.
  destruct (String.ltb s s) eqn:E; [|reflexivity].
  now rewrite (ltb_asym _ _ E) in E.
Qed.

Lemma registry_names_plain (name : string) :
  In name registry_names -> plain name = true.
Proof. intro H. simpl in H. in_cases H; reflexivity. Qed.

Lemma write_file_keeps_files (n : string) (c : Content) (d : Folder) :
  (forall e, In e d -> isfile e = true /\ removable e = true) ->
  forall e, In e (write_file n c d) -> isfile e = true /\ removable e = true.
Proof.
  intros H e He. unfold write_file in He.
  destruct (lookup_entry n d) as [found|].
  - apply in_map_iff in He. destruct He as (old & <- & Hin).
    destruct (String.eqb (fname old) n); [|now apply H].
    simpl. split; [reflexivity|]. now apply H.
  - apply in_app_or in He. destruct He as [He|[<-|[]]]; [now apply H|].
    split; reflexivity.
Qed.

Section Listing.

Variable np_log1p : fval -> fval.
Variable np_std : list fval -> fval.
Variable secure_filename : string -> string.
Variable train_test_split : DataFrame -> list fval -> result Split.
Variable randomized_search :
  string -> PipelineSpec -> list string -> nat -> DataFrame -> list fval ->
  result Search.
Variable pipe_fit :
  string -> PipelineSpec -> DataFrame -> list fval -> result Pipeline.
Variable cross_val_score :
  string -> PipelineSpec -> DataFrame -> list fval -> result (list fval).
Variable refit : Pipeline -> DataFrame -> list fval -> result Pipeline.
Variable sk_metrics : list fval -> list fval -> result Metrics.

Local Abbreviation train :=
  (train_models np_log1p secure_filename train_test_split randomized_search
                pipe_fit cross_val_score refit sk_metrics).
Local Abbreviation serve_predict :=
  (predict np_log1p np_std secure_filename).

(** X23.  [list_models] reads an artifact name back: from
    [<name>_model_<date>_<time>.pkl] with plain name, date and time
    (no underscore, no dot) it recovers the model name and the
    timestamp.  After a successful training run whose timestamp has
    this shape, on a model folder that held only removable regular
    files, the listing has five entries, one for each model of the
    registry, each with the timestamp of the run and the file the run
    stored; their order is that of the directory listing, on which
    nothing is stated. *)
Theorem list_models_reads_artifacts_back :
  (forall name date time,
      plain name = true -> plain date = true -> plain time = true ->
      let file := model_filename name (date ++ "_" ++ time) in
      model_entry file
      = mkModelEntry name file (date ++ "_" ++ time) ("models/" ++ file))
  /\
  (forall request w body w' date time,
      train request w = (Ok200 body, w') ->
      (forall e, In e (MODEL_FOLDER w) ->
                 isfile e = true /\ removable e = true) ->
      now request = (date ++ "_" ++ time)%string ->
      plain date = true -> plain time = true ->
      exists models,
        list_models w' = Ok200 (models, 5%nat) /\
        Permutation
          models
          (map (fun name =>
                  mkModelEntry
                    name (model_filename name (now request))
                    (now request)
                    ("models/" ++ model_filename name (now request)))
               registry_names)).
Proof.
  split.
  - intros name date time Hn Hd Ht. cbv zeta.
    now apply model_entry_of_artifact.
  - intros request w body w' date time H Hall Hnow Hd Ht.
    destruct (successful_run_model_folder _ _ _ _ _ _ _ _ _ _ _ _ H)
      as (_ & _ & _ & Hlist).
    eexists. split; [|apply Permutation_refl].
    unfold list_models. rewrite (Hlist Hall), Hnow.
    rewrite filter_map_swap.
    rewrite (filter_ext _ (fun _ => true))
      by (intro n; apply endswith_model_filename).
    rewrite filter_all, map_map.
    rewrite (map_ext_in
               (fun n => model_entry (model_filename n (date ++ "_" ++ time)))
               (fun n => mkModelEntry
                           n (model_filename n (date ++ "_" ++ time))
                           (date ++ "_" ++ time)
                           ("models/"
                              ++ model_filename n (date ++ "_" ++ time))))
      by (intros n Hn; apply model_entry_of_artifact;
          [now apply registry_names_plain|exact Hd|exact Ht]).
    unfold list_sort_reverse. rewrite list_sort_all_ties.
    + now rewrite length_map.
    + intros a b Ha Hb. apply in_map_iff in Ha, Hb.
      destruct Ha as (na & <- & _). destruct Hb as (nb & <- & _).
      cbn [entry_timestamp]. apply ltb_irrefl.
Qed.

(** X24.  The predictions of a successful request can be downloaded
    under the [output_file] of the answer: the file holds the upload
    with one prediction and one class per row.  They do not outlive
    the next training request: when the results folder held only
    removable regular files, a training request whose upload passes the
    checks, successful or not, leaves no file of that name, and the
    download answers 404. *)
Theorem predictions_download_until_next_training :
  forall request w body w',
    serve_predict request w = (Ok200 body, w') ->
    (exists file df predictions,
        files_file request = Some file /\
        read_csv file = Return df /\
        length predictions = nrows df /\
        download_predictions (body_output_file body) w'
        = Ok200 (PredictionsCsv df predictions
                                (map classify_wqi predictions))) /\
    ((forall e, In e (RESULTS_FOLDER w) ->
                isfile e = true /\ removable e = true) ->
     forall request' file',
       acceptable_upload request' file' ->
       download_predictions (body_output_file body)
                            (snd (train request' w'))
       = ErrorJson 404 "File not found").
Proof.
  intros request w body w' H.
  destruct (predict_ok_world _ _ _ _ _ _ _ H)
    as (file & df & predictions & stats & (Hfile & _) & Hcsv & Hlen & _
        & Hbody & _ & _ & _ & Hres).
  cbv zeta in Hbody, Hres. subst body. cbn [body_output_file].
  destruct (prediction_names_not_store (requested_model request)
                                       (now request))
    as (Hn1 & Hn2 & Hn3).
  split.
  - exists file, df, predictions.
    split; [exact Hfile|]. split; [exact Hcsv|]. split; [exact Hlen|].
    unfold download_predictions. rewrite Hres.
    rewrite lookup_write_file_other by (intro E; now symmetry in E).
    match goal with
    | |- context [lookup_entry ?n (write_file ?n ?c ?d)] =>
        destruct (lookup_write_file_same n c d)
          as (e0 & -> & _ & -> & ->)
    end.
    reflexivity.
  - intros Hall request' file' Hacc.
    assert (Hall' : forall e, In e (RESULTS_FOLDER w') ->
                              isfile e = true /\ removable e = true).
    { rewrite Hres. now repeat apply write_file_keeps_files. }
    destruct (train request' w') as [resp w2] eqn:Ht. cbn [snd].
    unfold download_predictions.
    destruct (is_ok resp) eqn:Hok.
    + destruct resp as [body2| |]; try discriminate Hok.
      destruct (train_models_ok_results _ _ _ _ _ _ _ _ _ _ _ _ Ht)
        as (history & _ & _ & _ & _ & Hres2).
      cbv zeta in Hres2.
      rewrite (clear_folder_all_files _ Hall') in Hres2.
      rewrite Hres2.
      rewrite lookup_write_file_other by (intro E; now symmetry in E).
      rewrite lookup_write_file_other by (intro E; now symmetry in E).
      rewrite lookup_write_file_other by (simpl; discriminate).
      reflexivity.
    + rewrite (failed_training_results _ _ _ _ _ _ _ _ _ _ _ _ _
                 Hacc Ht Hok (clear_folder_all_files _ Hall')).
      reflexivity.
Qed.

End Listing.

(* ================================================================== *)
(** ** The branch of the loop that does not tune *)

Section Tuning.

Variable np_log1p : fval -> fval.
Variable secure_filename : string -> string.
Variable train_test_split : DataFrame -> list fval -> result Split.
Variable randomized_search :
  string -> PipelineSpec -> list string -> nat -> DataFrame -> list fval ->
  result Search.
Variables pipe_fit pipe_fit' :
  string -> PipelineSpec -> DataFrame -> list fval -> result Pipeline.
Variables cross_val_score cross_val_score' :
  string -> PipelineSpec -> DataFrame -> list fval -> result (list fval).
Variable refit : Pipeline -> DataFrame -> list fval -> result Pipeline.
Variable sk_metrics : list fval -> list fval -> result Metrics.

Lemma train_one_without_untuned ts fc sp total idx name pipe w :
  In name registry_names ->
  train_one randomized_search pipe_fit cross_val_score refit sk_metrics
            ts fc sp total idx name pipe w
  = train_one randomized_search pipe_fit' cross_val_score' refit sk_metrics
              ts fc sp total idx name pipe w.
Proof.
  intro H. unfold train_one. munfold.
  now rewrite !(tune_registry _ _ _ _ _ _ H).
Qed.

Lemma train_loop_without_untuned ts fc sp total models :
  (forall m, In m models -> In (fst m) registry_names) ->
  forall idx acc w,
    train_loop randomized_search pipe_fit cross_val_score refit sk_metrics
               ts fc sp total idx models acc w
    = train_loop randomized_search pipe_fit' cross_val_score' refit
                 sk_metrics ts fc sp total idx models acc w.
Proof.
  induction models as [|[name pipe] models IH]; intros Hall idx acc w;
    [reflexivity|].
  simpl. unfold mbind at 1 2.
  rewrite train_one_without_untuned by (apply (Hall (name, pipe)); now left).
  destruct (train_one _ _ _ _ _ _ _ _ _ _ _ _ _) as [[r|e] w1];
    [|reflexivity].
  apply IH. intros m Hm. apply Hall. now right.
Qed.

(** X25.  The branch of the training loop for a model without search
    space ([pipe.fit] and [cross_val_score]) is never taken: every
    model of the registry has a search space, so each is tuned by the
    randomized search with 30 iterations and reports the negated best
    score as its CV RMSE, and the answer and the effects of a training
    request do not depend on what the two calls of the other branch
    would do. *)
Theorem untuned_branch_is_never_taken :
  (forall name pipe sp,
      In name registry_names ->
      tune randomized_search pipe_fit cross_val_score name pipe sp
      = match randomized_search name pipe (param_space name) 30%nat
                                (X_train sp) (y_train sp) with
        | Return search =>
            Return (best_estimator_ search, fneg (best_score_ search),
                    best_params_ search)
        | Raise e => Raise e
        end) /\
  (forall request w,
      train_models np_log1p secure_filename train_test_split
                   randomized_search pipe_fit cross_val_score refit
                   sk_metrics request w
      = train_models np_log1p secure_filename train_test_split
                     randomized_search pipe_fit' cross_val_score' refit
                     sk_metrics request w).
Proof.
  split.
  - intros name pipe sp H. now apply tune_registry.
  - intros request w. unfold train_models, train_models_try.
    unfold mbind at 1 2.
    destruct (prepare_training np_log1p secure_filename train_test_split
                               request w) as [[[resp|p]|e] w1];
      [reflexivity| |reflexivity].
    assert (Hreport :
              fit_and_report randomized_search pipe_fit cross_val_score
                             refit sk_metrics p w1
              = fit_and_report randomized_search pipe_fit'
                               cross_val_score' refit sk_metrics p w1).
    { unfold fit_and_report. munfold.
      rewrite train_loop_without_untuned; [reflexivity|].
      intros m Hm. unfold registry_names. now apply in_map. }
    now rewrite Hreport.
Qed.

End Tuning.

(* ================================================================== *)
(** ** The further properties on the sample data *)

Lemma sample_folders_hold_removable_files :
  (forall e, In e (MODEL_FOLDER sample_world) ->
             isfile e = true /\ removable e = true) /\
  (forall e, In e (RESULTS_FOLDER sample_world) ->
             isfile e = true /\ removable e = true).
Proof.
  split; intros e He; simpl in He;
    repeat (destruct He as [<-|He]; [split; reflexivity|]);
    contradiction.
Qed.

Lemma sample_training_succeeds :
  exists body w',
    sample_train [] sample_request sample_world = (Ok200 body, w').
Proof. eexists; eexists; vm_compute; reflexivity. Qed.

Lemma trained_artifacts_are_stored_witness :
  exists body w',
    sample_train [] sample_request sample_world = (Ok200 body, w') /\
    length (body_models body) = 5%nat /\
    Permutation
      (listdir (MODEL_FOLDER w'))
      (map (fun n => model_filename n "20240201_120000") registry_names).
Proof.
  destruct sample_training_succeeds as (body & w' & E).
  exists body, w'. split; [exact E|].
  destruct (trained_artifacts_are_stored
              sample_log1p sample_secure_filename sample_split
              (sample_search []) sample_pipe_fit sample_cross_val_score
              sample_refit sample_metrics _ _ _ _ E)
    as (_ & Hlen & _ & Hlist).
  split; [exact Hlen|].
  exact (Hlist (proj1 sample_folders_hold_removable_files)).
Defined.

Lemma each_model_finds_its_own_artifact_witness :
  exists body w',
    sample_train [] sample_request sample_world = (Ok200 body, w') /\
    matching_model_files "SVR" (MODEL_FOLDER w')
    = [model_filename "SVR" "20240201_120000"].
Proof.
  destruct sample_training_succeeds as (body & w' & E).
  exists body, w'. split; [exact E|].
  exact (proj1 (each_model_finds_its_own_artifact
                  sample_log1p sample_secure_filename sample_split
                  (sample_search []) sample_pipe_fit sample_cross_val_score
                  sample_refit sample_metrics _ _ _ _ "SVR" E
                  (proj1 sample_folders_hold_removable_files)
                  (or_intror (or_introl eq_refl)))).
Defined.

Lemma latest_training_is_read_back_witness :
  exists body w',
    sample_train [] sample_request sample_world = (Ok200 body, w') /\
    get_dashboard_training w' = Ok200 (body_summary body).
Proof.
  destruct sample_training_succeeds as (body & w' & E).
  exists body, w'. split; [exact E|].
  exact (proj1 (proj2 (latest_training_is_read_back
                         sample_log1p sample_secure_filename sample_split
                         (sample_search []) sample_pipe_fit
                         sample_cross_val_score sample_refit sample_metrics
                         _ _ _ _ E))).
Defined.

Lemma history_restarts_with_each_run_witness :
  exists body w',
    sample_train [] sample_request sample_world = (Ok200 body, w') /\
    get_training_history w' = Return [body_summary body].
Proof.
  destruct sample_training_succeeds as (body & w' & E).
  exists body, w'. split; [exact E|].
  exact (proj1 (history_restarts_with_each_run
                  sample_log1p sample_secure_filename sample_split
                  (sample_search []) sample_pipe_fit sample_cross_val_score
                  sample_refit sample_metrics _ _ _ _ E
                  (proj2 sample_folders_hold_removable_files))).
Defined.

Lemma sample_training_fails :
  exists w',
    sample_train ["RandomForest"] sample_request sample_world
    = (Error500 (LibraryError "fit failed"), w').
Proof. eexists; vm_compute; reflexivity. Qed.

Lemma sample_prediction_succeeds :
  exists body w',
    sample_predict xgboost_prediction_request sample_world = (Ok200 body, w').
Proof. eexists; eexists; vm_compute; reflexivity. Qed.

Lemma sample_request_is_acceptable :
  acceptable_upload sample_request
                    (mkUpload "data.csv" (Return sample_training_frame)).
Proof. split; [reflexivity|]. split; [discriminate|reflexivity]. Qed.

Lemma dashboard_after_successful_run_witness :
  exists body w',
    sample_train [] sample_request sample_world = (Ok200 body, w') /\
    get_dashboard_summary w'
    = Ok200 (mkDashboardSummary true false 5 1
                                (Some (body_summary body)) None).
Proof.
  destruct sample_training_succeeds as (body & w' & E).
  exists body, w'. split; [exact E|].
  exact (proj1 (dashboard_after_successful_run
                  sample_log1p sample_secure_filename sample_split
                  (sample_search []) sample_pipe_fit sample_cross_val_score
                  sample_refit sample_metrics _ _ _ _ E
                  (proj1 sample_folders_hold_removable_files)
                  (proj2 sample_folders_hold_removable_files))).
Defined.

Lemma failed_training_empties_the_dashboard_witness :
  exists w',
    sample_train ["RandomForest"] sample_request sample_world
    = (Error500 (LibraryError "fit failed"), w') /\
    RESULTS_FOLDER w' = [] /\
    get_dashboard_history w' = Ok200 ([], 0%nat).
Proof.
  destruct sample_training_fails as (w' & E).
  exists w'. split; [exact E|].
  destruct (failed_training_empties_the_dashboard
              sample_log1p sample_secure_filename sample_split
              (sample_search ["RandomForest"]) sample_pipe_fit
              sample_cross_val_score sample_refit sample_metrics
              _ _ _ _ _ sample_request_is_acceptable E eq_refl
              (proj2 sample_folders_hold_removable_files))
    as (Hempty & _ & _ & Hhist).
  split; [exact Hempty|exact Hhist].
Defined.

Lemma prediction_is_recorded_witness :
  exists body w',
    sample_predict xgboost_prediction_request sample_world = (Ok200 body, w')
    /\ exists meta,
        get_dashboard_prediction w' = Ok200 meta /\
        meta_total_predictions meta = body_total_predictions body.
Proof.
  destruct sample_prediction_succeeds as (body & w' & E).
  exists body, w'. split; [exact E|].
  destruct (prediction_is_recorded
              sample_log1p sample_std sample_secure_filename _ _ _ _ E)
    as ((meta & _ & Hdash & _ & _ & Htotal & _) & _).
  exists meta. split; [exact Hdash|exact Htotal].
Defined.


Lemma sample_predictions_are_bounded_witness :
  exists body w',
    sample_predict xgboost_prediction_request sample_world = (Ok200 body, w')
    /\ ~ In TARGET (columns (fst (body_sample_predictions body))).
Proof.
  destruct sample_prediction_succeeds as (body & w' & E).
  exists body, w'. split; [exact E|].
  exact (proj1 (proj2 (proj2 (sample_predictions_are_bounded
                                sample_log1p sample_std sample_secure_filename
                                _ _ _ _ E)))).
Defined.

Lemma failed_run_progress_witness :
  exists w',
    sample_train ["RandomForest"] sample_request sample_world
    = (Error500 (LibraryError "fit failed"), w') /\
    progress (training_state w') <> 100%Z.
Proof.
  destruct sample_training_fails as (w' & E).
  exists w'. split; [exact E|].
  apply (proj2 (failed_run_progress
                  sample_log1p sample_secure_filename sample_split
                  (sample_search ["RandomForest"]) sample_pipe_fit
                  sample_cross_val_score sample_refit sample_metrics
                  _ _ _ _ E eq_refl)).
  discriminate.
Defined.

Lemma features_used_exclude_the_target_witness :
  exists body w',
    sample_train [] sample_request sample_world = (Ok200 body, w') /\
    ~ In TARGET (features_used (body_summary body)).
Proof.
  destruct sample_training_succeeds as (body & w' & E).
  exists body, w'. split; [exact E|].
  destruct (features_used_exclude_the_target
              sample_log1p sample_secure_filename sample_split
              (sample_search []) sample_pipe_fit sample_cross_val_score
              sample_refit sample_metrics _ _ _ _ E)
    as (file & df & out & _ & _ & _ & _ & Hnot & _).
  exact Hnot.
Defined.

Lemma analyzer_is_necessary_not_sufficient_witness :
  analyze_validation sample_training_frame
  = mkValidation true true [] true true.
Proof.
  assert (E : exists out,
             preprocess_dataframe sample_log1p sample_training_frame true
             = Return out) by (eexists; vm_compute; reflexivity).
  destruct E as (out & E).
  exact (proj1 analyzer_is_necessary_not_sufficient
               sample_log1p sample_training_frame out E).
Defined.

Lemma classify_wqi_is_monotone_witness :
  (class_rank (classify_wqi (Fin 30)) <= class_rank (classify_wqi (Fin 60)))%nat.
Proof.
  apply (proj1 classify_wqi_is_monotone (Fin 30) (Fin 60)). reflexivity.
Defined.

Lemma mape_of_nonnegative_targets_in_range_witness :
  exists q,
    clipped_mape (map Fin [50; 80]) (map Fin [40; 100]) = Fin q /\
    0 <= q <= 100.
Proof.
  apply (mape_of_nonnegative_targets_in_range [50; 80] [40; 100]).
  - discriminate.
  - reflexivity.
  - repeat constructor; discriminate.
Defined.

Lemma other_columns_pass_through_witness :
  exists out,
    preprocess_dataframe sample_log1p frame_with_unknown_target false
    = Return out /\
    col_cells TARGET out = [NaN; Fin 8; Fin 9].
Proof.
  assert (E : exists out,
             preprocess_dataframe sample_log1p frame_with_unknown_target false
             = Return out) by (eexists; vm_compute; reflexivity).
  destruct E as (out & E). exists out. split; [exact E|].
  assert (Hclean : clean_columns frame_with_unknown_target
                   = Return frame_with_unknown_target)
    by (vm_compute; reflexivity).
  exact (proj2 (other_columns_pass_through
                  sample_log1p _ _ _ _ Hclean E) eq_refl).
Defined.

Lemma prediction_stats_bounds_witness :
  exists stats,
    prediction_stats sample_std [Fin 30; Fin 10; Fin 20] = Return stats /\
    In (min_wqi stats) [Fin 30; Fin 10; Fin 20] /\
    fle (min_wqi stats) (Fin 20) = true.
Proof.
  destruct (proj2 (prediction_stats_bounds sample_std)
                  [Fin 30; Fin 10; Fin 20] ltac:(discriminate))
    as (stats & Hs & Hfinite & _).
  destruct (Hfinite eq_refl) as (Hmin & _ & Hle).
  exists stats. split; [exact Hs|]. split; [exact Hmin|].
  apply Hle. right. right. now left.
Defined.

Lemma uploads_are_never_removed_witness :
  In "train_20240201_120000_data.csv"
     (listdir (UPLOAD_FOLDER
                 (snd (sample_train [] sample_request sample_world)))).
Proof.
  exact (proj2 (uploads_are_never_removed
                  sample_log1p sample_std sample_secure_filename sample_split
                  (sample_search []) sample_pipe_fit sample_cross_val_score
                  sample_refit sample_metrics sample_request sample_world)
               _ sample_request_is_acceptable).
Defined.

Lemma failed_prediction_writes_no_result_witness :
  RESULTS_FOLDER (snd (sample_predict svr_prediction_request sample_world))
  = RESULTS_FOLDER sample_world.
Proof.
  assert (Hfail : is_ok (fst (sample_predict svr_prediction_request
                                             sample_world)) = false)
    by (vm_compute; reflexivity).
  exact (proj1 (proj2 (proj2 (failed_prediction_writes_no_result
                                sample_log1p sample_std sample_secure_filename
                                svr_prediction_request sample_world))
                      Hfail)).
Defined.

Lemma list_models_reads_artifacts_back_witness :
  exists body w',
    sample_train [] sample_request sample_world = (Ok200 body, w') /\
    exists models,
      list_models w' = Ok200 (models, 5%nat) /\
      Permutation (map entry_name models) registry_names.
Proof.
  destruct sample_training_succeeds as (body & w' & E).
  exists body, w'. split; [exact E|].
  destruct (proj2 (list_models_reads_artifacts_back
                     sample_log1p sample_secure_filename sample_split
                     (sample_search []) sample_pipe_fit sample_cross_val_score
                     sample_refit sample_metrics)
                  sample_request sample_world body w' "20240201" "120000" E
                  (proj1 sample_folders_hold_removable_files)
                  eq_refl eq_refl eq_refl)
    as (models & Hlist & Hperm).
  exists models. split; [exact Hlist|].
  exact (Permutation_map entry_name Hperm).
Defined.

Lemma predictions_download_until_next_training_witness :
  exists body w',
    sample_predict xgboost_prediction_request sample_world = (Ok200 body, w')
    /\ download_predictions (body_output_file body)
                            (snd (sample_train [] sample_request w'))
       = ErrorJson 404 "File not found".
Proof.
  destruct sample_prediction_succeeds as (body & w' & E).
  exists body, w'. split; [exact E|].
  exact (proj2 (predictions_download_until_next_training
                  sample_log1p sample_std sample_secure_filename sample_split
                  (sample_search []) sample_pipe_fit sample_cross_val_score
                  sample_refit sample_metrics _ _ _ _ E)
               (proj2 sample_folders_hold_removable_files)
               sample_request _ sample_request_is_acceptable).
Defined.

Lemma untuned_branch_is_never_taken_witness :
  tune (sample_search []) sample_pipe_fit sample_cross_val_score
       "SVR" (mkSpec true) (mkSplit [] [] [] [])
  = Return (constant_pipeline (Fin (sample_rmse "SVR")), fneg (Fin (-1)), []).
Proof.
  exact (proj1 (untuned_branch_is_never_taken
                  sample_log1p sample_secure_filename sample_split
                  (sample_search []) sample_pipe_fit sample_pipe_fit
                  sample_cross_val_score sample_cross_val_score
                  sample_refit sample_metrics)
               "SVR" (mkSpec true) (mkSplit [] [] [] [])
               (or_intror (or_introl eq_refl))).
Defined.
